(** * UnionArray: the tagged-union array of awkward-array

    A shallow embedding of [awkward/array/union.py].  The class keeps three
    co-indexed buffers: [tags] (which branch an element comes from), [index]
    (where in that branch it sits) and [contents] (the branch arrays).

    Scope of the model.
    - [tags] and [index] are one-dimensional integer arrays, modelled by the
      list of their values; their [shape] is the one-element tuple holding the
      length.  The module [planar] has validation and the read of one
      selector for tags and index of two dimensions.
    - NumPy is modelled as NumPy 1.13 and later behaves: a boolean mask must
      have the length of the array it indexes, [astype] to an integer type
      wraps around, [unique] returns the distinct values in ascending order.
      Storing an integer that does not fit into an integer array wraps
      around like the cast does (NumPy 2 raises OverflowError there).
    - Python exceptions are values of [exn]; a computation that may raise
      returns a [result].
    - [_valid] is modelled with the memo flag [_isvalid] clear: the flag only
      skips a check that has already succeeded on the same three buffers, and
      every setter clears it.
    - Branch arrays are reached through the interface [BranchArray], as the
      Python code reaches them by duck typing; [content] gives concrete ones.
    - An operation that mutates branches in place returns the contents
      afterwards.  In the section [Writing] the entries of [contents] are
      values, which is right when they are distinct objects; the module
      [shared] has the branch objects and the tuple of references to them.
    - What a method asks of a branch beyond [BranchArray] (its columns, its
      bytes, its own [_prepare] or [_reduce], ...) is a parameter of the
      method.  [deepcopy], [_gettype] and [_util_pandas], which only build
      objects of other modules, are left out.

    The first part defines the model, function by function as in the source;
    the second part states and proves its properties. *)

From Stdlib Require Import String ZArith QArith List Sorted Bool Lia.
Import ListNotations.
Open Scope string_scope.
Open Scope list_scope.
Open Scope Z_scope.

Set Implicit Arguments.

(** ** Exceptions and results *)

Inductive exn : Type :=
| ValueError (msg : string)
| TypeError (msg : string)
| IndexError (msg : string)
| KeyError (msg : string)
| NotImplementedError (msg : string)
| AssertionError
| RuntimeError (msg : string).

Inductive result (A : Type) : Type :=
| Ok (a : A)
| Raise (e : exn).

Arguments Ok {A} a.
Arguments Raise {A} e.

Definition bind {A B : Type} (c : result A) (k : A -> result B) : result B :=
  match c with
  | Ok a => k a
  | Raise e => Raise e
  end.

Declare Scope result_scope.
Delimit Scope result_scope with result.
Notation "x <- c ;; k" := (bind c (fun x => k))
  (at level 61, c at next level, right associativity) : result_scope.
Notation "c ;;; k" := (bind c (fun _ => k))
  (at level 61, right associativity) : result_scope.
Open Scope result_scope.

(** [for x in xs: body(x)], where the body may raise. *)
Fixpoint for_each {A : Type} (body : A -> result unit) (xs : list A) : result unit :=
  match xs with
  | [] => Ok tt
  | x :: xs' => body x ;;; for_each body xs'
  end.

(** [[f(x) for x in xs]], where [f] may raise. *)
Fixpoint map_result {A B : Type} (f : A -> result B) (xs : list A) : result (list B) :=
  match xs with
  | [] => Ok []
  | x :: xs' => y <- f x ;; ys <- map_result f xs' ;; Ok (y :: ys)
  end.

(** A loop that threads a value through the iterations and may raise. *)
Fixpoint fold_result {A S : Type} (body : S -> A -> result S) (xs : list A) (s : S)
  : result S :=
  match xs with
  | [] => Ok s
  | x :: xs' => s' <- body s x ;; fold_result body xs' s'
  end.

(** ** NumPy scalar types

    The classes that [x.dtype.type] can be, on a platform whose C [long] has
    64 bits (Linux, macOS): there [int8], ..., [int64] and [uint8], ...,
    [uint64] name the C types up to [long], and [longlong] and [ulonglong]
    are two further 64-bit integer classes of their own. *)

Inductive scalar_type : Type :=
| bool_
| int8 | uint8 | int16 | uint16 | int32 | uint32 | int64 | uint64
| longlong | ulonglong
| float16 | float32 | float64 | float128
| complex64 | complex128 | complex256
| timedelta64 | datetime64 | object_ | str_ | bytes_ | void.

Definition scalar_type_eqb (a b : scalar_type) : bool :=
  match a, b with
  | bool_, bool_ | int8, int8 | uint8, uint8 | int16, int16 | uint16, uint16
  | int32, int32 | uint32, uint32 | int64, int64 | uint64, uint64
  | longlong, longlong | ulonglong, ulonglong
  | float16, float16 | float32, float32 | float64, float64 | float128, float128
  | complex64, complex64 | complex128, complex128 | complex256, complex256
  | timedelta64, timedelta64 | datetime64, datetime64 | object_, object_
  | str_, str_ | bytes_, bytes_ | void, void => true
  | _, _ => false
  end.

(** The classes [uniondtype] tests against: a concrete scalar type, one of
    NumPy's abstract classes, or Python's [bool] (which [numpy.bool] named
    when this code was written, and which no NumPy scalar type derives from). *)
Inductive pyclass : Type :=
| concrete (t : scalar_type)
| integer
| floating
| complexfloating
| python_bool.

Coercion concrete : scalar_type >-> pyclass.

Definition issubclass1 (t : scalar_type) (c : pyclass) : bool :=
  match c with
  | concrete t' => scalar_type_eqb t t'
  | integer =>
      match t with
      | int8 | uint8 | int16 | uint16 | int32 | uint32 | int64 | uint64
      | longlong | ulonglong | timedelta64 => true
      | _ => false
      end
  | floating =>
      match t with
      | float16 | float32 | float64 | float128 => true
      | _ => false
      end
  | complexfloating =>
      match t with
      | complex64 | complex128 | complex256 => true
      | _ => false
      end
  | python_bool => false
  end.

(** [issubclass(t, (c1, c2, ...))] *)
Definition issubclass (t : scalar_type) (cs : list pyclass) : bool :=
  existsb (issubclass1 t) cs.

Module numpy.

(** [numpy.iinfo(t).max] for the unsigned types of the tag ladder. *)
Definition bits (t : scalar_type) : Z :=
  match t with
  | int8 | uint8 => 8
  | int16 | uint16 => 16
  | int32 | uint32 => 32
  | _ => 64
  end.

Definition signed (t : scalar_type) : bool :=
  match t with
  | int8 | int16 | int32 | int64 | longlong | timedelta64 => true
  | _ => false
  end.

Definition iinfo_max (t : scalar_type) : Z :=
  if signed t then 2 ^ (bits t - 1) - 1 else 2 ^ (bits t) - 1.

(** Casting one integer to an integer type: two's-complement wrap-around. *)
Definition cast (t : scalar_type) (x : Z) : Z :=
  if signed t
  then (x + 2 ^ (bits t - 1)) mod 2 ^ (bits t) - 2 ^ (bits t - 1)
  else x mod 2 ^ (bits t).

(** [value.astype(t)] for an integer array and an integer type [t]. *)
Definition astype (t : scalar_type) (value : list Z) : list Z :=
  map (cast t) value.

(** [a.max()]: raises on an empty array. *)
Definition max (a : list Z) : result Z :=
  match a with
  | [] => Raise (ValueError
            "zero-size array to reduction operation maximum which has no identity")
  | x :: xs => Ok (fold_left Z.max xs x)
  end.

Definition arange (n : nat) : list Z := map Z.of_nat (seq 0 n).

Definition full (n : nat) (v : Z) : list Z := repeat v n.

Definition count_nonzero (mask : list bool) : nat :=
  length (filter (fun b : bool => b) mask).

(** [a == v], elementwise. *)
Definition eq_scalar (a : list Z) (v : Z) : list bool :=
  map (fun x => x =? v) a.

(** [(a < v).any()] *)
Definition any_lt (a : list Z) (v : Z) : bool :=
  existsb (fun x => x <? v) a.

Fixpoint array_equal (a b : list Z) : bool :=
  match a, b with
  | [], [] => true
  | x :: a', y :: b' => (x =? y) && array_equal a' b'
  | _, _ => false
  end.

(** [numpy.unique]: the distinct values, ascending. *)
Section Unique.
Variable A : Type.
Variable cmp : A -> A -> comparison.

Fixpoint insert (x : A) (l : list A) : list A :=
  match l with
  | [] => [x]
  | y :: l' =>
      match cmp x y with
      | Lt => x :: l
      | Eq => l
      | Gt => y :: insert x l'
      end
  end.

Definition unique_by (a : list A) : list A := fold_right insert [] a.
End Unique.

Definition unique (a : list Z) : list Z := unique_by Z.compare a.

(** The elements of [a] where [mask] is set. *)
Fixpoint compress {A : Type} (mask : list bool) (a : list A) : list A :=
  match mask, a with
  | b :: mask', x :: a' =>
      if b then x :: compress mask' a' else compress mask' a'
  | _, _ => []
  end.

(** [a[mask]] for a boolean [mask]. *)
Definition getitem_mask {A : Type} (a : list A) (mask : list bool)
  : result (list A) :=
  if (length mask =? length a)%nat then Ok (compress mask a)
  else Raise (IndexError
         "boolean index did not match indexed array along dimension 0").

(** [a] with the successive [vals] written where [mask] is set. *)
Fixpoint place {A : Type} (mask : list bool) (a : list A) (vals : list A)
  : list A :=
  match mask, a with
  | true :: mask', x :: a' =>
      match vals with
      | v :: vals' => v :: place mask' a' vals'
      | [] => x :: place mask' a' []
      end
  | false :: mask', x :: a' => x :: place mask' a' vals
  | _, _ => a
  end.

(** [a[mask] = vals] for an array [vals]. *)
Definition setitem_mask {A : Type} (a : list A) (mask : list bool)
  (vals : list A) : result (list A) :=
  if negb (length mask =? length a)%nat then
    Raise (IndexError
      "boolean index did not match indexed array along dimension 0")
  else if negb (length vals =? count_nonzero mask)%nat then
    Raise (ValueError
      "NumPy boolean array indexing assignment cannot assign the input values")
  else Ok (place mask a vals).

(** [a[mask] = v] for one value [v]. *)
Fixpoint fill_mask {A : Type} (mask : list bool) (a : list A) (v : A)
  : list A :=
  match mask, a with
  | b :: mask', x :: a' => (if b then v else x) :: fill_mask mask' a' v
  | _, _ => a
  end.

Definition setitem_mask_scalar {A : Type} (a : list A) (mask : list bool)
  (v : A) : result (list A) :=
  if negb (length mask =? length a)%nat then
    Raise (IndexError
      "boolean index did not match indexed array along dimension 0")
  else Ok (fill_mask mask a v).

(** The shape of a one-dimensional array. *)
Definition shape {A : Type} (a : list A) : list nat := [length a].

(** Equality of two shapes. *)
Fixpoint shape_eqb (s1 s2 : list nat) : bool :=
  match s1, s2 with
  | [], [] => true
  | n1 :: s1', n2 :: s2' => (n1 =? n2)%nat && shape_eqb s1' s2'
  | _, _ => false
  end.

End numpy.

(** ** Python sequences and NumPy indexing of a one-dimensional array *)

(** The position a Python or NumPy integer index [i] denotes in a sequence of
    length [n]: negative indices count from the end. *)
Definition wrap_index (n : nat) (i : Z) : result nat :=
  let len := Z.of_nat n in
  if (i <? - len) || (len <=? i) then Raise (IndexError "index out of range")
  else Ok (Z.to_nat (if i <? 0 then i + len else i)).

(** [t[i]] for a tuple or list [t]. *)
Definition tuple_getitem {A : Type} (t : list A) (i : Z) : result A :=
  p <- wrap_index (length t) i ;;
  match nth_error t p with
  | Some x => Ok x
  | None => Raise (IndexError "index out of range")
  end.

(** The sequence [t] with position [i] replaced by [x]: what the holder of
    [t] sees after the object at [t[i]] was mutated into [x]. *)
Fixpoint replace_nth {A : Type} (t : list A) (p : nat) (x : A) : list A :=
  match t, p with
  | [], _ => []
  | _ :: t', O => x :: t'
  | y :: t', S p' => y :: replace_nth t' p' x
  end.

(** What indexing a one-dimensional array gives: one element (a
    zero-dimensional result) or again a one-dimensional array. *)
Inductive selection (A : Type) : Type :=
| scalar_sel (x : A)
| array_sel (xs : list A).

Arguments scalar_sel {A} x.
Arguments array_sel {A} xs.

(** The selectors NumPy accepts for one dimension. *)
Inductive selector : Type :=
| sel_int (i : Z)
| sel_slice (start stop step : option Z)
| sel_array (idx : list Z)
| sel_mask (mask : list bool).

(** The positions of the slice [start:stop:step] in a sequence of length
    [n], as [slice.indices] followed by [range] computes them. *)
Definition slice_positions (n : nat) (start stop step : option Z)
  : result (list nat) :=
  let len := Z.of_nat n in
  let step := match step with Some s => s | None => 1 end in
  if step =? 0 then Raise (ValueError "slice step cannot be zero")
  else
    let lower := if step <? 0 then -1 else 0 in
    let upper := if step <? 0 then len - 1 else len in
    let clamp v := if v <? 0 then Z.max (v + len) lower else Z.min v upper in
    let start := match start with
                 | Some v => clamp v
                 | None => if step <? 0 then upper else lower
                 end in
    let stop := match stop with
                | Some v => clamp v
                | None => if step <? 0 then lower else upper
                end in
    let count := if step <? 0
                 then (if stop <? start then (start - stop - 1) / (- step) + 1 else 0)
                 else (if start <? stop then (stop - start - 1) / step + 1 else 0) in
    Ok (map (fun k => Z.to_nat (start + Z.of_nat k * step)) (seq 0 (Z.to_nat count))).

(** The positions a selector picks in an array of length [n]; they depend on
    the length only, never on the values. *)
Definition positions (n : nat) (s : selector) : result (selection nat) :=
  match s with
  | sel_int i => p <- wrap_index n i ;; Ok (scalar_sel p)
  | sel_slice start stop step =>
      ps <- slice_positions n start stop step ;; Ok (array_sel ps)
  | sel_array idx => ps <- map_result (wrap_index n) idx ;; Ok (array_sel ps)
  | sel_mask mask =>
      if (length mask =? n)%nat then Ok (array_sel (numpy.compress mask (seq 0 n)))
      else Raise (IndexError
             "boolean index did not match indexed array along dimension 0")
  end.

Definition take (a : list Z) (ps : selection nat) : selection Z :=
  match ps with
  | scalar_sel p => scalar_sel (nth p a 0)
  | array_sel ps => array_sel (map (fun p => nth p a 0) ps)
  end.

(** [a[s]] for a one-dimensional integer array [a]. *)
Definition ndarray_getitem (a : list Z) (s : selector) : result (selection Z) :=
  ps <- positions (length a) s ;; Ok (take a ps).

(** ** The base class

    [UnionArray] inherits its class attributes from
    [awkward.array.base.AwkwardArray], which is not part of the source at
    hand. *)

(** Modelled from the spec: the type of stored tags.  The spec has tags of
    "the smallest unsigned integer width that fits", so the first rung of the
    ladder in the tags setter is the 8-bit unsigned type. *)
Definition TAGTYPE : scalar_type := uint8.

(** Modelled from the spec: the type of index values, "non-negative
    integers" that are tested for being negative, hence signed. *)
Definition INDEXTYPE : scalar_type := int64.

(** Modelled from the spec: the setters check what they are given (the spec
    lists their errors among those of the structural model). *)
Definition check_prop_valid : bool := true.

(** Modelled from the spec: the invariants are "enforced before any read
    that depends on them". *)
Definition check_whole_valid : bool := true.

(** Modelled from the spec: the array offers "standard length/iteration". *)
Definition allow_iter : bool := true.

(** A string selector: one field name or several. *)
Inductive stringslice : Type :=
| field (name : string)
| fields (names : list string).

(** What [UnionArray] asks of a branch array.  In Python this is duck typing:
    a branch is a NumPy array or any other awkward array. *)
Class BranchArray (B : Type) : Type := {
  (** what a positional read of a branch returns *)
  item : Type;
  (** the selector parts handed through to the branch *)
  tail_selector : Type;
  (** [len(x)] *)
  len : B -> nat;
  (** [x.dtype.type] *)
  dtype_type : B -> scalar_type;
  (** [x[(index,) + tail]] *)
  getitem : B -> selection Z -> list tail_selector -> result item;
  (** [x[where]] for a string selector *)
  getitem_fields : B -> stringslice -> result B;
  (** the branch after [x[name] = value] *)
  setitem_field : B -> string -> B -> result B;
  (** the branch after [del x[name]] *)
  delitem_field : B -> string -> result B;
  (** [isinstance(v, (numpy.ndarray, AwkwardArray))], with the array *)
  as_array : item -> option B
}.

(** The two entry points of [awkward.array.indexed.IndexedArray] that
    [__setitem__] calls; the class is not part of the source at hand, so both
    are parameters of the model. *)
Class Indexed (B : Type) : Type := {
  (** [IndexedArray.invert(permutation)] *)
  invert : list Z -> result (list Z);
  (** [IndexedArray(index, content)] *)
  IndexedArray : list Z -> B -> B
}.

(** ** The class *)

Section UnionArray.

Context {B : Type} {branch : BranchArray B} {indexed : Indexed B}.

Record UnionArray : Type := {
  _tags : list Z;
  _index : list Z;
  _contents : list B
}.

(** *** Property setters *)

(** The [tags] setter.  [value] is an array of integers; the ladder picks
    the unsigned type the tags are stored in, and the cast wraps around. *)
Definition tags_ladder (tagsmax : Z) : result scalar_type :=
  if tagsmax <=? numpy.iinfo_max TAGTYPE then Ok TAGTYPE
  else if tagsmax <=? numpy.iinfo_max uint8 then Ok uint8
  else if tagsmax <=? numpy.iinfo_max uint16 then Ok uint16
  else if tagsmax <=? numpy.iinfo_max uint32 then Ok uint32
  else if tagsmax <=? numpy.iinfo_max uint64 then Ok uint64
  else Raise (ValueError "maximum tag must be at most {0}").

Definition set_tags (value : list Z) : result (list Z) :=
  tagsmax <- numpy.max value ;;
  dtype <- tags_ladder tagsmax ;;
  let value := numpy.astype dtype value in
  if check_prop_valid then
    if (length value =? 0)%nat then
      Raise (ValueError "tags must be non-empty")
    else if negb (issubclass dtype [integer]) then
      Raise (TypeError "tags must have integer dtype")
    else if numpy.any_lt value 0 then
      Raise (ValueError "tags must be a non-negative array")
    else Ok value
  else Ok value.

(** The [index] setter.  Its [TypeError] is for an array whose dtype is not
    an integer type; the arrays of this model hold integers. *)
Definition set_index (value : list Z) : result (list Z) :=
  if check_prop_valid then
    if numpy.any_lt value 0 then
      Raise (ValueError "index must be a non-negative array")
    else Ok value
  else Ok value.

(** The [contents] setter.  Its [TypeError] is for a value that cannot be
    iterated; here [value] is a sequence of branch arrays. *)
Definition set_contents (value : list B) : result (list B) :=
  if check_prop_valid then
    if (length value =? 0)%nat then
      Raise (ValueError "contents must be non-empty")
    else Ok value
  else Ok value.

(** *** Construction *)

(** [UnionArray(tags, index, contents)] *)
Definition __init__ (tags index : list Z) (contents : list B)
  : result UnionArray :=
  tags' <- set_tags tags ;;
  index' <- set_index index ;;
  contents' <- set_contents contents ;;
  Ok {| _tags := tags'; _index := index'; _contents := contents' |}.

(** One turn of the loop of [fromtags]: the positions of [tag] receive
    [0, 1, 2, ...]. *)
Definition fromtags_step (tags : list Z) (index : list Z) (tag : nat)
  : result (list Z) :=
  let mask := numpy.eq_scalar tags (Z.of_nat tag) in
  numpy.setitem_mask index mask (numpy.arange (numpy.count_nonzero mask)).

(** [UnionArray.fromtags(tags, contents)]: the sequential factory. *)
Definition fromtags (tags : list Z) (contents : list B) : result UnionArray :=
  out_tags <- set_tags tags ;;
  out_contents <- set_contents contents ;;
  (if (0 <? length out_tags)%nat then
     m <- numpy.max out_tags ;;
     if Z.of_nat (length out_contents) <=? m then
       Raise (ValueError
         "maximum tag is {0} but there are only {1} contents arrays")
     else Ok tt
   else Ok tt) ;;;
  index <- fold_result (fromtags_step out_tags)
             (seq 0 (length out_contents))
             (numpy.full (length out_tags) (-1)) ;;
  out_index <- set_index index ;;
  Ok {| _tags := out_tags; _index := out_index; _contents := out_contents |}.

(** [self.copy(tags=..., index=..., contents=...)]: a shallow copy, with
    the given buffers put in through their setters. *)
Definition copy (self : UnionArray) (tags index : option (list Z))
  (contents : option (list B)) : result UnionArray :=
  tags' <- match tags with
           | Some v => set_tags v
           | None => Ok (_tags self)
           end ;;
  index' <- match index with
            | Some v => set_index v
            | None => Ok (_index self)
            end ;;
  contents' <- match contents with
               | Some v => set_contents v
               | None => Ok (_contents self)
               end ;;
  Ok {| _tags := tags'; _index := index'; _contents := contents' |}.

(** *** Validation *)

(** The body of the loop of [_valid] for one tag value. *)
Definition valid_tag (self : UnionArray) (index : list Z) (tag : Z)
  : result unit :=
  selected <- numpy.getitem_mask index (numpy.eq_scalar (_tags self) tag) ;;
  maxindex <- numpy.max selected ;;
  content <- tuple_getitem (_contents self) tag ;;
  if Z.of_nat (len content) <=? maxindex then
    Raise (ValueError
      "maximum index ({0}) must be less than the length of all contents arrays ({1})")
  else Ok tt.

Definition _valid (self : UnionArray) : result unit :=
  if check_whole_valid then
    if (length (numpy.shape (_index self))
          <? length (numpy.shape (_tags self)))%nat then
      Raise (ValueError
        "tags length ({0}) must be less than or equal to index length ({1})")
    else if negb (numpy.shape_eqb (tl (numpy.shape (_tags self)))
                                       (tl (numpy.shape (_index self)))) then
      Raise (ValueError
        "tags dimensionality ({0}) must be equal to index dimensionality ({1})")
    else
      (if (0 <? length (_tags self))%nat then
         m <- numpy.max (_tags self) ;;
         if Z.of_nat (length (_contents self)) <=? m then
           Raise (ValueError
             "maximum tag is {0} but there are only {1} contents arrays")
         else Ok tt
       else Ok tt) ;;;
      let index := firstn (length (_tags self)) (_index self) in
      for_each (valid_tag self index) (numpy.unique (_tags self))
  else Ok tt.

(** The loop of [issequential]: [false] at the first tag whose index values
    are not [0, 1, 2, ...]. *)
Fixpoint issequential_loop (self : UnionArray) (todo : list Z) : result bool :=
  match todo with
  | [] => Ok true
  | tag :: todo' =>
      let mask := numpy.eq_scalar (_tags self) tag in
      selected <- numpy.getitem_mask (_index self) mask ;;
      if negb (numpy.array_equal selected
                 (numpy.arange (numpy.count_nonzero mask)))
      then Ok false
      else issequential_loop self todo'
  end.

Definition issequential (self : UnionArray) : result bool :=
  _valid self ;;;
  issequential_loop self (numpy.unique (_tags self)).

(** *** Persistence *)

(** The description [__awkward_persist__] returns.  [fill] hands an array
    to the storage layer and returns a reference to it; the description is
    modelled with the arrays in the place of their references. *)
Inductive persisted : Type :=
| call_fromtags (tags : list Z) (contents : list B)
| call_UnionArray (tags index : list Z) (contents : list B).

Definition __awkward_persist__ (self : UnionArray) : result persisted :=
  _valid self ;;;
  sequential <- issequential self ;;
  if sequential
  then Ok (call_fromtags (_tags self) (_contents self))
  else Ok (call_UnionArray (_tags self) (_index self) (_contents self)).

(** Replaying a description: calling what its ["call"] entry names on its
    ["args"]. *)
Definition replay (p : persisted) : result UnionArray :=
  match p with
  | call_fromtags tags contents => fromtags tags contents
  | call_UnionArray tags index contents => __init__ tags index contents
  end.

(** *** Length and iteration *)

Definition __len__ (self : UnionArray) : nat := length (_tags self).

(** One step of the generator: [contents[tags[i]][index[i]]]. *)
Definition iter_item (self : UnionArray) (i : nat) : result item :=
  tag <- ndarray_getitem (_tags self) (sel_int (Z.of_nat i)) ;;
  match tag with
  | scalar_sel t =>
      content <- tuple_getitem (_contents self) t ;;
      idx <- ndarray_getitem (_index self) (sel_int (Z.of_nat i)) ;;
      getitem content idx []
  | array_sel _ =>
      Raise (TypeError
        "only integer scalar arrays can be converted to a scalar index")
  end.

(** [list(iter(self))]: everything the generator yields, in order. *)
Definition __iter__ (self : UnionArray) : result (list item) :=
  (if allow_iter then Ok tt
   else Raise (RuntimeError "not allowed to iterate over this array")) ;;;
  _valid self ;;;
  map_result (iter_item self) (seq 0 (length (_tags self))).

(** *** Reading *)

Inductive where_ : Type :=
| where_fields (names : stringslice)
| where_empty
| where_single (head : selector)
| where_tuple (head : selector) (tail : list tail_selector).

(** What a read returns: the array itself, something read from one branch
    (no union around it), or a new [UnionArray]. *)
Inductive read : Type :=
| ret_self (u : UnionArray)
| ret_branch (r : item)
| ret_union (u : UnionArray).

(** The positional part of [__getitem__], after [where] was split into
    [head] and [tail]. *)
Definition getitem_positional (self : UnionArray) (head : selector)
  (tail : list tail_selector) : result read :=
  tags <- ndarray_getitem (_tags self) head ;;
  index <- ndarray_getitem (firstn (length (_tags self)) (_index self)) head ;;
  match tags with
  | scalar_sel t =>
      match index with
      | scalar_sel _ =>
          content <- tuple_getitem (_contents self) t ;;
          r <- getitem content index tail ;;
          Ok (ret_branch r)
      | array_sel _ => Raise (TypeError "len() of unsized object")
      end
  | array_sel ts =>
      if (length ts =? 0)%nat then
        content <- tuple_getitem (_contents self) 0 ;;
        r <- getitem content index tail ;;
        Ok (ret_branch r)
      else if forallb (fun t => t =? hd 0 ts) ts then
        content <- tuple_getitem (_contents self) (hd 0 ts) ;;
        r <- getitem content index tail ;;
        Ok (ret_branch r)
      else
        match index with
        | array_sel ixs =>
            out <- copy self (Some ts) (Some ixs) None ;;
            Ok (ret_union out)
        | scalar_sel _ => Raise (TypeError "index must be an array")
        end
  end.

Definition __getitem__ (self : UnionArray) (where' : where_) : result read :=
  _valid self ;;;
  match where' with
  | where_fields names =>
      contents <- map_result
                    (fun tag =>
                       content <- tuple_getitem (_contents self) tag ;;
                       getitem_fields content names)
                    (numpy.unique (_tags self)) ;;
      if (length contents =? 0)%nat then
        content <- tuple_getitem (_contents self) 0 ;;
        projected <- getitem_fields content names ;;
        out <- copy self None None (Some [projected]) ;;
        Ok (ret_union out)
      else
        out <- copy self None None (Some contents) ;;
        Ok (ret_union out)
  | where_empty => Ok (ret_self self)
  | where_single head => getitem_positional self head []
  | where_tuple head tail => getitem_positional self head tail
  end.

End UnionArray.

Arguments UnionArray B : clear implicits.

(** ** Writing and deleting fields *)

Section Writing.

Context {B : Type} {branch : BranchArray B} {indexed : Indexed B}.

(** The selector of a write or a delete: one field name, or something that
    is no string selector at all.  (The form with several names is not
    modelled.) *)
Inductive write_key : Type :=
| key_field (name : string)
| key_other.

(** A loop whose body mutates the branches in place.  When a turn raises,
    the loop stops and what earlier turns wrote stays written: the outcome
    is the contents afterwards, with the exception if there was one. *)
Fixpoint mutate_each (body : list B -> Z -> result (list B)) (todo : list Z)
  (contents : list B) : list B * option exn :=
  match todo with
  | [] => (contents, None)
  | tag :: todo' =>
      match body contents tag with
      | Ok contents' => mutate_each body todo' contents'
      | Raise e => (contents, Some e)
      end
  end.

(** One turn of the loop of [__setitem__] for a single field name. *)
Definition setitem_tag (self : UnionArray B) (name : string) (what : B)
  (contents : list B) (tag : Z) : result (list B) :=
  selected <- numpy.getitem_mask
                (firstn (length (_tags self)) (_index self))
                (numpy.eq_scalar (_tags self) tag) ;;
  inverseindex <- invert selected ;;
  let value := IndexedArray inverseindex what in
  content <- tuple_getitem contents tag ;;
  content' <- setitem_field content name value ;;
  p <- wrap_index (length contents) tag ;;
  Ok (replace_nth contents p content').

Definition __setitem__ (self : UnionArray B) (where' : write_key) (what : B)
  : list B * option exn :=
  if negb (numpy.shape_eqb
             (firstn (length (numpy.shape (_tags self))) [len what])
             (numpy.shape (_tags self))) then
    (_contents self,
     Some (ValueError
       "array to assign does not have the same starting shape as tags"))
  else
    match where' with
    | key_field name =>
        mutate_each (setitem_tag self name what)
          (numpy.unique (_tags self)) (_contents self)
    | key_other =>
        (_contents self,
         Some (TypeError "invalid index for assigning column to Table: {0}"))
    end.

(** One turn of the loop of [__delitem__] for a single field name. *)
Definition delitem_tag (name : string) (contents : list B) (tag : Z)
  : result (list B) :=
  content <- tuple_getitem contents tag ;;
  content' <- delitem_field content name ;;
  p <- wrap_index (length contents) tag ;;
  Ok (replace_nth contents p content').

Definition __delitem__ (self : UnionArray B) (where' : write_key)
  : list B * option exn :=
  match where' with
  | key_field name =>
      mutate_each (delitem_tag name) (numpy.unique (_tags self))
        (_contents self)
  | key_other =>
      (_contents self,
       Some (TypeError "invalid index for assigning column to Table: {0}"))
  end.

End Writing.

(** ** Type promotion *)

Section Promotion.

Context {B : Type} {branch : BranchArray B}.

(** [all(issubclass(x.dtype.type, classes) for x in arrays)] *)
Definition all_issubclass (arrays : list B) (classes : list pyclass) : bool :=
  forallb (fun x => issubclass (dtype_type x) classes) arrays.

(** [hasattr(numpy, "float128")] and [hasattr(numpy, "complex256")] depend
    on the platform NumPy was built for. *)
Variables hasattr_float128 hasattr_complex256 : bool.

Definition uniondtype (arrays : list B) : scalar_type :=
  if all_issubclass arrays [concrete bool_; python_bool] then bool_
  else if all_issubclass arrays [concrete int8] then int8
  else if all_issubclass arrays [concrete uint8] then uint8
  else if all_issubclass arrays (map concrete [int8; uint8; int16]) then int16
  else if all_issubclass arrays (map concrete [uint8; uint16]) then uint16
  else if all_issubclass arrays
            (map concrete [int8; uint8; int16; uint16; int32]) then int32
  else if all_issubclass arrays (map concrete [uint8; uint16; uint32]) then uint32
  else if all_issubclass arrays
            (map concrete [int8; uint8; int16; uint16; int32; uint32; int64])
       then int64
  else if all_issubclass arrays
            (map concrete [uint8; uint16; uint32; uint64]) then uint64
  else if all_issubclass arrays [concrete float16] then float16
  else if all_issubclass arrays (map concrete [float16; float32]) then float32
  else if all_issubclass arrays
            (map concrete [float16; float32; float64]) then float64
  else if hasattr_float128
          && all_issubclass arrays
               (map concrete [float16; float32; float64; float128])
       then float128
  else if all_issubclass arrays [integer; floating] then float64
  else if all_issubclass arrays [concrete complex64] then complex64
  else if all_issubclass arrays
            (map concrete [complex64; complex128]) then complex128
  else if hasattr_complex256
          && all_issubclass arrays
               (map concrete [complex64; complex128; complex256])
       then complex256
  else if all_issubclass arrays [integer; floating; complexfloating]
       then complex128
  else object_.

End Promotion.

(** ** Dispatch of elementwise operations *)

(** Tag combinations are ordered field by field, as NumPy orders the records
    of a structured array. *)
Fixpoint combo_compare (a b : list Z) : comparison :=
  match a, b with
  | [], [] => Eq
  | [], _ :: _ => Lt
  | _ :: _, [] => Gt
  | x :: a', y :: b' =>
      match x ?= y with
      | Eq => combo_compare a' b'
      | c => c
      end
  end.

Definition combo_eqb (a b : list Z) : bool :=
  match combo_compare a b with
  | Eq => true
  | _ => false
  end.

(** The type the [tags] setter stored a tags array in; the ladder of the
    setter makes it a function of the largest stored value. *)
Definition stored_dtype (tags : list Z) : scalar_type :=
  match (m <- numpy.max tags ;; tags_ladder m) with
  | Ok t => t
  | Raise _ => TAGTYPE
  end.

(** [[x == y for y in ys]] all true *)
Definition all_same_dtype (ts : list scalar_type) : bool :=
  match ts with
  | [] => true
  | t :: ts' => forallb (scalar_type_eqb t) ts'
  end.

(** [numpy.stack(tags, axis=-1).view([(str(i), x.dtype) ...]).reshape(shape)]:
    one record per position, holding that position's tag of every operand.
    [stack] brings the arrays to one common type, so the view fits the stacked
    bytes only when all the tags arrays have the same type; otherwise the
    view or the reshape raises. *)
Definition stack_view (tags : list (list Z)) (n : nat) : result (list (list Z)) :=
  if all_same_dtype (map stored_dtype tags) then
    Ok (map (fun i => map (fun t => nth i t 0) tags) (seq 0 n))
  else Raise (ValueError "new type not compatible with array").

Section Dispatch.

Context {B : Type} {branch : BranchArray B}.

Inductive operand : Type :=
| op_union (u : UnionArray B)
| op_other (x : item).

(** What the underlying operation is called on, for one group. *)
Inductive argument : Type :=
| arg_read (r : @read B branch)
| arg_other (x : item).

Inductive ufunc_result : Type :=
| ufunc_tuple (xs : list item)
| ufunc_one (x : item).

(** [getattr(ufunc, method)], with the keyword arguments fixed. *)
Variable ufunc : list argument -> result ufunc_result.

Inductive dispatch_value : Type :=
| value_union (u : UnionArray B)
| value_item (x : item).

Inductive dispatched : Type :=
| dispatch_NotImplemented
| dispatch_None
| dispatch_one (u : UnionArray B)
| dispatch_tuple (vs : list dispatch_value).

(** The dictionary [contents]: the key is [None] or a slot of a tuple
    result, the value the branches collected so far. *)
Definition slots : Type := list (option nat * list B).

Definition key_eqb (k1 k2 : option nat) : bool :=
  match k1, k2 with
  | None, None => true
  | Some i, Some j => (i =? j)%nat
  | _, _ => false
  end.

Fixpoint lookup (k : option nat) (d : slots) : option (list B) :=
  match d with
  | [] => None
  | (k', v) :: d' => if key_eqb k k' then Some v else lookup k d'
  end.

(** [if k not in contents: contents[k] = []], then [contents[k].append(x)] *)
Fixpoint append_at (k : option nat) (x : B) (d : slots) : slots :=
  match d with
  | [] => [(k, [x])]
  | (k', v) :: d' =>
      if key_eqb k k' then (k', v ++ [x]) :: d' else (k', v) :: append_at k x d'
  end.

Record dispatch_state : Type := {
  outtags : list Z;
  outindex : list Z;
  out : option (list item);
  contents : slots
}.

(** The slots of a tuple result that hold arrays go to [contents]. *)
Fixpoint collect_tuple (i : nat) (xs : list item) (d : slots) : slots :=
  match xs with
  | [] => d
  | x :: xs' =>
      collect_tuple (S i) xs'
        (match as_array x with
         | Some b => append_at (Some i) b d
         | None => d
         end)
  end.

(** One turn of the loop over the distinct combinations. *)
Definition dispatch_group (method : string) (inputs : list operand)
  (combos : list (list Z)) (st : dispatch_state) (group : nat * list Z)
  : result dispatch_state :=
  let (outtag, combo) := group in
  let mask := map (fun c => combo_eqb c combo) combos in
  outtags' <- numpy.setitem_mask_scalar (outtags st) mask
                (numpy.cast TAGTYPE (Z.of_nat outtag)) ;;
  outindex' <- numpy.setitem_mask (outindex st) mask
                 (numpy.arange (numpy.count_nonzero mask)) ;;
  args <- map_result
            (fun x =>
               match x with
               | op_union u =>
                   r <- __getitem__ u (where_single (sel_mask mask)) ;;
                   Ok (arg_read r)
               | op_other v => Ok (arg_other v)
               end)
            inputs ;;
  result <- ufunc args ;;
  match result with
  | ufunc_tuple xs =>
      Ok {| outtags := outtags'; outindex := outindex';
            out := match out st with None => Some xs | Some o => Some o end;
            contents := collect_tuple 0 xs (contents st) |}
  | ufunc_one x =>
      if String.eqb method "at" then
        Ok {| outtags := outtags'; outindex := outindex';
              out := out st; contents := contents st |}
      else
        Ok {| outtags := outtags'; outindex := outindex';
              out := out st;
              contents := match as_array x with
                          | Some b => append_at None b (contents st)
                          | None => contents st
                          end |}
  end.

Definition union_tags (inputs : list operand) : result (list (list Z)) :=
  fold_result
    (fun tags x =>
       match x with
       | op_union u => _valid u ;;; Ok (tags ++ [_tags u])
       | op_other _ => Ok tags
       end)
    inputs [].

(** The last step for a tuple result: every slot that collected branches
    becomes a [UnionArray]. *)
Fixpoint wrap_slots (st : dispatch_state) (i : nat) (o : list item)
  : result (list dispatch_value) :=
  match o with
  | [] => Ok []
  | x :: o' =>
      v <- match lookup (Some i) (contents st) with
           | Some bs =>
               u <- __init__ (outtags st) (outindex st) bs ;;
               Ok (value_union u)
           | None => Ok (value_item x)
           end ;;
      vs <- wrap_slots st (S i) o' ;;
      Ok (v :: vs)
  end.

(** [__array_ufunc__(ufunc, method, *inputs, **kwargs)]; [out_given] says
    whether ["out"] is among the keyword arguments.  [numpy.empty] leaves
    its array unset; the model starts from zeros. *)
Definition __array_ufunc__ (method : string) (inputs : list operand)
  (out_given : bool) : result dispatched :=
  if out_given then
    Raise (NotImplementedError "in-place operations not supported")
  else if negb (String.eqb method "__call__") then Ok dispatch_NotImplemented
  else
    tags <- union_tags inputs ;;
    match tags with
    | [] => Raise AssertionError
    | tags0 :: others =>
        if existsb (fun x => negb (numpy.shape_eqb (numpy.shape x)
                                     (numpy.shape tags0))) others then
          Raise (ValueError "cannot {0} UnionArrays because tag shapes differ")
        else
          combos <- stack_view tags (length tags0) ;;
          let groups := numpy.unique_by combo_compare combos in
          st <- fold_result (dispatch_group method inputs combos)
                  (combine (seq 0 (length groups)) groups)
                  {| outtags := repeat 0 (length tags0);
                     outindex := repeat 0 (length tags0);
                     out := None; contents := [] |} ;;
          match out st with
          | None =>
              match lookup None (contents st) with
              | Some bs =>
                  u <- __init__ (outtags st) (outindex st) bs ;;
                  Ok (dispatch_one u)
              | None => Ok dispatch_None
              end
          | Some o =>
              vs <- wrap_slots st 0 o ;; Ok (dispatch_tuple vs)
          end
    end.

End Dispatch.

(** ** Concrete branch arrays

    One-dimensional NumPy arrays, and the two awkward arrays the field-name
    operations need: tables and indexed arrays. *)

Inductive scalar : Type :=
| int_ (z : Z)
| float_ (q : Q).

(** Modelled from the spec: [Table] and [IndexedArray] live in other modules
    of the package, which are not part of the source at hand; the spec names
    what a branch offers ("length, element-type introspection, field
    projection/assignment/deletion") and no more.  A table is its row count
    and its named columns in order; an indexed array reads its content
    through its index.  The NumPy array is NumPy's. *)
#[warnings="-register-all"]
Inductive content : Type :=
| ndarray (dtype : scalar_type) (data : list scalar)
| indexed_array (index : list Z) (inner : content)
| Table (rows : nat) (columns : list (string * content)).

(** What a positional read of a branch gives: one element, an array, or a
    row of a table (a reference to the table and the row number). *)
Inductive value : Type :=
| element (s : scalar)
| array (c : content)
| row (table : content) (i : nat).

Definition content_len (c : content) : nat :=
  match c with
  | ndarray _ data => length data
  | indexed_array index _ => length index
  | Table rows _ => rows
  end.

Fixpoint content_dtype (c : content) : scalar_type :=
  match c with
  | ndarray dtype _ => dtype
  | indexed_array _ inner => content_dtype inner
  | Table _ _ => void
  end.

(** [a[index]] for an integer array [a] and a scalar or an array of indices. *)
Definition take_index (a : list Z) (index : selection Z) : result (selection Z) :=
  match index with
  | scalar_sel i => ndarray_getitem a (sel_int i)
  | array_sel ixs => ndarray_getitem a (sel_array ixs)
  end.

(** [c[(index,) + tail]].  The branches are one-dimensional, so a tail that
    is not empty asks for too many dimensions. *)
Fixpoint content_getitem (c : content) (index : selection Z)
  (tail : list selector) : result value :=
  match c with
  | ndarray dtype data =>
      match tail with
      | _ :: _ => Raise (IndexError "too many indices for array")
      | [] =>
          match index with
          | scalar_sel i =>
              p <- wrap_index (length data) i ;;
              match nth_error data p with
              | Some s => Ok (element s)
              | None => Raise (IndexError "index out of range")
              end
          | array_sel ixs =>
              ps <- map_result (wrap_index (length data)) ixs ;;
              Ok (array (ndarray dtype (map (fun p => nth p data (int_ 0)) ps)))
          end
      end
  | indexed_array index' inner =>
      through <- take_index index' index ;;
      content_getitem inner through tail
  | Table rows columns =>
      match tail with
      | _ :: _ => Raise (IndexError "too many indices for array")
      | [] =>
          match index with
          | scalar_sel i => p <- wrap_index rows i ;; Ok (row c p)
          | array_sel ixs =>
              ps <- map_result (wrap_index rows) ixs ;;
              Ok (array (Table (length ps)
                           (map (fun kv : string * content =>
                                   (fst kv,
                                    indexed_array (map Z.of_nat ps) (snd kv)))
                                columns)))
          end
      end
  end.

Fixpoint assoc_get (columns : list (string * content)) (name : string)
  : option content :=
  match columns with
  | [] => None
  | (k, v) :: columns' =>
      if String.eqb k name then Some v else assoc_get columns' name
  end.

(** An existing key keeps its place, a new key goes to the end. *)
Fixpoint assoc_set (columns : list (string * content)) (name : string)
  (v : content) : list (string * content) :=
  match columns with
  | [] => [(name, v)]
  | (k, v') :: columns' =>
      if String.eqb k name then (k, v) :: columns'
      else (k, v') :: assoc_set columns' name v
  end.

Definition assoc_del (columns : list (string * content)) (name : string)
  : list (string * content) :=
  filter (fun kv : string * content => negb (String.eqb (fst kv) name)) columns.

Definition no_fields {A : Type} : result A :=
  Raise (IndexError
    "only integers, slices, ellipsis, numpy.newaxis and integer or boolean arrays are valid indices").

(** Modelled from the spec: field projection.  A table gives the named
    column, or the table of the named columns; an indexed array projects its
    content; a NumPy array has no fields. *)
Fixpoint content_getitem_fields (c : content) (names : stringslice)
  : result content :=
  match c with
  | ndarray _ _ => no_fields
  | indexed_array index inner =>
      projected <- content_getitem_fields inner names ;;
      Ok (indexed_array index projected)
  | Table rows columns =>
      match names with
      | field name =>
          match assoc_get columns name with
          | Some column => Ok column
          | None => Raise (ValueError "no column named {0}")
          end
      | fields names' =>
          columns' <- map_result
                        (fun name =>
                           match assoc_get columns name with
                           | Some column => Ok (name, column)
                           | None => Raise (ValueError "no column named {0}")
                           end)
                        names' ;;
          Ok (Table rows columns')
      end
  end.

(** Modelled from the spec: field assignment.  A table replaces the named
    column or adds it. *)
Definition content_setitem_field (c : content) (name : string) (v : content)
  : result content :=
  match c with
  | Table rows columns => Ok (Table rows (assoc_set columns name v))
  | _ => no_fields
  end.

(** Modelled from the spec: field deletion.  A table drops the named
    column. *)
Definition content_delitem_field (c : content) (name : string)
  : result content :=
  match c with
  | Table rows columns =>
      match assoc_get columns name with
      | Some _ => Ok (Table rows (assoc_del columns name))
      | None => Raise (KeyError name)
      end
  | _ => no_fields
  end.

(** The concrete branch arrays as branches of a union. *)
#[export] Instance content_branch : BranchArray content := {
  item := value;
  tail_selector := selector;
  len := content_len;
  dtype_type := content_dtype;
  getitem := content_getitem;
  getitem_fields := content_getitem_fields;
  setitem_field := content_setitem_field;
  delitem_field := content_delitem_field;
  as_array := fun v => match v with array c => Some c | _ => None end
}.

(** [out[permutation] = numpy.arange(len(permutation))] *)
Fixpoint scatter (out : list Z) (permutation : list Z) (j : nat) : result (list Z) :=
  match permutation with
  | [] => Ok out
  | p :: permutation' =>
      q <- wrap_index (length out) p ;;
      scatter (replace_nth out q (Z.of_nat j)) permutation' (S j)
  end.

(** Modelled from the spec: [IndexedArray.invert], the "invert a permutation
    utility" the spec lists among what is consumed from branch arrays; it is
    defined in [awkward/array/indexed.py], not part of the source at hand.
    The inverse has one entry per value up to the largest one in
    [permutation], and entry [permutation[j]] is [j]. *)
Definition content_invert (permutation : list Z) : result (list Z) :=
  m <- numpy.max permutation ;;
  scatter (repeat 0 (Z.to_nat (m + 1))) permutation 0.

#[export] Instance content_indexed : Indexed content := {
  invert := content_invert;
  IndexedArray := indexed_array
}.

(** [list(c)]: the elements of a branch, in order. *)
Definition content_list (c : content) : result (list value) :=
  map_result (fun i => content_getitem c (scalar_sel (Z.of_nat i)) [])
    (seq 0 (content_len c)).

(** ** Notions the statements below use *)

Section Notions.

Context {B : Type} {branch : BranchArray B}.

(** An array that came out of the constructor. *)
Definition constructed (u : UnionArray B) : Prop :=
  exists tags index contents, __init__ tags index contents = Ok u.

(** Two arrays with the same tags, the same contents and the same index
    entries at the positions the tags cover. *)
Definition agree (u1 u2 : UnionArray B) : Prop :=
  _tags u1 = _tags u2
  /\ _contents u1 = _contents u2
  /\ firstn (length (_tags u1)) (_index u1)
     = firstn (length (_tags u2)) (_index u2).

(** A selection of tags that is not empty and holds the tag [t] only. *)
Definition homogeneous (t : Z) (tags : selection Z) : Prop :=
  match tags with
  | scalar_sel x => x = t
  | array_sel xs => xs <> [] /\ Forall (fun x => x = t) xs
  end.

(** The kinds of the promotion lattice: boolean, integer, floating-point
    and complex scalar types. *)
Definition numeric (t : scalar_type) : bool :=
  issubclass t [concrete bool_; integer; floating; complexfloating].

(** Two reads with the same outcome: the same exception, the same thing
    read from a branch, or arrays that [agree]. *)
Definition same_read (r1 r2 : result (@read B branch)) : Prop :=
  match r1, r2 with
  | Ok (ret_self a), Ok (ret_self b) => agree a b
  | Ok (ret_branch x), Ok (ret_branch y) => x = y
  | Ok (ret_union a), Ok (ret_union b) => agree a b
  | Raise e1, Raise e2 => e1 = e2
  | _, _ => False
  end.

End Notions.

(** Tags as the setter stores them: at least one, each an unsigned integer of
    at most 64 bits. *)
Definition stored_tags (tags : list Z) : Prop :=
  tags <> [] /\ Forall (fun x => 0 <= x < 2 ^ 64) tags.

(** ** Scenarios *)

(** The arrays of the worked example: [[10, 20]] and [[1.5, 2.5]]. *)
Definition example_contents : list content :=
  [ndarray int64 [int_ 10; int_ 20]; ndarray float64 [float_ 1.5; float_ 2.5]].

(** The array of the worked example, as the sequential factory builds it. *)
Definition example_union : UnionArray content := {|
  _tags := [0; 1; 0; 1];
  _index := [0; 0; 1; 1];
  _contents := example_contents
|}.

(** The same array with two more index entries, one of them out of range
    for either branch. *)
Definition example_union_padded : UnionArray content := {|
  _tags := [0; 1; 0; 1];
  _index := [0; 0; 1; 1; 99; 7];
  _contents := example_contents
|}.

(** A second array of the same length over two integer branches. *)
Definition example_other : UnionArray content := {|
  _tags := [0; 0; 1; 1];
  _index := [0; 1; 0; 1];
  _contents := [ndarray int64 [int_ 1; int_ 2]; ndarray int64 [int_ 3; int_ 4]]
|}.

(** Two tables of two rows each, with one column ["x"]. *)
Definition example_table (a b : Z) : content :=
  Table 2 [("x", ndarray int64 [int_ a; int_ b])].

Definition example_tables : list content :=
  [example_table 1 2; example_table 3 4].

Definition example_what : content :=
  ndarray int64 [int_ 100; int_ 101; int_ 102; int_ 103].

(** Addition as an elementwise binary operation on one-dimensional arrays of
    equal length. *)
Definition scalar_add (x y : scalar) : scalar :=
  match x, y with
  | int_ a, int_ b => int_ (a + b)
  | int_ a, float_ q => float_ (Qplus (inject_Z a) q)
  | float_ p, int_ b => float_ (Qplus p (inject_Z b))
  | float_ p, float_ q => float_ (Qplus p q)
  end.

Fixpoint zip_with (f : scalar -> scalar -> scalar) (xs ys : list scalar)
  : list scalar :=
  match xs, ys with
  | x :: xs', y :: ys' => f x y :: zip_with f xs' ys'
  | _, _ => []
  end.

Definition binary_ufunc (f : scalar -> scalar -> scalar)
  (args : list (@argument content content_branch)) : result ufunc_result :=
  match args with
  | [arg_read (ret_branch (array (ndarray d1 xs)));
     arg_read (ret_branch (array (ndarray d2 ys)))] =>
      if (length xs =? length ys)%nat then
        Ok (ufunc_one (array (ndarray d1 (zip_with f xs ys))))
      else Raise (ValueError "operands could not be broadcast together")
  | _ => Raise (TypeError "unsupported operand type(s)")
  end.

(** Two operands of 289 elements with 17 branches each; position [i] of the
    first has tag [i / 17], of the second tag [i mod 17], so that all the 289
    tag combinations occur.  Element [i] of the first is [i], of the second
    [1000 * i]. *)
Definition wide_branch (scale : Z) (f : nat -> nat) : content :=
  ndarray int64 (map (fun j => int_ (scale * Z.of_nat (f j))) (seq 0 17)).

Definition wide_A : UnionArray content := {|
  _tags := map (fun i => Z.of_nat (i / 17)) (seq 0 289);
  _index := map (fun i => Z.of_nat (i mod 17)) (seq 0 289);
  _contents := map (fun t => wide_branch 1 (fun j => t * 17 + j)%nat) (seq 0 17)
|}.

Definition wide_B : UnionArray content := {|
  _tags := map (fun i => Z.of_nat (i mod 17)) (seq 0 289);
  _index := map (fun i => Z.of_nat (i / 17)) (seq 0 289);
  _contents := map (fun t => wide_branch 1000 (fun j => j * 17 + t)%nat) (seq 0 17)
|}.

(** ** Notions for unions of NumPy arrays and their dispatch *)

(** A branch that is a NumPy array, and its elements. *)
Definition is_ndarray (c : content) : Prop :=
  match c with
  | ndarray _ _ => True
  | _ => False
  end.

Definition branch_data (c : content) : list scalar :=
  match c with
  | ndarray _ data => data
  | _ => []
  end.

(** Element [i] of a union over one-dimensional NumPy branches:
    [contents[tags[i]][index[i]]]. *)
Definition element_at (u : UnionArray content) (i : nat) : scalar :=
  nth (Z.to_nat (nth i (_index u) 0))
    (branch_data
       (nth (Z.to_nat (nth i (_tags u) 0)) (_contents u) (ndarray int64 [])))
    (int_ 0).

Definition elements (u : UnionArray content) : list scalar :=
  map (element_at u) (seq 0 (length (_tags u))).

(** A constructed, valid array all of whose branches are one-dimensional
    NumPy arrays. *)
Definition flat_union (u : UnionArray content) : Prop :=
  constructed u /\ _valid u = Ok tt /\ Forall is_ndarray (_contents u).

(** Two masks that are never set at the same place. *)
Definition disjoint (m1 m2 : list bool) : Prop :=
  forall i, nth i m1 false = true -> nth i m2 false = true -> False.

(** The tag combinations of two operands, position by position. *)
Definition combos_of (tagsA tagsB : list Z) : list (list Z) :=
  map (fun i => [nth i tagsA 0; nth i tagsB 0]) (seq 0 (length tagsA)).

(** [combos == combo] *)
Definition group_mask (combos : list (list Z)) (g : list Z) : list bool :=
  map (fun c => combo_eqb c g) combos.

(** What the operation returns for one group: [f] applied to the elements of
    the two operands at the places of the group. *)
Definition group_result (f : scalar -> scalar -> scalar)
  (A B : UnionArray content) (combos : list (list Z)) (g : list Z)
  : list scalar :=
  zip_with f (numpy.compress (group_mask combos g) (elements A))
             (numpy.compress (group_mask combos g) (elements B)).

(** The state of the dispatch loop after the groups [done]: no tuple result
    was seen, one branch was collected per group, and behind the mask of
    group number [k] the output tags are [k] and the output index counts
    [0, 1, 2, ...]. *)
Definition dispatch_invariant (f : scalar -> scalar -> scalar)
  (A B : UnionArray content) (combos : list (list Z)) (done : list (list Z))
  (st : @dispatch_state content content_branch) : Prop :=
  out st = None
  /\ length (outtags st) = length combos
  /\ length (outindex st) = length combos
  /\ (exists bs,
         contents st = match done with [] => [] | _ :: _ => [(None, bs)] end
         /\ Forall2 (fun g b => exists dtype,
                         b = ndarray dtype (group_result f A B combos g))
              done bs)
  /\ forall k g,
       nth_error done k = Some g ->
       numpy.compress (group_mask combos g) (outtags st)
       = repeat (Z.of_nat k) (numpy.count_nonzero (group_mask combos g))
       /\ numpy.compress (group_mask combos g) (outindex st)
          = numpy.arange (numpy.count_nonzero (group_mask combos g)).

(** ** The rest of the class

    The methods below ask more of a branch than [BranchArray] lists; what
    they ask is a parameter of each section. *)

Section Copies.

Context {B : Type} {branch : BranchArray B}.

(** [self.copy(contents=[g(x) for x in self._contents])], the common body of
    [empty_like], [zeros_like], [ones_like], [astype] and [fillna]. *)
Definition copy_with_contents (g : B -> result B) (self : UnionArray B)
  : result (UnionArray B) :=
  contents <- map_result g (_contents self) ;;
  copy self None None (Some contents).

(** [isinstance(x, numpy.ndarray)] *)
Variable isinstance_ndarray : B -> bool.

(** [numpy_like] is [numpy.empty_like], [branch_like] is [x.empty_like]
    with the overrides given. *)
Definition empty_like (numpy_like branch_like : B -> result B)
  (self : UnionArray B) : result (UnionArray B) :=
  copy_with_contents
    (fun x => if isinstance_ndarray x then numpy_like x else branch_like x)
    self.

Definition zeros_like (numpy_like branch_like : B -> result B)
  (self : UnionArray B) : result (UnionArray B) :=
  copy_with_contents
    (fun x => if isinstance_ndarray x then numpy_like x else branch_like x)
    self.

Definition ones_like (numpy_like branch_like : B -> result B)
  (self : UnionArray B) : result (UnionArray B) :=
  copy_with_contents
    (fun x => if isinstance_ndarray x then numpy_like x else branch_like x)
    self.

(** [branch_astype x] is [x.astype(dtype)]. *)
Definition astype (branch_astype : B -> result B) (self : UnionArray B)
  : result (UnionArray B) :=
  copy_with_contents branch_astype self.

(** [util_fillna x] is [self._util_fillna(x, value)]. *)
Definition fillna (util_fillna : B -> result B) (self : UnionArray B)
  : result (UnionArray B) :=
  copy_with_contents util_fillna self.

(** The [dtype] property; the cache [_dtype], which the contents setter
    clears, is left out. *)
Definition dtype (hasattr_float128 hasattr_complex256 : bool)
  (self : UnionArray B) : scalar_type :=
  uniondtype hasattr_float128 hasattr_complex256 (_contents self).

(** [all(self._util_hasjagged(x) for x in self._contents)] *)
Definition _hasjagged (util_hasjagged : B -> bool) (self : UnionArray B) : bool :=
  forallb util_hasjagged (_contents self).

(** The loop of the [columns] property; [branch_columns x] is [x.columns]. *)
Fixpoint columns_loop (branch_columns : B -> list string) (contents : list B)
  (out : option (list string)) : list string :=
  match contents with
  | [] =>
      match out with
      | None => []
      | Some o => o
      end
  | content :: contents' =>
      if isinstance_ndarray content then []
      else
        columns_loop branch_columns contents'
          (Some match out with
                | None => branch_columns content
                | Some o =>
                    filter (fun x => existsb (String.eqb x) o)
                      (branch_columns content)
                end)
  end.

Definition columns (branch_columns : B -> list string) (self : UnionArray B)
  : list string :=
  columns_loop branch_columns (_contents self) None.



(** One turn of the loop of [counts] and [regular]: the places of [tag]
    receive [array[self._index[mask]]], cast to the type of [out]. *)
Definition gather_step (cast : Z -> Z) (self : UnionArray B) (out : list Z)
  (ta : nat * list Z) : result (list Z) :=
  let (tag, array) := ta in
  let mask := numpy.eq_scalar (_tags self) (Z.of_nat tag) in
  selected <- numpy.getitem_mask (_index self) mask ;;
  picked <- ndarray_getitem array (sel_array selected) ;;
  match picked with
  | array_sel values => numpy.setitem_mask out mask (map cast values)
  | scalar_sel _ => Raise (TypeError "an integer array selects an array")
  end.

(** The common body of [counts] and [regular]; [util x] is
    [self._util_counts(x)] or [self._util_regular(x)], which returns an
    integer array or raises, and [cast] is the cast into
    [self.uniondtype(arrays)].  The arrays of all the branches are built
    before the loop starts.  [numpy.empty] leaves its array unset; the model
    starts from zeros. *)
Definition gather_branches (util : B -> result (list Z)) (cast : Z -> Z)
  (self : UnionArray B) : result (list Z) :=
  _valid self ;;;
  arrays <- map_result util (_contents self) ;;
  fold_result (gather_step cast self)
    (combine (seq 0 (length arrays)) arrays)
    (repeat 0 (__len__ self)).

Definition counts (util_counts : B -> result (list Z)) (cast : Z -> Z)
  (self : UnionArray B) : result (list Z) :=
  gather_branches util_counts cast self.

Definition regular (util_regular : B -> result (list Z)) (cast : Z -> Z)
  (self : UnionArray B) : result (list Z) :=
  gather_branches util_regular cast self.

End Copies.

(** [numpy.iinfo(t).min] *)
Definition iinfo_min (t : scalar_type) : Z :=
  if numpy.signed t then - 2 ^ (numpy.bits t - 1) else 0.

(** *** Flattening for a reduction *)

(** [isinstance(c, numpy.ndarray)] for the concrete branches. *)
Definition isinstance_ndarray (c : content) : bool :=
  match c with
  | ndarray _ _ => true
  | _ => false
  end.

Section Aggregation.

(** The value NumPy stores when a scalar is written into an array of the
    given type. *)
Variable cast : scalar_type -> scalar -> scalar.

(** [content._prepare(identity, dtype)] for a branch that is no NumPy array. *)
Variable branch_prepare : scalar -> scalar_type -> content -> result content.

Variables hasattr_float128 hasattr_complex256 : bool.

(** The first lines of [_prepare]: the type of the buffer.  [identity_type]
    is [numpy.dtype(type(identity))]. *)
Definition prepare_dtype (identity_type : scalar_type)
  (dtype_arg : option scalar_type) (self : UnionArray content) : scalar_type :=
  match dtype_arg with
  | Some d => d
  | None =>
      if issubclass (dtype hasattr_float128 hasattr_complex256 self)
           [concrete bool_; python_bool]
      then identity_type
      else dtype hasattr_float128 hasattr_complex256 self
  end.

(** One turn of the loop of [_prepare].  A branch result that is not a
    one-dimensional NumPy array is outside this model. *)
Definition prepare_step (self : UnionArray content) (identity : scalar)
  (dtype' : scalar_type) (index : list Z) (out : option (list scalar))
  (tc : nat * content) : result (option (list scalar)) :=
  let (tag, content0) := tc in
  content1 <- match content0 with
              | ndarray _ _ => Ok content0
              | _ => branch_prepare identity dtype' content0
              end ;;
  let mask := numpy.eq_scalar (_tags self) (Z.of_nat tag) in
  selected <- numpy.getitem_mask index mask ;;
  c <- content_getitem content1 (array_sel selected) [] ;;
  match c with
  | array (ndarray _ data) =>
      let out0 := match out with
                  | Some o => o
                  | None => repeat (cast dtype' identity) (length (_tags self))
                  end in
      out1 <- numpy.setitem_mask out0 mask (map (cast dtype') data) ;;
      Ok (Some out1)
  | _ => Raise (TypeError "the branch did not give a one-dimensional array")
  end.

(** [self._prepare(identity, dtype)]: one buffer of the length of the tags,
    or [None] when there is no branch. *)
Definition _prepare (identity : scalar) (identity_type : scalar_type)
  (dtype_arg : option scalar_type) (self : UnionArray content)
  : result (option content) :=
  let dtype' := prepare_dtype identity_type dtype_arg self in
  let index := firstn (length (_tags self)) (_index self) in
  out <- fold_result (prepare_step self identity dtype' index)
           (combine (seq 0 (length (_contents self))) (_contents self))
           None ;;
  Ok (match out with
      | Some data => Some (ndarray dtype' data)
      | None => None
      end).

(** [self._reduce(ufunc, identity, dtype, regularaxis)].  [branch_reduce x]
    is [x._reduce(ufunc, identity, dtype, regularaxis)] and [ufunc_reduce]
    is [ufunc.reduce].  In the second branch [copy] is called with the
    keyword [content], which it does not have: once [self[n]] is read for the
    first common column [n], the call raises. *)
Variable util_hasjagged : content -> bool.
Variable branch_columns : content -> list string.
Variable branch_reduce : content -> result content.
Variable reduction : Type.
Variable ufunc_reduce : option content -> result reduction.

Inductive reduced : Type :=
| reduced_union (u : UnionArray content)
| reduced_value (r : reduction).

Definition _reduce (identity : scalar) (identity_type : scalar_type)
  (dtype_arg : option scalar_type) (self : UnionArray content)
  : result reduced :=
  if _hasjagged util_hasjagged self then
    out <- copy_with_contents branch_reduce self ;;
    Ok (reduced_union out)
  else
    match columns isinstance_ndarray branch_columns self with
    | n :: _ =>
        __getitem__ self (where_fields (field n)) ;;;
        Raise (TypeError "copy() got an unexpected keyword argument 'content'")
    | [] =>
        buffer <- _prepare identity identity_type dtype_arg self ;;
        r <- ufunc_reduce buffer ;;
        Ok (reduced_value r)
    end.

End Aggregation.

(** ** Further notions *)

(** The tags of the operands that are unions, in the order of the operands. *)
Definition operand_tags {B : Type} {branch : BranchArray B}
  (inputs : list (@operand B branch)) : list (list Z) :=
  flat_map (fun x => match x with
                     | op_union u => [_tags u]
                     | op_other _ => []
                     end) inputs.

(** What [counts] and [regular] compute at place [i] from the arrays of the
    branches: the entry that the index names in the array of the branch that
    the tag names. *)
Definition gathered {B : Type} (arrays : list (list Z)) (cast : Z -> Z)
  (u : UnionArray B) (i : nat) : Z :=
  cast (nth (Z.to_nat (nth i (_index u) 0))
          (nth (Z.to_nat (nth i (_tags u) 0)) arrays [])
          0).

(** ** Writing and deleting through shared branch objects

    [contents] is a tuple of references.  One branch object can sit at
    several of its positions, and [self._contents[tag][where] = ...] changes
    that object, hence every position that holds it.  In this module the
    tuple holds object numbers and a [heap] gives the current value of every
    object.  The functions of the section [Writing] above, where the tuple
    holds the values, are these when no object sits at two positions.  What
    one branch object shares with another inside is not modelled: a write to
    one object changes the value of that object only. *)

Module shared.

Section Objects.

Context {B : Type} {branch : BranchArray B} {indexed : Indexed B}.

Definition heap : Type := nat -> B.

(** The heap after the object [r] was mutated into [x]. *)
Definition store (h : heap) (r : nat) (x : B) : heap :=
  fun r' => if (r' =? r)%nat then x else h r'.

(** What the holder of the tuple sees: the values at its positions. *)
Definition view (h : heap) (refs : list nat) : list B := map h refs.

(** A loop whose body mutates branch objects.  When a turn raises, the
    loop stops and what earlier turns wrote stays written. *)
Fixpoint mutate_each (body : heap -> Z -> result heap) (todo : list Z)
  (h : heap) : heap * option exn :=
  match todo with
  | [] => (h, None)
  | tag :: todo' =>
      match body h tag with
      | Ok h' => mutate_each body todo' h'
      | Raise e => (h, Some e)
      end
  end.

(** One turn of the loop of [__setitem__] for a single field name. *)
Definition setitem_tag (self : UnionArray nat) (name : string) (what : B)
  (h : heap) (tag : Z) : result heap :=
  selected <- numpy.getitem_mask
                (firstn (length (_tags self)) (_index self))
                (numpy.eq_scalar (_tags self) tag) ;;
  inverseindex <- invert selected ;;
  let value := IndexedArray inverseindex what in
  r <- tuple_getitem (_contents self) tag ;;
  content' <- setitem_field (h r) name value ;;
  Ok (store h r content').

Definition __setitem__ (self : UnionArray nat) (h : heap)
  (where' : write_key) (what : B) : heap * option exn :=
  if negb (numpy.shape_eqb
             (firstn (length (numpy.shape (_tags self))) [len what])
             (numpy.shape (_tags self))) then
    (h,
     Some (ValueError
       "array to assign does not have the same starting shape as tags"))
  else
    match where' with
    | key_field name =>
        mutate_each (setitem_tag self name what) (numpy.unique (_tags self)) h
    | key_other =>
        (h,
         Some (TypeError "invalid index for assigning column to Table: {0}"))
    end.

(** One turn of the loop of [__delitem__] for a single field name. *)
Definition delitem_tag (self : UnionArray nat) (name : string) (h : heap)
  (tag : Z) : result heap :=
  r <- tuple_getitem (_contents self) tag ;;
  content' <- delitem_field (h r) name ;;
  Ok (store h r content').

Definition __delitem__ (self : UnionArray nat) (h : heap)
  (where' : write_key) : heap * option exn :=
  match where' with
  | key_field name =>
      mutate_each (delitem_tag self name) (numpy.unique (_tags self)) h
  | key_other =>
      (h,
       Some (TypeError "invalid index for assigning column to Table: {0}"))
  end.

(** The same array with the values in the place of the references. *)
Definition values (self : UnionArray nat) (h : heap) : UnionArray B := {|
  _tags := _tags self;
  _index := _index self;
  _contents := view h (_contents self)
|}.

End Objects.

Arguments heap B : clear implicits.

End shared.

(** ** Tags and index of two dimensions

    The class takes tags and index of any number of dimensions: validation
    compares the trailing dimensions and flattens, and a read splits its
    selector by the number of dimensions of the tags.  The model above has
    one dimension; this module has two, for a read with one selector (a
    [where] that is no tuple, so that the head is this selector and the tail
    is empty). *)

Module planar.

(** The class with tags of one dimension, as above, and the copy that a
    read returns when it selected one row with several tags. *)
Local Abbreviation UnionArray1 := UnionArray.

Definition row_union {B : Type} (tags index : list Z) (contents : list B)
  : result (UnionArray1 B) :=
  tags' <- set_tags tags ;;
  index' <- set_index index ;;
  Ok {| _tags := tags'; _index := index'; _contents := contents |}.

(** A two-dimensional array: its number of columns and its rows. *)
Record array2 (A : Type) : Type := {
  ncols : nat;
  rows : list (list A)
}.

Arguments ncols {A} a.
Arguments rows {A} a.

Definition shape {A : Type} (a : array2 A) : list nat :=
  [length (rows a); ncols a].

(** [a.reshape(-1)] *)
Definition ravel {A : Type} (a : array2 A) : list A := concat (rows a).

Definition astype (t : scalar_type) (a : array2 Z) : array2 Z :=
  {| ncols := ncols a; rows := map (numpy.astype t) (rows a) |}.

(** [a[:n]] *)
Definition first_rows {A : Type} (n : nat) (a : array2 A) : array2 A :=
  {| ncols := ncols a; rows := firstn n (rows a) |}.

(** [a == v], elementwise. *)
Definition eq_scalar (a : array2 Z) (v : Z) : array2 bool :=
  {| ncols := ncols a; rows := map (fun r => numpy.eq_scalar r v) (rows a) |}.

(** [a[mask]] for a boolean [mask] of two dimensions: the selected entries,
    row by row. *)
Definition getitem_mask {A : Type} (a : array2 A) (mask : array2 bool)
  : result (list A) :=
  if numpy.shape_eqb (shape mask) (shape a)
  then Ok (numpy.compress (ravel mask) (ravel a))
  else Raise (IndexError
         "boolean index did not match indexed array along dimension 0").

(** What one selector gives on a two-dimensional array: a row, which is an
    array of one dimension, or some of the rows. *)
Inductive selection (A : Type) : Type :=
| row_sel (r : list A)
| rows_sel (a : array2 A).

Arguments row_sel {A} r.
Arguments rows_sel {A} a.

(** [a[(s,)]] *)
Definition array_getitem (a : array2 Z) (s : selector)
  : result (selection Z) :=
  ps <- positions (length (rows a)) s ;;
  match ps with
  | scalar_sel p => Ok (row_sel (nth p (rows a) []))
  | array_sel ps' =>
      Ok (rows_sel {| ncols := ncols a;
                      rows := map (fun p => nth p (rows a) []) ps' |})
  end.

(** [(a == a[0]).all()] for an array with at least one row: every row is
    compared with the first one, entry by entry. *)
Definition all_eq_first (a : array2 Z) : bool :=
  forallb (fun r => numpy.array_equal r (hd [] (rows a))) (rows a).

Section UnionArray.

Context {B : Type} {branch : BranchArray B}.

Record UnionArray : Type := {
  _tags : array2 Z;
  _index : array2 Z;
  _contents : list B
}.

Definition set_tags (value : array2 Z) : result (array2 Z) :=
  tagsmax <- numpy.max (ravel value) ;;
  dtype <- tags_ladder tagsmax ;;
  let value := astype dtype value in
  if check_prop_valid then
    if (length (rows value) =? 0)%nat then
      Raise (ValueError "tags must be non-empty")
    else if negb (issubclass dtype [integer]) then
      Raise (TypeError "tags must have integer dtype")
    else if numpy.any_lt (ravel value) 0 then
      Raise (ValueError "tags must be a non-negative array")
    else Ok value
  else Ok value.

Definition set_index (value : array2 Z) : result (array2 Z) :=
  if check_prop_valid then
    if numpy.any_lt (ravel value) 0 then
      Raise (ValueError "index must be a non-negative array")
    else Ok value
  else Ok value.

Definition __init__ (tags index : array2 Z) (contents : list B)
  : result UnionArray :=
  tags' <- set_tags tags ;;
  index' <- set_index index ;;
  contents' <- set_contents contents ;;
  Ok {| _tags := tags'; _index := index'; _contents := contents' |}.

Definition valid_tag (self : UnionArray) (index : array2 Z) (tag : Z)
  : result unit :=
  selected <- getitem_mask index (eq_scalar (_tags self) tag) ;;
  maxindex <- numpy.max selected ;;
  content <- tuple_getitem (_contents self) tag ;;
  if Z.of_nat (len content) <=? maxindex then
    Raise (ValueError
      "maximum index ({0}) must be less than the length of all contents arrays ({1})")
  else Ok tt.

Definition _valid (self : UnionArray) : result unit :=
  if check_whole_valid then
    if (length (shape (_index self)) <? length (shape (_tags self)))%nat then
      Raise (ValueError
        "tags length ({0}) must be less than or equal to index length ({1})")
    else if negb (numpy.shape_eqb (tl (shape (_tags self)))
                                       (tl (shape (_index self)))) then
      Raise (ValueError
        "tags dimensionality ({0}) must be equal to index dimensionality ({1})")
    else
      (if (0 <? length (ravel (_tags self)))%nat then
         m <- numpy.max (ravel (_tags self)) ;;
         if Z.of_nat (length (_contents self)) <=? m then
           Raise (ValueError
             "maximum tag is {0} but there are only {1} contents arrays")
         else Ok tt
       else Ok tt) ;;;
      let index := first_rows (length (rows (_tags self))) (_index self) in
      for_each (valid_tag self index) (numpy.unique (ravel (_tags self)))
  else Ok tt.

(** [x[(index,)]] for a branch [x] and an index of two dimensions. *)
Variable getitem2 : B -> array2 Z -> result item.

(** What a read returns: something read from one branch, a union with tags
    of one dimension, or a union with tags of two. *)
Inductive read : Type :=
| ret_branch (r : item)
| ret_union (u : UnionArray1 B)
| ret_planar (u : UnionArray).

(** [self[where]] for a [where] that is one selector.  Selected tags and
    index always have a dimension left, so the test for a scalar fails. *)
Definition __getitem__ (self : UnionArray) (head : selector) : result read :=
  _valid self ;;;
  tags <- array_getitem (_tags self) head ;;
  index <- array_getitem
             (first_rows (length (rows (_tags self))) (_index self)) head ;;
  match tags, index with
  | row_sel ts, row_sel ixs =>
      if (length ts =? 0)%nat then
        content <- tuple_getitem (_contents self) 0 ;;
        r <- getitem content (array_sel ixs) [] ;;
        Ok (ret_branch r)
      else if forallb (fun t => t =? hd 0 ts) ts then
        content <- tuple_getitem (_contents self) (hd 0 ts) ;;
        r <- getitem content (array_sel ixs) [] ;;
        Ok (ret_branch r)
      else
        out <- row_union ts ixs (_contents self) ;;
        Ok (ret_union out)
  | rows_sel ts, rows_sel ixs =>
      if (length (rows ts) =? 0)%nat then
        content <- tuple_getitem (_contents self) 0 ;;
        r <- getitem2 content ixs ;;
        Ok (ret_branch r)
      else if all_eq_first ts then
        Raise (TypeError
          "only integer scalar arrays can be converted to a scalar index")
      else
        tags' <- set_tags ts ;;
        index' <- set_index ixs ;;
        Ok (ret_planar {| _tags := tags'; _index := index';
                          _contents := _contents self |})
  | _, _ => Raise (TypeError "len() of unsized object")
  end.

End UnionArray.

Arguments UnionArray B : clear implicits.

End planar.

(** ** Scenarios for the rest of the class *)

(** [numpy.zeros_like] of a NumPy array of integers or of floating-point
    numbers. *)
Definition example_zeros_like (c : content) : result content :=
  match c with
  | ndarray dtype data =>
      Ok (ndarray dtype
            (map (fun s => match s with
                           | int_ _ => int_ 0
                           | float_ _ => float_ 0
                           end) data))
  | _ => Raise (TypeError "not a NumPy array")
  end.

(** [c.astype(numpy.float64)] for a NumPy array. *)
Definition example_astype (c : content) : result content :=
  match c with
  | ndarray _ data =>
      Ok (ndarray float64
            (map (fun s => match s with
                           | int_ z => float_ (inject_Z z)
                           | float_ q => float_ q
                           end) data))
  | _ => Raise (TypeError "not a NumPy array")
  end.

(** The names of the columns of a table. *)
Definition example_columns (c : content) : list string :=
  match c with
  | Table _ columns => map fst columns
  | _ => []
  end.

(** Two tables of two rows each; both have the columns ["x"] and ["y"], in
    a different order, and the second has ["z"] as well. *)
Definition example_wide_tables : list content :=
  [Table 2 [("x", ndarray int64 [int_ 1; int_ 2]);
            ("y", ndarray int64 [int_ 3; int_ 4])];
   Table 2 [("y", ndarray int64 [int_ 5; int_ 6]);
            ("z", ndarray int64 [int_ 7; int_ 8]);
            ("x", ndarray int64 [int_ 9; int_ 10])]].

(** The worked example over [example_tables]. *)
Definition example_table_union : UnionArray content := {|
  _tags := [0; 1; 0; 1];
  _index := [0; 0; 1; 1];
  _contents := example_tables
|}.

(** The worked example over two integer branches, with two more index
    entries. *)
Definition example_other_padded : UnionArray content := {|
  _tags := [0; 0; 1; 1];
  _index := [0; 1; 0; 1; 99; 7];
  _contents := [ndarray int64 [int_ 1; int_ 2]; ndarray int64 [int_ 3; int_ 4]]
|}.

(** A helper that hands a NumPy array of integers on as it is and knows no
    other branch. *)
Definition example_util (c : content) : result (list Z) :=
  match c with
  | ndarray _ data =>
      map_result (fun s => match s with
                           | int_ z => Ok z
                           | float_ _ => Raise (TypeError "not an integer")
                           end) data
  | _ => Raise (TypeError "not a NumPy array")
  end.

(** A helper that refuses a NumPy array. *)
Definition example_refusing_util (c : content) : result (list Z) :=
  match c with
  | ndarray _ _ => Raise (TypeError "not an awkward array")
  | _ => Ok (repeat 0 (content_len c))
  end.

(** The sum of a NumPy array of integers, for [numpy.add.reduce]. *)
Definition example_reduce (buffer : option content) : result Z :=
  match buffer with
  | Some (ndarray _ data) =>
      Ok (fold_left (fun acc s => match s with
                                  | int_ z => acc + z
                                  | float_ _ => acc
                                  end) data 0)
  | _ => Raise (TypeError "not a NumPy array")
  end.


(** Tags of two rows and two columns, all 0, over one branch of four
    elements. *)
Definition example_planar : planar.UnionArray content := {|
  planar._tags := {| planar.ncols := 2; planar.rows := [[0; 0]; [0; 0]] |};
  planar._index := {| planar.ncols := 2; planar.rows := [[0; 1]; [2; 3]] |};
  planar._contents := [ndarray int64 [int_ 10; int_ 20; int_ 30; int_ 40]]
|}.

(** Three positions over two table objects: the positions 0 and 1 hold the
    object 0, the position 2 holds the object 1, and no tag names it. *)
Definition example_shared : UnionArray nat := {|
  _tags := [0; 0];
  _index := [0; 1];
  _contents := [0%nat; 0%nat; 1%nat]
|}.

Definition example_heap : shared.heap content :=
  fun r => if (r =? 0)%nat then example_table 1 2 else example_table 3 4.

(** * Properties *)

Unset Implicit Arguments.

(** ** Loops and results *)

Lemma for_each_ok {A : Type} (body : A -> result unit) (xs : list A) :
  for_each body xs = Ok tt <-> forall x, In x xs -> body x = Ok tt.
Proof.
  induction xs as [|x xs IH]; simpl.
  - split; [intros _ y [] | reflexivity].
  - destruct (body x) as [[]|e] eqn:E; simpl.
    + rewrite IH. split.
      * intros H y [<-|Hy]; [exact E | exact (H y Hy)].
      * intros H y Hy. apply H. now right.
    + split; [discriminate|].
      intros H. specialize (H x (or_introl eq_refl)). congruence.
Qed.

Lemma for_each_ext {A : Type} (f g : A -> result unit) (xs : list A) :
  (forall x, f x = g x) -> for_each f xs = for_each g xs.
Proof.
  intros H. induction xs as [|x xs IH]; simpl; [reflexivity|].
  now rewrite H, IH.
Qed.

Lemma map_result_ok {A C : Type} (f : A -> result C) (xs : list A) (ys : list C) :
  map_result f xs = Ok ys -> Forall2 (fun x y => f x = Ok y) xs ys.
Proof.
  revert ys. induction xs as [|x xs IH]; simpl; intros ys H.
  - inversion H. constructor.
  - destruct (f x) as [y|e] eqn:E; simpl in H; [|discriminate].
    destruct (map_result f xs) as [ys'|e] eqn:E'; simpl in H; [|discriminate].
    inversion H; subst. constructor; [exact E | now apply IH].
Qed.

Lemma fold_result_app {A S : Type} (body : S -> A -> result S)
  (xs ys : list A) (s : S) :
  fold_result body (xs ++ ys) s
  = (s' <- fold_result body xs s ;; fold_result body ys s').
Proof.
  revert s. induction xs as [|x xs IH]; simpl; intros s; [reflexivity|].
  destruct (body s x) as [s'|e]; simpl; [apply IH | reflexivity].
Qed.

(** ** NumPy helpers *)

Lemma fold_left_max_spec (xs : list Z) (x : Z) :
  let m := fold_left Z.max xs x in
  x <= m /\ Forall (fun y => y <= m) xs /\ (m = x \/ In m xs).
Proof.
  revert x. induction xs as [|y xs IH]; simpl; intros x.
  - repeat split; [lia | constructor | now left].
  - destruct (IH (Z.max x y)) as (H1 & H2 & H3).
    repeat split.
    + lia.
    + constructor; [lia | exact H2].
    + destruct H3 as [H3|H3]; [|now right; right].
      rewrite H3. destruct (Z.max_spec x y) as [[_ ->]|[_ ->]]; auto.
Qed.

Lemma max_ok (a : list Z) (m : Z) :
  numpy.max a = Ok m -> In m a /\ Forall (fun x => x <= m) a.
Proof.
  destruct a as [|x xs]; simpl; [discriminate|].
  intros H. inversion H as [Hm]. clear H.
  destruct (fold_left_max_spec xs x) as (H1 & H2 & H3). simpl in *.
  split.
  - destruct H3 as [->|H3]; auto.
  - constructor; assumption.
Qed.

Lemma max_nonempty (a : list Z) :
  a <> [] -> exists m, numpy.max a = Ok m.
Proof.
  destruct a as [|x xs]; [congruence|]. intros _. simpl. eauto.
Qed.

Lemma insert_In (x y : Z) (l : list Z) :
  In x (numpy.insert Z.compare y l) <-> x = y \/ In x l.
Proof.
  induction l as [|z l IH]; simpl.
  - intuition.
  - destruct (Z.compare_spec y z) as [->|Hlt|Hgt]; simpl.
    + intuition.
    + intuition.
    + rewrite IH. intuition.
Qed.

Lemma unique_In (x : Z) (a : list Z) : In x (numpy.unique a) <-> In x a.
Proof.
  unfold numpy.unique, numpy.unique_by.
  induction a as [|y a IH]; simpl; [reflexivity|].
  rewrite insert_In, IH. intuition.
Qed.

Lemma array_equal_eq (a b : list Z) : numpy.array_equal a b = true <-> a = b.
Proof.
  revert b. induction a as [|x a IH]; intros [|y b]; simpl;
    try (split; [discriminate | congruence]); [tauto|].
  rewrite andb_true_iff, Z.eqb_eq, IH. split.
  - intros [-> ->]. reflexivity.
  - intros H. inversion H. auto.
Qed.

Lemma count_nonzero_cons (b : bool) (mask : list bool) :
  numpy.count_nonzero (b :: mask)
  = ((if b then 1 else 0) + numpy.count_nonzero mask)%nat.
Proof. unfold numpy.count_nonzero. destruct b; reflexivity. Qed.

Lemma compress_length {A : Type} (mask : list bool) (a : list A) :
  length mask = length a ->
  length (numpy.compress mask a) = numpy.count_nonzero mask.
Proof.
  revert a. induction mask as [|b mask IH]; intros [|x a] H; simpl in *;
    try discriminate; [reflexivity|].
  rewrite count_nonzero_cons. injection H as H.
  destruct b; simpl; rewrite IH by assumption; reflexivity.
Qed.

Lemma place_length {A : Type} (mask : list bool) (a vals : list A) :
  length (numpy.place mask a vals) = length a.
Proof.
  revert a vals. induction mask as [|b mask IH]; intros [|x a] vals; simpl;
    try reflexivity.
  - destruct b; reflexivity.
  - destruct b; [destruct vals|]; simpl; now rewrite IH.
Qed.

(** Reading back through the mask that was written. *)
Lemma compress_place_same {A : Type} (mask : list bool) (a vals : list A) :
  length mask = length a ->
  length vals = numpy.count_nonzero mask ->
  numpy.compress mask (numpy.place mask a vals) = vals.
Proof.
  revert a vals. induction mask as [|b mask IH]; intros [|x a] vals Hm Hv;
    simpl in *; try discriminate.
  - destruct vals; [reflexivity | discriminate].
  - rewrite count_nonzero_cons in Hv. injection Hm as Hm.
    destruct b.
    + destruct vals as [|v vals]; [discriminate|]. simpl in *.
      f_equal. apply IH; [assumption | lia].
    + apply IH; [assumption | exact Hv].
Qed.

(** A write through the mask of one tag leaves the positions of any other
    tag as they were. *)
Lemma compress_place_other (tags : list Z) (t t' : Z) (a vals : list Z) :
  t <> t' ->
  numpy.compress (numpy.eq_scalar tags t')
    (numpy.place (numpy.eq_scalar tags t) a vals)
  = numpy.compress (numpy.eq_scalar tags t') a.
Proof.
  intros Ht. revert a vals.
  induction tags as [|x tags IH]; intros a vals; simpl; [now destruct a|].
  destruct (x =? t) eqn:E1; destruct (x =? t') eqn:E2.
  - apply Z.eqb_eq in E1, E2. congruence.
  - destruct a as [|y a]; [reflexivity|]. destruct vals; simpl; apply IH.
  - destruct a as [|y a]; [reflexivity|]. simpl. f_equal. apply IH.
  - destruct a as [|y a]; [reflexivity|]. simpl. apply IH.
Qed.

(** Two arrays that agree behind the mask of every tag are equal. *)
Lemma compress_ext (tags a b : list Z) :
  length a = length tags ->
  length b = length tags ->
  (forall t, In t tags ->
     numpy.compress (numpy.eq_scalar tags t) a
     = numpy.compress (numpy.eq_scalar tags t) b) ->
  a = b.
Proof.
  revert a b. induction tags as [|x tags IH]; intros [|y a] [|z b] Ha Hb H;
    simpl in *; try discriminate; [reflexivity|].
  assert (Hx := H x (or_introl eq_refl)). simpl in Hx.
  rewrite Z.eqb_refl in Hx. inversion Hx; subst. f_equal.
  apply IH; [lia | lia |].
  intros t Ht. specialize (H t (or_intror Ht)). simpl in H.
  destruct (x =? t); [now inversion H | exact H].
Qed.

(** A property of everything behind the masks holds of the whole array. *)
Lemma compress_Forall (P : Z -> Prop) (tags a : list Z) :
  length a = length tags ->
  (forall t, In t tags ->
     Forall P (numpy.compress (numpy.eq_scalar tags t) a)) ->
  Forall P a.
Proof.
  revert a. induction tags as [|x tags IH]; intros [|y a] Ha H;
    simpl in *; try discriminate; constructor.
  - specialize (H x (or_introl eq_refl)). simpl in H.
    rewrite Z.eqb_refl in H. now inversion H.
  - apply IH; [lia|]. intros t Ht.
    specialize (H t (or_intror Ht)). simpl in H.
    destruct (x =? t); [now inversion H | exact H].
Qed.

Lemma eq_scalar_length (a : list Z) (v : Z) :
  length (numpy.eq_scalar a v) = length a.
Proof. unfold numpy.eq_scalar. apply length_map. Qed.

Lemma arange_length (n : nat) : length (numpy.arange n) = n.
Proof. unfold numpy.arange. now rewrite length_map, length_seq. Qed.

Lemma arange_nonneg (n : nat) : Forall (fun x => 0 <= x) (numpy.arange n).
Proof.
  unfold numpy.arange. apply Forall_forall. intros x Hx.
  apply in_map_iff in Hx. destruct Hx as (k & <- & _). lia.
Qed.

Lemma any_lt_false (a : list Z) (v : Z) :
  numpy.any_lt a v = false <-> Forall (fun x => v <= x) a.
Proof.
  unfold numpy.any_lt. induction a as [|x a IH]; simpl.
  - split; [constructor | reflexivity].
  - rewrite orb_false_iff, IH, Z.ltb_ge. split.
    + intros [H1 H2]. now constructor.
    + intros H. inversion H. auto.
Qed.

Lemma nth_map_lt {A C : Type} (g : A -> C) (l : list A) (q : nat) (d : C)
  (d' : A) :
  (q < length l)%nat -> nth q (map g l) d = g (nth q l d').
Proof.
  intros H. rewrite (nth_indep _ d (g d')) by (now rewrite length_map).
  apply map_nth.
Qed.

(** ** Positions of a selector *)

Lemma wrap_index_lt (n : nat) (i : Z) (p : nat) :
  wrap_index n i = Ok p -> (p < n)%nat.
Proof.
  unfold wrap_index. destruct ((i <? - Z.of_nat n) || (Z.of_nat n <=? i)) eqn:E;
    [discriminate|].
  apply orb_false_iff in E. destruct E as [E1 E2].
  apply Z.ltb_ge in E1. apply Z.leb_gt in E2.
  intros H. inversion H. destruct (i <? 0) eqn:E3.
  - apply Z.ltb_lt in E3. lia.
  - apply Z.ltb_ge in E3. lia.
Qed.

Lemma slice_positions_lt (n : nat) (start stop step : option Z) (ps : list nat) :
  slice_positions n start stop step = Ok ps -> Forall (fun p => (p < n)%nat) ps.
Proof.
  unfold slice_positions. cbv zeta.
  set (st := match step with Some s => s | None => 1 end).
  destruct (st =? 0) eqn:E0; [discriminate|]. apply Z.eqb_neq in E0.
  set (len := Z.of_nat n).
  set (lower := if st <? 0 then -1 else 0).
  set (upper := if st <? 0 then len - 1 else len).
  set (a := match start with
            | Some v => if v <? 0 then Z.max (v + len) lower else Z.min v upper
            | None => if st <? 0 then upper else lower
            end).
  set (b := match stop with
            | Some v => if v <? 0 then Z.max (v + len) lower else Z.min v upper
            | None => if st <? 0 then lower else upper
            end).
  assert (Hlu : lower <= upper /\ -1 <= lower /\ upper <= len).
  { unfold lower, upper, len. destruct (st <? 0); lia. }
  assert (Hclamp : forall v,
             lower <= (if v <? 0 then Z.max (v + len) lower else Z.min v upper)
             <= upper).
  { intros v. destruct (v <? 0) eqn:Ev;
      [apply Z.ltb_lt in Ev | apply Z.ltb_ge in Ev].
    - unfold lower, upper in *. destruct (st <? 0); lia.
    - unfold lower, upper, len in *. destruct (st <? 0); lia. }
  assert (Ha : lower <= a <= upper).
  { unfold a. destruct start; [apply Hclamp|]. destruct (st <? 0); lia. }
  assert (Hb : lower <= b <= upper).
  { unfold b. destruct stop; [apply Hclamp|]. destruct (st <? 0); lia. }
  clearbody a b. clear Hclamp.
  intros H. assert (Hps : ps = map (fun k => Z.to_nat (a + Z.of_nat k * st))
    (seq 0 (Z.to_nat
       (if st <? 0
        then (if b <? a then (a - b - 1) / - st + 1 else 0)
        else (if a <? b then (b - a - 1) / st + 1 else 0))))) by congruence.
  clear H. subst ps.
  apply Forall_forall. intros p Hp.
  apply in_map_iff in Hp. destruct Hp as (k & <- & Hk).
  apply in_seq in Hk. destruct Hk as [_ Hk]. rewrite Nat.add_0_l in Hk.
  unfold lower, upper, len in *. clear lower upper len.
  destruct (st <? 0) eqn:Es.
  - apply Z.ltb_lt in Es.
    destruct (b <? a) eqn:Eba; [|simpl in Hk; lia].
    apply Z.ltb_lt in Eba.
    assert (Hq := Z.mul_div_le (a - b - 1) (- st) ltac:(lia)).
    assert (Hk' : Z.of_nat k <= (a - b - 1) / - st) by lia.
    assert (Z.of_nat k * (- st) <= a - b - 1) by nia.
    lia.
  - apply Z.ltb_ge in Es.
    destruct (a <? b) eqn:Eab; [|simpl in Hk; lia].
    apply Z.ltb_lt in Eab.
    assert (Hq := Z.mul_div_le (b - a - 1) st ltac:(lia)).
    assert (Hk' : Z.of_nat k <= (b - a - 1) / st) by lia.
    assert (Z.of_nat k * st <= b - a - 1) by nia.
    lia.
Qed.

Lemma compress_In {A : Type} (mask : list bool) (a : list A) (x : A) :
  In x (numpy.compress mask a) -> In x a.
Proof.
  revert a. induction mask as [|b mask IH]; intros [|y a]; simpl; try tauto.
  destruct b; simpl; intros H.
  - destruct H as [H|H]; [now left | right; now apply IH].
  - right. now apply IH.
Qed.

Lemma map_wrap_index_lt (n : nat) (idx : list Z) (ps : list nat) :
  map_result (wrap_index n) idx = Ok ps -> Forall (fun p => (p < n)%nat) ps.
Proof.
  intros H. apply map_result_ok in H.
  induction H as [|i p idx ps Hi _ IH]; constructor; [|exact IH].
  exact (wrap_index_lt _ _ _ Hi).
Qed.

(** The positions a selector picks lie inside the array. *)
Lemma positions_lt (n : nat) (s : selector) (ps : selection nat) :
  positions n s = Ok ps ->
  match ps with
  | scalar_sel p => (p < n)%nat
  | array_sel ps' => Forall (fun p => (p < n)%nat) ps'
  end.
Proof.
  destruct s as [i|start stop step|idx|mask]; simpl.
  - destruct (wrap_index n i) as [p|e] eqn:E; cbn [bind]; [|discriminate].
    intros H. inversion H. exact (wrap_index_lt _ _ _ E).
  - destruct (slice_positions n start stop step) as [l|e] eqn:E; cbn [bind];
      [|discriminate].
    intros H. inversion H. exact (slice_positions_lt _ _ _ _ _ E).
  - destruct (map_result (wrap_index n) idx) as [l|e] eqn:E; cbn [bind];
      [|discriminate].
    intros H. inversion H. exact (map_wrap_index_lt _ _ _ E).
  - destruct (length mask =? n)%nat; [|discriminate].
    intros H. inversion H. apply Forall_forall. intros p Hp.
    apply compress_In in Hp. apply in_seq in Hp. lia.
Qed.

Lemma ndarray_getitem_positions (a : list Z) (s : selector) (ps : selection nat) :
  positions (length a) s = Ok ps -> ndarray_getitem a s = Ok (take a ps).
Proof. intros H. unfold ndarray_getitem. now rewrite H. Qed.

Lemma nth_In_lt (a : list Z) (p : nat) :
  (p < length a)%nat -> In (nth p a 0) a.
Proof. apply nth_In. Qed.

(** ** Masks *)

Lemma compress_map {A C : Type} (g : A -> C) (mask : list bool) (a : list A) :
  numpy.compress mask (map g a) = map g (numpy.compress mask a).
Proof.
  revert a. induction mask as [|b mask IH]; intros [|x a]; simpl;
    try reflexivity.
  destruct b; simpl; now rewrite IH.
Qed.

Lemma compress_seq_lt (mask : list bool) (k n : nat) (p : nat) :
  In p (numpy.compress mask (seq k n)) -> (k <= p < k + n)%nat.
Proof. intros H. apply compress_In in H. apply in_seq in H. exact H. Qed.

(** The positions a mask selects, and what is read at them. *)
Lemma take_compress (mask : list bool) (a : list Z) (k : nat) (pre : list Z) :
  length mask = length a -> length pre = k ->
  map (fun p => nth p (pre ++ a) 0) (numpy.compress mask (seq k (length a)))
  = numpy.compress mask a.
Proof.
  revert a k pre. induction mask as [|b mask IH]; intros [|x a] k pre Hm Hk;
    simpl in *; try discriminate; try reflexivity.
  injection Hm as Hm.
  assert (Hrest :
    map (fun p => nth p (pre ++ x :: a) 0) (numpy.compress mask (seq (S k) (length a)))
    = numpy.compress mask a).
  { replace (pre ++ x :: a) with ((pre ++ [x]) ++ a)
      by (rewrite <- app_assoc; reflexivity).
    apply IH; [exact Hm|]. rewrite length_app. simpl. lia. }
  destruct b; simpl; rewrite Hrest; [|reflexivity].
  f_equal. rewrite app_nth2 by lia. now replace (k - length pre)%nat with 0%nat by lia.
Qed.

Lemma ndarray_getitem_mask (a : list Z) (mask : list bool) :
  length mask = length a ->
  ndarray_getitem a (sel_mask mask) = Ok (array_sel (numpy.compress mask a)).
Proof.
  intros H. unfold ndarray_getitem, positions.
  rewrite H, Nat.eqb_refl. cbn [bind take]. do 2 f_equal.
  exact (take_compress mask a 0 [] H eq_refl).
Qed.

(** What a mask selects is among what it selects from, at a selected place. *)
Lemma compress_nth_In {A : Type} (mask : list bool) (a : list A) (i : nat) (d : A) :
  length mask = length a ->
  nth i mask false = true ->
  In (nth i a d) (numpy.compress mask a).
Proof.
  revert a i. induction mask as [|b mask IH]; intros [|x a] i Hm Hi;
    simpl in *; try discriminate.
  - destruct i; discriminate.
  - injection Hm as Hm. destruct i as [|i].
    + subst b. now left.
    + destruct b; [right|]; now apply IH.
Qed.

Lemma compress_In_nth {A : Type} (mask : list bool) (a : list A) (x : A) (d : A) :
  length mask = length a ->
  In x (numpy.compress mask a) ->
  exists i, (i < length a)%nat /\ nth i mask false = true /\ nth i a d = x.
Proof.
  revert a. induction mask as [|b mask IH]; intros [|y a] Hm Hx;
    simpl in *; try discriminate; try contradiction.
  injection Hm as Hm. destruct b.
  - destruct Hx as [<-|Hx].
    + exists 0%nat. repeat split. lia.
    + destruct (IH a Hm Hx) as (i & Hi & Hb & Hn).
      exists (S i). repeat split; [lia | exact Hb | exact Hn].
  - destruct (IH a Hm Hx) as (i & Hi & Hb & Hn).
    exists (S i). repeat split; [lia | exact Hb | exact Hn].
Qed.

Lemma fill_mask_length {A : Type} (mask : list bool) (a : list A) (v : A) :
  length (numpy.fill_mask mask a v) = length a.
Proof.
  revert a. induction mask as [|b mask IH]; intros [|x a]; simpl;
    try reflexivity.
  now rewrite IH.
Qed.

Lemma compress_fill_same {A : Type} (mask : list bool) (a : list A) (v : A) :
  length mask = length a ->
  numpy.compress mask (numpy.fill_mask mask a v)
  = repeat v (numpy.count_nonzero mask).
Proof.
  revert a. induction mask as [|b mask IH]; intros [|x a] Hm;
    simpl in *; try discriminate; [reflexivity|].
  injection Hm as Hm. rewrite count_nonzero_cons.
  destruct b; simpl; now rewrite IH.
Qed.

Lemma disjoint_tail (b1 b2 : bool) (m1 m2 : list bool) :
  disjoint (b1 :: m1) (b2 :: m2) -> disjoint m1 m2.
Proof. intros H i. exact (H (S i)). Qed.

Lemma compress_fill_other {A : Type} (m m' : list bool) (a : list A) (v : A) :
  disjoint m m' ->
  numpy.compress m' (numpy.fill_mask m a v) = numpy.compress m' a.
Proof.
  revert m' a. induction m as [|b m IH]; intros m' a Hd; simpl.
  - now destruct a.
  - destruct a as [|x a]; [reflexivity|].
    destruct m' as [|b' m']; [reflexivity|]. simpl.
    rewrite (IH m' a (disjoint_tail _ _ _ _ Hd)).
    destruct b'; [|reflexivity].
    destruct b; [|reflexivity].
    exfalso. exact (Hd 0%nat eq_refl eq_refl).
Qed.

Lemma compress_place_disjoint {A : Type} (m m' : list bool) (a vals : list A) :
  disjoint m m' ->
  numpy.compress m' (numpy.place m a vals) = numpy.compress m' a.
Proof.
  revert m' a vals. induction m as [|b m IH]; intros m' a vals Hd; simpl.
  - now destruct a.
  - destruct a as [|x a]; [now destruct b|].
    destruct m' as [|b' m']; [now destruct b, vals|].
    pose proof (disjoint_tail _ _ _ _ Hd) as Hd'.
    destruct b.
    + destruct b'; [exfalso; exact (Hd 0%nat eq_refl eq_refl)|].
      destruct vals; simpl; apply IH; exact Hd'.
    + simpl. rewrite (IH m' a vals Hd'). reflexivity.
Qed.

(** Where the index counts the selected places [0, 1, 2, ...], looking up
    the compressed array at the index gives back the element of the place. *)
Lemma rank_nth {A : Type} (mask : list bool) (idx : list Z) (xs : list A)
  (k : nat) (d : A) :
  length idx = length mask -> length xs = length mask ->
  numpy.compress mask idx = map Z.of_nat (seq k (numpy.count_nonzero mask)) ->
  forall i, nth i mask false = true ->
    (k <= Z.to_nat (nth i idx 0%Z) < k + numpy.count_nonzero mask)%nat
    /\ 0 <= nth i idx 0
    /\ nth (Z.to_nat (nth i idx 0%Z) - k)%nat (numpy.compress mask xs) d
       = nth i xs d.
Proof.
  revert idx xs k. induction mask as [|b mask IH]; intros [|y idx] [|x xs] k Hi Hx Hc i Hb;
    simpl in *; try discriminate.
  - destruct i; discriminate.
  - injection Hi as Hi. injection Hx as Hx.
    rewrite count_nonzero_cons in *. destruct b.
    + simpl in Hc. injection Hc as Hy Hc. subst y.
      destruct i as [|i].
      * rewrite Nat2Z.id. replace (k - k)%nat with 0%nat by lia.
        repeat split; try lia.
      * destruct (IH idx xs (S k) Hi Hx Hc i Hb) as (H1 & H2 & H3).
        repeat split; try lia.
        replace (Z.to_nat (nth i idx 0%Z) - k)%nat
          with (S (Z.to_nat (nth i idx 0%Z) - S k)) by lia.
        exact H3.
    + destruct i as [|i]; [discriminate|].
      destruct (IH idx xs k Hi Hx Hc i Hb) as (H1 & H2 & H3).
      repeat split; try lia. exact H3.
Qed.

Lemma zip_with_length (f : scalar -> scalar -> scalar) (xs ys : list scalar) :
  length xs = length ys -> length (zip_with f xs ys) = length xs.
Proof.
  revert ys. induction xs as [|x xs IH]; intros [|y ys] H; simpl in *;
    try discriminate; [reflexivity|].
  injection H as H. now rewrite IH.
Qed.

Lemma zip_with_nth (f : scalar -> scalar -> scalar) (xs ys : list scalar)
  (r : nat) (d : scalar) :
  length xs = length ys -> (r < length xs)%nat ->
  nth r (zip_with f xs ys) d = f (nth r xs d) (nth r ys d).
Proof.
  revert ys r. induction xs as [|x xs IH]; intros [|y ys] r H Hr; simpl in *;
    try discriminate; try lia.
  injection H as H. destruct r as [|r]; [reflexivity|].
  apply IH; [exact H | lia].
Qed.

(** ** Type promotion *)

Section PromotionFacts.

Context {B : Type} {branch : BranchArray B}.

Lemma all_issubclass_types (arrays : list B) (classes : list pyclass) :
  all_issubclass arrays classes
  = forallb (fun t => issubclass t classes) (map dtype_type arrays).
Proof.
  unfold all_issubclass.
  induction arrays as [|x arrays IH]; simpl; [reflexivity|].
  now rewrite IH.
Qed.

Lemma all_issubclass_false (arrays : list B) (classes : list pyclass) (x : B) :
  In x arrays ->
  issubclass (dtype_type x) classes = false ->
  all_issubclass arrays classes = false.
Proof.
  intros Hin Hx. unfold all_issubclass.
  destruct (forallb _ arrays) eqn:E; [|reflexivity].
  rewrite forallb_forall in E. specialize (E x Hin). congruence.
Qed.

(** The promoted type is a function of the branch types alone. *)
Lemma uniondtype_types (h128 h256 : bool) (xs ys : list B) :
  map dtype_type xs = map dtype_type ys ->
  uniondtype h128 h256 xs = uniondtype h128 h256 ys.
Proof.
  intros H. unfold uniondtype.
  rewrite !all_issubclass_types, H. reflexivity.
Qed.

Lemma uniondtype_non_numeric (h128 h256 : bool) (arrays : list B) (x : B) :
  In x arrays ->
  numeric (dtype_type x) = false ->
  uniondtype h128 h256 arrays = object_.
Proof.
  intros Hin Hnum. unfold uniondtype.
  repeat match goal with
         | |- context [all_issubclass arrays ?cs] =>
             rewrite (@all_issubclass_false arrays cs x Hin)
               by (destruct (dtype_type x); try discriminate Hnum; reflexivity)
         end.
  rewrite !andb_false_r. reflexivity.
Qed.

(** C7: the promoted type depends on the branch types only; the branch
    types int8, int8 give int8; int8, uint8 give int16; float32, float64
    give float64; int32, float32 give float64; complex64, float64 give
    complex128; and as soon as one branch type is not numeric the result is
    the object type. *)
Theorem C7_promotion_lattice (h128 h256 : bool) :
  (forall xs ys : list B,
      map dtype_type xs = map dtype_type ys ->
      uniondtype h128 h256 xs = uniondtype h128 h256 ys)
  /\ (forall arrays : list B,
         map dtype_type arrays = [int8; int8] ->
         uniondtype h128 h256 arrays = int8)
  /\ (forall arrays : list B,
         map dtype_type arrays = [int8; uint8] ->
         uniondtype h128 h256 arrays = int16)
  /\ (forall arrays : list B,
         map dtype_type arrays = [float32; float64] ->
         uniondtype h128 h256 arrays = float64)
  /\ (forall arrays : list B,
         map dtype_type arrays = [int32; float32] ->
         uniondtype h128 h256 arrays = float64)
  /\ (forall arrays : list B,
         map dtype_type arrays = [complex64; float64] ->
         uniondtype h128 h256 arrays = complex128)
  /\ (forall (arrays : list B) (x : B),
         In x arrays ->
         numeric (dtype_type x) = false ->
         uniondtype h128 h256 arrays = object_).
Proof.
  split; [exact (uniondtype_types h128 h256)|].
  repeat split;
    try (intros arrays H; unfold uniondtype;
         rewrite !all_issubclass_types, H;
         destruct h128, h256; reflexivity).
  intros arrays x. apply uniondtype_non_numeric.
Qed.

End PromotionFacts.

(** The examples of C7 on concrete arrays, with a string branch for the
    non-numeric case. *)
Lemma C7_promotion_lattice_witness :
  uniondtype true true [ndarray int8 []; ndarray int8 [int_ 1]] = int8
  /\ uniondtype true true [ndarray int8 []; ndarray uint8 []] = int16
  /\ uniondtype false false [ndarray float32 []; ndarray float64 []] = float64
  /\ uniondtype true true [ndarray int32 []; ndarray float32 []] = float64
  /\ uniondtype true false [ndarray complex64 []; ndarray float64 []] = complex128
  /\ uniondtype true true [ndarray int8 []; ndarray str_ []] = object_.
Proof.
  split; [apply (proj1 (proj2 (C7_promotion_lattice true true))); reflexivity|].
  split; [apply (proj1 (proj2 (proj2 (C7_promotion_lattice true true))));
          reflexivity|].
  split; [apply (proj1 (proj2 (proj2 (proj2
                   (C7_promotion_lattice false false)))));
          reflexivity|].
  split; [apply (proj1 (proj2 (proj2 (proj2 (proj2
                   (C7_promotion_lattice true true))))));
          reflexivity|].
  split; [apply (proj1 (proj2 (proj2 (proj2 (proj2 (proj2
                   (C7_promotion_lattice true false)))))));
          reflexivity|].
  apply (proj2 (proj2 (proj2 (proj2 (proj2 (proj2
           (C7_promotion_lattice true true)))))))
    with (x := ndarray str_ []).
  - simpl. auto.
  - reflexivity.
Defined.

(** ** The tags setter *)

Lemma any_lt_astype_unsigned (t : scalar_type) (value : list Z) :
  numpy.signed t = false ->
  numpy.any_lt (numpy.astype t value) 0 = false.
Proof.
  intros Ht. unfold numpy.any_lt, numpy.astype.
  induction value as [|x value IH]; simpl; [reflexivity|].
  rewrite IH, orb_false_r. unfold numpy.cast. rewrite Ht.
  apply Z.ltb_ge. apply Z.mod_pos_bound.
  destruct t; simpl; lia.
Qed.

Lemma tags_ladder_unsigned (m : Z) (t : scalar_type) :
  tags_ladder m = Ok t ->
  numpy.signed t = false /\ issubclass t [integer] = true.
Proof.
  unfold tags_ladder. intros H.
  repeat match type of H with
         | (if ?c then _ else _) = _ => destruct c
         end;
    inversion H; subst; split; reflexivity.
Qed.

(** The cast to an unsigned type comes before the test for negative values,
    so the test never finds one. *)
Lemma set_tags_never_negative_error (value : list Z) :
  set_tags value <> Raise (ValueError "tags must be a non-negative array").
Proof.
  unfold set_tags.
  destruct (numpy.max value) as [m|e] eqn:Em; cbn [bind].
  - destruct (tags_ladder m) as [t|e] eqn:Et; cbn [bind].
    + destruct (tags_ladder_unsigned _ _ Et) as [Hs Hi].
      rewrite Hi, (any_lt_astype_unsigned _ _ Hs). simpl.
      destruct (length (numpy.astype t value) =? 0)%nat; discriminate.
    + unfold tags_ladder in Et.
      repeat match type of Et with
             | (if ?c then _ else _) = _ => destruct c
             end; inversion Et; discriminate.
  - destruct value; simpl in Em; inversion Em; discriminate.
Qed.

(** C6 (the code departs from it): assigning tags that hold a negative
    integer does not raise the non-negativity error.  The setter casts to an
    unsigned type first, so [-1] is stored as [255], and the error is never
    raised for any value. *)
Theorem C6_negative_tags_are_stored :
  set_tags [-1; 0] = Ok [255; 0]
  /\ forall value : list Z,
       set_tags value <> Raise (ValueError "tags must be a non-negative array").
Proof.
  split; [reflexivity | exact set_tags_never_negative_error].
Qed.

(** ** What the setters store *)


(** Replaces the widths and bounds of concrete integer types by numbers. *)
Ltac eval_width :=
  repeat match goal with
         | H : context [numpy.iinfo_max ?t] |- _ =>
             let v := eval vm_compute in (numpy.iinfo_max t) in
             change (numpy.iinfo_max t) with v in H
         | H : context [2 ^ 64] |- _ =>
             let v := eval vm_compute in (2 ^ 64) in
             change (2 ^ 64) with v in H
         | |- context [2 ^ numpy.bits ?t] =>
             let v := eval vm_compute in (2 ^ numpy.bits t) in
             change (2 ^ numpy.bits t) with v
         | |- context [2 ^ 64] =>
             let v := eval vm_compute in (2 ^ 64) in
             change (2 ^ 64) with v
         end.

Lemma tags_ladder_ok (m : Z) (t : scalar_type) :
  tags_ladder m = Ok t ->
  (t = uint8 \/ t = uint16 \/ t = uint32 \/ t = uint64)
  /\ m <= numpy.iinfo_max t.
Proof.
  unfold tags_ladder. intros H.
  repeat match type of H with
         | (if ?c then _ else _) = _ => destruct c eqn:?
         end;
    inversion H; subst; split; auto;
    match goal with
    | E : (_ <=? _) = true |- _ => apply Z.leb_le in E; exact E
    end.
Qed.

Lemma tags_ladder_total (m : Z) :
  m < 2 ^ 64 -> exists t, tags_ladder m = Ok t.
Proof.
  intros Hm. unfold tags_ladder.
  repeat match goal with
         | |- context [if ?c then _ else _] =>
             destruct c eqn:?; [eexists; reflexivity|]
         end.
  match goal with
  | E : (m <=? numpy.iinfo_max uint64) = false |- _ =>
      apply Z.leb_gt in E
  end.
  eval_width. lia.
Qed.

Lemma set_tags_stored (value tags : list Z) :
  set_tags value = Ok tags -> stored_tags tags.
Proof.
  unfold set_tags. intros H.
  destruct (numpy.max value) as [m|e]; cbn [bind] in H; [|discriminate].
  destruct (tags_ladder m) as [t|e] eqn:Et; cbn [bind] in H; [|discriminate].
  change check_prop_valid with true in H. cbv iota in H.
  destruct (length (numpy.astype t value) =? 0)%nat eqn:El; [discriminate|].
  destruct (negb _); [discriminate|].
  destruct (numpy.any_lt _ _); [discriminate|].
  inversion H; subst. split.
  - intros E. rewrite E in El. discriminate.
  - unfold numpy.astype. apply Forall_forall. intros x Hx.
    apply in_map_iff in Hx. destruct Hx as (y & <- & _).
    destruct (tags_ladder_ok _ _ Et) as [[-> | [-> | [-> | ->]]] _];
      unfold numpy.cast; simpl numpy.signed; cbv iota; eval_width;
      match goal with
      | |- 0 <= y mod ?b < _ =>
          pose proof (Z.mod_pos_bound y b ltac:(lia)) as Hb; lia
      end.
Qed.

Lemma set_tags_fixpoint (tags : list Z) :
  stored_tags tags -> set_tags tags = Ok tags.
Proof.
  intros [Hne Hall]. unfold set_tags.
  destruct (max_nonempty _ Hne) as [m Hm]. rewrite Hm. cbn [bind].
  destruct (max_ok _ _ Hm) as [Hin Hle].
  rewrite Forall_forall in Hall, Hle.
  destruct (tags_ladder_total m) as [t Ht]; [apply Hall in Hin; lia|].
  rewrite Ht. cbn [bind].
  assert (Hcast : numpy.astype t tags = tags).
  { unfold numpy.astype. rewrite <- (map_id tags) at 2.
    apply map_ext_in. intros x Hx.
    specialize (Hall x Hx). specialize (Hle x Hx).
    destruct (tags_ladder_ok _ _ Ht) as [[-> | [-> | [-> | ->]]] Hmax];
      unfold numpy.cast; simpl numpy.signed; cbv iota;
      eval_width; apply Z.mod_small; lia. }
  rewrite Hcast.
  change check_prop_valid with true. cbv iota.
  destruct tags as [|x tags']; [congruence|].
  cbn [length Nat.eqb].
  destruct (tags_ladder_unsigned _ _ Ht) as [_ Hi]. rewrite Hi. cbn [negb].
  assert (Hn : numpy.any_lt (x :: tags') 0 = false).
  { apply any_lt_false. apply Forall_forall. intros y Hy.
    specialize (Hall y Hy). lia. }
  rewrite Hn. reflexivity.
Qed.

Lemma set_index_ok (value index : list Z) :
  set_index value = Ok index <->
  index = value /\ Forall (fun x => 0 <= x) value.
Proof.
  unfold set_index. change check_prop_valid with true. cbv iota.
  destruct (numpy.any_lt value 0) eqn:E.
  - split; [discriminate|]. intros [_ H].
    apply any_lt_false in H. congruence.
  - apply any_lt_false in E. split.
    + intros H. inversion H; subst. split; [reflexivity | exact E].
    + intros [-> _]. reflexivity.
Qed.

Lemma set_contents_ok (B : Type) (value contents : list B) :
  set_contents value = Ok contents <-> contents = value /\ value <> [].
Proof.
  unfold set_contents. change check_prop_valid with true. cbv iota.
  destruct value as [|x value]; simpl.
  - split; [discriminate | intros [_ H]; congruence].
  - split.
    + intros H. inversion H. split; [reflexivity | discriminate].
    + intros [-> _]. reflexivity.
Qed.

Lemma init_ok (B : Type) (tags index : list Z) (contents : list B)
  (u : UnionArray B) :
  __init__ tags index contents = Ok u ->
  stored_tags (_tags u)
  /\ Forall (fun x => 0 <= x) (_index u)
  /\ _contents u <> [].
Proof.
  unfold __init__. intros H.
  destruct (set_tags tags) as [t|e] eqn:Et; cbn [bind] in H; [|discriminate].
  destruct (set_index index) as [i|e] eqn:Ei; cbn [bind] in H; [|discriminate].
  destruct (set_contents contents) as [c|e] eqn:Ec; cbn [bind] in H;
    [|discriminate].
  inversion H; subst; simpl.
  apply set_index_ok in Ei. apply set_contents_ok in Ec.
  destruct Ei as [-> Hi]. destruct Ec as [-> Hc].
  split; [exact (set_tags_stored _ _ Et) | split; assumption].
Qed.

(** ** Validation *)

(** For one-dimensional tags and index the first test of [_valid] compares
    the numbers of dimensions, one and one: it never raises. *)
Lemma valid_never_length_error (B : Type) (branch : BranchArray B)
  (u : UnionArray B) :
  _valid u <> Raise (ValueError
    "tags length ({0}) must be less than or equal to index length ({1})").
Proof.
  unfold _valid. simpl.
  destruct (0 <? length (_tags u))%nat.
  - destruct (numpy.max (_tags u)) as [m|e] eqn:Em; simpl.
    + destruct (Z.of_nat (length (_contents u)) <=? m); simpl; [discriminate|].
      induction (numpy.unique (_tags u)) as [|t l IH]; simpl; [discriminate|].
      unfold valid_tag at 1.
      destruct (numpy.getitem_mask _ _) as [sel|e] eqn:Eg; simpl.
      * destruct (numpy.max sel) as [mi|e] eqn:Emi; simpl.
        -- destruct (tuple_getitem (_contents u) t) as [c|e] eqn:Ec; simpl.
           ++ destruct (Z.of_nat (len c) <=? mi); simpl; [discriminate|exact IH].
           ++ unfold tuple_getitem, wrap_index in Ec.
              destruct (_ || _); simpl in Ec; [inversion Ec; discriminate|].
              destruct (nth_error _ _); inversion Ec; discriminate.
        -- destruct sel; simpl in Emi; inversion Emi; discriminate.
      * unfold numpy.getitem_mask in Eg.
        destruct (_ =? _)%nat; inversion Eg; discriminate.
    + destruct (_tags u); simpl in Em; inversion Em; discriminate.
  - simpl.
    induction (numpy.unique (_tags u)) as [|t l IH]; simpl; [discriminate|].
    unfold valid_tag at 1.
    destruct (numpy.getitem_mask _ _) as [sel|e] eqn:Eg; simpl.
    + destruct (numpy.max sel) as [mi|e] eqn:Emi; simpl.
      * destruct (tuple_getitem (_contents u) t) as [c|e] eqn:Ec; simpl.
        -- destruct (Z.of_nat (len c) <=? mi); simpl; [discriminate|exact IH].
        -- unfold tuple_getitem, wrap_index in Ec.
           destruct (_ || _); simpl in Ec; [inversion Ec; discriminate|].
           destruct (nth_error _ _); inversion Ec; discriminate.
      * destruct sel; simpl in Emi; inversion Emi; discriminate.
    + unfold numpy.getitem_mask in Eg.
      destruct (_ =? _)%nat; inversion Eg; discriminate.
Qed.

(** C5 (the code departs from it): with one-dimensional tags longer than the
    index, validation does not fail with the structural error.  On tags
    [0, 0], index [0] and one branch, the length test passes (it compares
    numbers of dimensions) and NumPy raises an IndexError in the loop; the
    length error is never raised for any array. *)
Theorem C5_short_index_raises_IndexError :
  (exists u : UnionArray content,
      __init__ [0; 0] [0] [ndarray int64 [int_ 10]] = Ok u
      /\ (length (_index u) < length (_tags u))%nat
      /\ _valid u = Raise (IndexError
           "boolean index did not match indexed array along dimension 0"))
  /\ forall u : UnionArray content,
       _valid u <> Raise (ValueError
         "tags length ({0}) must be less than or equal to index length ({1})").
Proof.
  split.
  - eexists. split; [reflexivity|]. split; [simpl; lia | reflexivity].
  - intros u. apply valid_never_length_error.
Qed.

(** ** What validation establishes *)

Section ValidFacts.

Context {B : Type} {branch : BranchArray B}.

Lemma valid_unfold (u : UnionArray B) :
  _valid u
  = ((if (0 <? length (_tags u))%nat then
        m <- numpy.max (_tags u) ;;
        if Z.of_nat (length (_contents u)) <=? m then
          Raise (ValueError
            "maximum tag is {0} but there are only {1} contents arrays")
        else Ok tt
      else Ok tt) ;;;
     for_each (valid_tag u (firstn (length (_tags u)) (_index u)))
       (numpy.unique (_tags u))).
Proof. reflexivity. Qed.

(** Every tag is below the number of branches. *)
Lemma valid_tags_below (u : UnionArray B) (t : Z) :
  _valid u = Ok tt -> In t (_tags u) ->
  t < Z.of_nat (length (_contents u)).
Proof.
  rewrite valid_unfold. intros H Hin.
  destruct (_tags u) as [|x tags] eqn:Etags; [contradiction|].
  cbn [length Nat.ltb Nat.leb] in H.
  destruct (numpy.max (x :: tags)) as [m|e] eqn:Em; cbn [bind] in H;
    [|discriminate].
  destruct (Z.of_nat (length (_contents u)) <=? m) eqn:E; cbn [bind] in H;
    [discriminate|].
  apply Z.leb_gt in E. apply max_ok in Em. destruct Em as [_ Hle].
  rewrite Forall_forall in Hle. specialize (Hle t Hin). lia.
Qed.

(** The loop of [_valid] went through every tag. *)
Lemma valid_each_tag (u : UnionArray B) (t : Z) :
  _valid u = Ok tt -> In t (_tags u) ->
  valid_tag u (firstn (length (_tags u)) (_index u)) t = Ok tt.
Proof.
  rewrite valid_unfold. intros H Hin.
  match type of H with
  | bind ?c _ = _ => destruct c as [[]|e]; cbn [bind] in H; [|discriminate]
  end.
  rewrite for_each_ok in H. apply H. now apply unique_In.
Qed.

(** Every tag names a branch. *)
Lemma valid_branch (u : UnionArray B) (t : Z) :
  _valid u = Ok tt -> In t (_tags u) ->
  exists c, tuple_getitem (_contents u) t = Ok c.
Proof.
  intros H Hin. pose proof (valid_each_tag u t H Hin) as Ht.
  unfold valid_tag in Ht.
  destruct (numpy.getitem_mask _ _); cbn [bind] in Ht; [|discriminate].
  destruct (numpy.max _); cbn [bind] in Ht; [|discriminate].
  destruct (tuple_getitem (_contents u) t) as [c|e]; [eauto | discriminate].
Qed.

(** The index covers the tags. *)
Lemma valid_index_covers (u : UnionArray B) :
  _valid u = Ok tt ->
  length (firstn (length (_tags u)) (_index u)) = length (_tags u).
Proof.
  intros H.
  destruct (_tags u) as [|x tags] eqn:Etags; [reflexivity|].
  assert (Hin : In x (_tags u)) by (rewrite Etags; now left).
  pose proof (valid_each_tag u x H Hin) as Ht.
  unfold valid_tag, numpy.getitem_mask in Ht.
  rewrite eq_scalar_length, Etags in Ht.
  destruct (length (x :: tags) =? length (firstn (length (x :: tags)) (_index u)))%nat
    eqn:E; cbn [bind] in Ht; [|discriminate].
  apply Nat.eqb_eq in E. now rewrite <- E.
Qed.

End ValidFacts.

Lemma wrap_index_nonneg (n : nat) (i : Z) :
  0 <= i < Z.of_nat n -> wrap_index n i = Ok (Z.to_nat i).
Proof.
  intros H. unfold wrap_index.
  replace (i <? - Z.of_nat n) with false by (symmetry; apply Z.ltb_ge; lia).
  replace (Z.of_nat n <=? i) with false by (symmetry; apply Z.leb_gt; lia).
  replace (i <? 0) with false by (symmetry; apply Z.ltb_ge; lia).
  reflexivity.
Qed.

Lemma tuple_getitem_nonneg {A : Type} (t : list A) (i : Z) (x d : A) :
  0 <= i -> tuple_getitem t i = Ok x ->
  (Z.to_nat i < length t)%nat /\ nth (Z.to_nat i) t d = x.
Proof.
  intros Hi. unfold tuple_getitem.
  destruct (wrap_index (length t) i) as [p|e] eqn:Ew; cbn [bind]; [|discriminate].
  pose proof (wrap_index_lt _ _ _ Ew) as Hp.
  unfold wrap_index in Ew.
  destruct ((i <? - Z.of_nat (length t)) || (Z.of_nat (length t) <=? i));
    [discriminate|].
  replace (i <? 0) with false in Ew by (symmetry; apply Z.ltb_ge; lia).
  inversion Ew; subst p.
  destruct (nth_error t (Z.to_nat i)) as [y|] eqn:En; [|discriminate].
  intros H. inversion H; subst y. split; [exact Hp|].
  now apply nth_error_nth.
Qed.

Lemma tuple_getitem_nth {A : Type} (t : list A) (p : nat) (d : A) :
  (p < length t)%nat -> tuple_getitem t (Z.of_nat p) = Ok (nth p t d).
Proof.
  intros H. unfold tuple_getitem.
  rewrite wrap_index_nonneg by lia. cbn [bind]. rewrite Nat2Z.id.
  now rewrite (nth_error_nth' t d H).
Qed.

Lemma nth_firstn_lt {A : Type} (a : list A) (n i : nat) (d : A) :
  (i < n)%nat -> nth i (firstn n a) d = nth i a d.
Proof.
  revert n i. induction a as [|x a IH]; intros n i H.
  - rewrite firstn_nil. reflexivity.
  - destruct n as [|n]; [lia|]. destruct i as [|i]; [reflexivity|].
    simpl. apply IH. lia.
Qed.

Lemma eq_scalar_nth (tags : list Z) (t : Z) (i : nat) :
  (i < length tags)%nat ->
  nth i (numpy.eq_scalar tags t) false = (nth i tags 0 =? t).
Proof.
  intros H. unfold numpy.eq_scalar.
  rewrite (nth_indep _ false (0 =? t)) by (rewrite length_map; exact H).
  exact (map_nth (fun x => x =? t) tags 0 i).
Qed.

Section PositionFacts.

Context {B : Type} {branch : BranchArray B}.

(** Validation bounds the index entry of every position by the length of
    the branch its tag names. *)
Lemma valid_position (u : UnionArray B) (i : nat) :
  _valid u = Ok tt -> (i < length (_tags u))%nat ->
  (i < length (_index u))%nat
  /\ exists c, tuple_getitem (_contents u) (nth i (_tags u) 0) = Ok c
               /\ nth i (_index u) 0 < Z.of_nat (len c).
Proof.
  intros Hv Hi.
  pose proof (valid_index_covers u Hv) as Hcov.
  assert (Hlen : (length (_tags u) <= length (_index u))%nat).
  { rewrite length_firstn in Hcov. lia. }
  split; [lia|].
  set (t := nth i (_tags u) 0).
  assert (Hin : In t (_tags u)) by (apply nth_In; exact Hi).
  pose proof (valid_each_tag u t Hv Hin) as Ht. unfold valid_tag in Ht.
  unfold numpy.getitem_mask in Ht.
  rewrite eq_scalar_length, Hcov, Nat.eqb_refl in Ht. cbn [bind] in Ht.
  destruct (numpy.max _) as [mi|e] eqn:Em; cbn [bind] in Ht; [|discriminate].
  destruct (tuple_getitem (_contents u) t) as [c|e]; cbn [bind] in Ht;
    [|discriminate].
  exists c. split; [reflexivity|].
  destruct (Z.of_nat (len c) <=? mi) eqn:E; [discriminate|].
  apply Z.leb_gt in E.
  apply max_ok in Em. destruct Em as [_ Hle]. rewrite Forall_forall in Hle.
  assert (Hsel : In (nth i (firstn (length (_tags u)) (_index u)) 0)
                   (numpy.compress (numpy.eq_scalar (_tags u) t)
                      (firstn (length (_tags u)) (_index u)))).
  { apply compress_nth_In.
    - now rewrite eq_scalar_length, Hcov.
    - rewrite eq_scalar_nth by exact Hi. apply Z.eqb_refl. }
  rewrite nth_firstn_lt in Hsel by exact Hi.
  specialize (Hle _ Hsel). lia.
Qed.

End PositionFacts.

(** ** The sequential factory *)

(** C9: the sequential factory on tags [0, 1, 0, 1] and the branches
    [10, 20] and [1.5, 2.5] gives index [0, 0, 1, 1]; the length is 4;
    iteration yields 10, 1.5, 20, 2.5 in this order, element [i] being
    [contents[tags[i]][index[i]]]; the sequentiality test returns true. *)
Theorem C9_sequential_scenario :
  exists u : UnionArray content,
    fromtags [0; 1; 0; 1] example_contents = Ok u
    /\ _index u = [0; 0; 1; 1]
    /\ __len__ u = 4%nat
    /\ __iter__ u = Ok [element (int_ 10); element (float_ 1.5);
                        element (int_ 20); element (float_ 2.5)]
    /\ map (iter_item u) (seq 0 4)
       = [Ok (element (int_ 10)); Ok (element (float_ 1.5));
          Ok (element (int_ 20)); Ok (element (float_ 2.5))]
    /\ issequential u = Ok true.
Proof.
  eexists. split; [reflexivity|].
  repeat split; reflexivity.
Qed.

Section FromtagsFacts.

Context {B : Type} {branch : BranchArray B}.

(** The index [fromtags] derives from [tags] for the branches below [k]. *)
Lemma fromtags_loop (tags init : list Z) (k : nat) :
  length init = length tags ->
  exists index,
    fold_result (fromtags_step tags) (seq 0 k) init = Ok index
    /\ length index = length tags
    /\ forall t, (t < k)%nat ->
         numpy.compress (numpy.eq_scalar tags (Z.of_nat t)) index
         = numpy.arange (numpy.count_nonzero (numpy.eq_scalar tags (Z.of_nat t))).
Proof.
  intros Hinit. induction k as [|k IH].
  - exists init. simpl. repeat split; [assumption | lia].
  - destruct IH as (index & Hfold & Hlen & Hsel).
    rewrite seq_S, fold_result_app, Hfold. cbn [bind Nat.add fold_result].
    unfold fromtags_step at 1, numpy.setitem_mask.
    rewrite eq_scalar_length, Hlen, Nat.eqb_refl.
    rewrite arange_length, Nat.eqb_refl. cbn [negb bind].
    eexists. split; [reflexivity|]. split.
    + now rewrite place_length.
    + intros t Ht. destruct (Nat.eq_dec t k) as [->|Hne].
      * apply compress_place_same.
        -- now rewrite eq_scalar_length.
        -- apply arange_length.
      * rewrite compress_place_other by lia. apply Hsel. lia.
Qed.

(** The array [fromtags] builds from stored tags that all name a branch. *)
Lemma fromtags_ok (tags : list Z) (contents : list B) :
  stored_tags tags ->
  (forall t, In t tags -> t < Z.of_nat (length contents)) ->
  exists index,
    fromtags tags contents
    = Ok {| _tags := tags; _index := index; _contents := contents |}
    /\ length index = length tags
    /\ forall t, In t tags ->
         numpy.compress (numpy.eq_scalar tags t) index
         = numpy.arange (numpy.count_nonzero (numpy.eq_scalar tags t)).
Proof.
  intros Hst Hbelow. pose proof Hst as [Hne Hrange].
  rewrite Forall_forall in Hrange.
  assert (Hnat : forall t, In t tags ->
                   t = Z.of_nat (Z.to_nat t)
                   /\ (Z.to_nat t < length contents)%nat).
  { intros t Ht. specialize (Hrange t Ht). specialize (Hbelow t Ht). lia. }
  destruct (fromtags_loop tags (numpy.full (length tags) (-1))
              (length contents)) as (index & Hfold & Hlen & Hsel).
  { unfold numpy.full. apply repeat_length. }
  assert (Hmask : forall t, In t tags ->
            numpy.compress (numpy.eq_scalar tags t) index
            = numpy.arange (numpy.count_nonzero (numpy.eq_scalar tags t))).
  { intros t Ht. destruct (Hnat t Ht) as [Heq Hlt].
    rewrite Heq. apply Hsel. exact Hlt. }
  exists index. split; [|split; assumption].
  unfold fromtags. rewrite (set_tags_fixpoint _ Hst). cbn [bind].
  assert (Hc : contents <> []).
  { destruct tags as [|x tags']; [congruence|].
    specialize (Hbelow x (or_introl eq_refl)).
    specialize (Hrange x (or_introl eq_refl)).
    intros ->. simpl in Hbelow. lia. }
  rewrite (proj2 (set_contents_ok B contents contents) (conj eq_refl Hc)).
  cbn [bind].
  destruct (max_nonempty _ Hne) as [m Hm].
  destruct tags as [|x tags'] eqn:Etags; [congruence|]. rewrite <- Etags in *.
  replace (0 <? length tags)%nat with true
    by (rewrite Etags; reflexivity).
  rewrite Hm. cbn [bind].
  destruct (max_ok _ _ Hm) as [Hin _].
  replace (Z.of_nat (length contents) <=? m) with false
    by (symmetry; apply Z.leb_gt; auto).
  cbn [bind]. rewrite Hfold. cbn [bind].
  assert (Hi : set_index index = Ok index).
  { apply set_index_ok. split; [reflexivity|].
    apply (compress_Forall _ tags); [exact Hlen|].
    intros t Ht. rewrite (Hmask t Ht). apply arange_nonneg. }
  rewrite Hi. reflexivity.
Qed.

(** Running the factory again on what it built gives the same array. *)
Lemma fromtags_replay (tags : list Z) (contents : list B) (u : UnionArray B) :
  fromtags tags contents = Ok u ->
  fromtags (_tags u) (_contents u) = Ok u.
Proof.
  unfold fromtags. intros H.
  destruct (set_tags tags) as [t|e] eqn:Et; cbn [bind] in H; [|discriminate].
  destruct (set_contents contents) as [c|e] eqn:Ec; cbn [bind] in H;
    [|discriminate].
  assert (Hu : _tags u = t /\ _contents u = c).
  { repeat match type of H with
           | bind ?x _ = _ => destruct x; cbn [bind] in H; [|discriminate]
           end.
    inversion H. split; reflexivity. }
  destruct Hu as [-> ->].
  rewrite (set_tags_fixpoint _ (set_tags_stored _ _ Et)). cbn [bind].
  apply set_contents_ok in Ec. destruct Ec as [-> Hc].
  rewrite (proj2 (set_contents_ok B contents contents) (conj eq_refl Hc)).
  cbn [bind]. exact H.
Qed.

(** What is known of an array the factory built. *)
Lemma fromtags_inv (tags : list Z) (contents : list B) (u : UnionArray B) :
  fromtags tags contents = Ok u ->
  stored_tags (_tags u)
  /\ length (_index u) = length (_tags u)
  /\ forall t, In t (_tags u) ->
       numpy.compress (numpy.eq_scalar (_tags u) t) (_index u)
       = numpy.arange (numpy.count_nonzero (numpy.eq_scalar (_tags u) t)).
Proof.
  intros H. pose proof (fromtags_replay _ _ _ H) as Hr.
  assert (Hst : stored_tags (_tags u)).
  { unfold fromtags in H.
    destruct (set_tags tags) as [t|e] eqn:Et; cbn [bind] in H; [|discriminate].
    repeat match type of H with
           | bind ?x _ = _ => destruct x; cbn [bind] in H; [|discriminate]
           end.
    inversion H. simpl. exact (set_tags_stored _ _ Et). }
  assert (Hbelow : forall t, In t (_tags u) ->
                     t < Z.of_nat (length (_contents u))).
  { unfold fromtags in Hr.
    rewrite (set_tags_fixpoint _ Hst) in Hr. cbn [bind] in Hr.
    destruct (set_contents (_contents u)) as [c|e] eqn:Ec; cbn [bind] in Hr;
      [|discriminate].
    apply set_contents_ok in Ec. destruct Ec as [-> _].
    destruct Hst as [Hne _].
    destruct (_tags u) as [|x tags'] eqn:Etags; [congruence|].
    cbn [length Nat.ltb Nat.leb] in Hr.
    destruct (numpy.max (x :: tags')) as [m|e] eqn:Em; cbn [bind] in Hr;
      [|discriminate].
    destruct (Z.of_nat (length (_contents u)) <=? m) eqn:E; cbn [bind] in Hr;
      [discriminate|].
    apply Z.leb_gt in E. apply max_ok in Em. destruct Em as [_ Hle].
    rewrite Forall_forall in Hle. intros t Ht. specialize (Hle t Ht). lia. }
  destruct (fromtags_ok _ _ Hst Hbelow) as (index & Hok & Hlen & Hsel).
  rewrite Hok in Hr. inversion Hr as [Hu]. rewrite <- Hu. simpl.
  rewrite <- Hu in Hsel. simpl in Hsel.
  split; [exact Hst | split; assumption].
Qed.

Lemma issequential_loop_true (u : UnionArray B) (todo : list Z) :
  issequential_loop u todo = Ok true ->
  forall t, In t todo ->
    numpy.getitem_mask (_index u) (numpy.eq_scalar (_tags u) t)
    = Ok (numpy.arange (numpy.count_nonzero (numpy.eq_scalar (_tags u) t))).
Proof.
  induction todo as [|x todo IH]; simpl; intros H t Ht; [contradiction|].
  destruct (numpy.getitem_mask (_index u) (numpy.eq_scalar (_tags u) x))
    as [sel|e] eqn:Eg; cbn [bind] in H; [|discriminate].
  destruct (numpy.array_equal sel _) eqn:Ea; cbn [negb] in H; [|discriminate].
  apply array_equal_eq in Ea. subst sel.
  destruct Ht as [<-|Ht]; [exact Eg | exact (IH H t Ht)].
Qed.

Lemma issequential_loop_intro (u : UnionArray B) (todo : list Z) :
  (forall t, In t todo ->
     numpy.getitem_mask (_index u) (numpy.eq_scalar (_tags u) t)
     = Ok (numpy.arange (numpy.count_nonzero (numpy.eq_scalar (_tags u) t)))) ->
  issequential_loop u todo = Ok true.
Proof.
  induction todo as [|x todo IH]; simpl; intros H; [reflexivity|].
  rewrite (H x (or_introl eq_refl)). cbn [bind].
  rewrite (proj2 (array_equal_eq _ _) eq_refl). cbn [negb].
  apply IH. intros t Ht. apply H. now right.
Qed.

(** An array the factory built passes the sequentiality test as soon as it
    passes validation. *)
Lemma fromtags_issequential (tags : list Z) (contents : list B)
  (u : UnionArray B) :
  fromtags tags contents = Ok u ->
  issequential u = (_valid u ;;; Ok true).
Proof.
  intros H. destruct (fromtags_inv _ _ _ H) as (_ & Hlen & Hsel).
  unfold issequential.
  destruct (_valid u) as [[]|e]; cbn [bind]; [|reflexivity].
  apply issequential_loop_intro. intros t Ht.
  apply (proj1 (unique_In _ _)) in Ht.
  unfold numpy.getitem_mask.
  rewrite eq_scalar_length, Hlen, Nat.eqb_refl, (Hsel t Ht). reflexivity.
Qed.

(** C2: for an array built by the sequential factory the encoder never
    takes the general form: after validation it emits the compact form, tags
    and contents only and no index, and replaying that description through
    [fromtags] gives the original array back, buffer for buffer and so
    element for element.  Said the other way round: for a constructed array
    on which the sequentiality test holds, [fromtags] on its tags and
    contents derives exactly its index restricted to the first [len(tags)]
    positions. *)
Theorem C2_compact_form_round_trip :
  (forall (tags : list Z) (contents : list B) (u : UnionArray B),
      fromtags tags contents = Ok u ->
      __awkward_persist__ u
      = (_valid u ;;; Ok (call_fromtags (_tags u) (_contents u)))
      /\ (_valid u = Ok tt ->
          __awkward_persist__ u = Ok (call_fromtags (_tags u) (_contents u)))
      /\ replay (call_fromtags (_tags u) (_contents u)) = Ok u)
  /\ (forall u : UnionArray B,
         constructed u ->
         issequential u = Ok true ->
         fromtags (_tags u) (_contents u)
         = Ok {| _tags := _tags u;
                 _index := firstn (length (_tags u)) (_index u);
                 _contents := _contents u |}).
Proof.
  split.
  - intros tags contents u H.
    assert (Hp : __awkward_persist__ u
                 = (_valid u ;;; Ok (call_fromtags (_tags u) (_contents u)))).
    { unfold __awkward_persist__.
      rewrite (fromtags_issequential _ _ _ H).
      destruct (_valid u) as [[]|e]; reflexivity. }
    split; [exact Hp|]. split.
    + intros Hv. now rewrite Hp, Hv.
    + simpl. exact (fromtags_replay _ _ _ H).
  - intros u (tags0 & index0 & contents0 & Hinit) Hseq.
    destruct (init_ok _ _ _ _ _ Hinit) as (Hst & _ & _).
    unfold issequential in Hseq.
    destruct (_valid u) as [[]|e] eqn:Hv; cbn [bind] in Hseq; [|discriminate].
    pose proof (issequential_loop_true _ _ Hseq) as Hsel.
    assert (Hlen : length (_index u) = length (_tags u)).
    { destruct Hst as [Hne _].
      destruct (_tags u) as [|x tags'] eqn:Etags; [congruence|].
      specialize (Hsel x). rewrite unique_In in Hsel.
      specialize (Hsel (or_introl eq_refl)).
      unfold numpy.getitem_mask in Hsel. rewrite eq_scalar_length in Hsel.
      destruct (length (x :: tags') =? length (_index u))%nat eqn:E;
        [|discriminate].
      apply Nat.eqb_eq in E. now rewrite <- E. }
    destruct (fromtags_ok (_tags u) (_contents u) Hst (fun t => valid_tags_below u t Hv))
      as (index & Hok & Hlen' & Hsel').
    rewrite Hok. do 2 f_equal.
    rewrite <- Hlen, firstn_all.
    apply (compress_ext (_tags u)); [exact Hlen' | exact Hlen |].
    intros t Ht. rewrite (Hsel' t Ht).
    assert (Hu : In t (numpy.unique (_tags u))) by now apply unique_In.
    specialize (Hsel t Hu). unfold numpy.getitem_mask in Hsel.
    rewrite eq_scalar_length, Hlen, Nat.eqb_refl in Hsel.
    now inversion Hsel.
Qed.

End FromtagsFacts.

(** C2 on the array of the worked example. *)
Lemma C2_compact_form_round_trip_witness :
  (fromtags [0; 1; 0; 1] example_contents = Ok example_union
   /\ _valid example_union = Ok tt
   /\ constructed example_union
   /\ issequential example_union = Ok true)
  /\ (__awkward_persist__ example_union
       = Ok (call_fromtags [0; 1; 0; 1] example_contents)
      /\ replay (call_fromtags [0; 1; 0; 1] example_contents) = Ok example_union)
  /\ fromtags [0; 1; 0; 1] example_contents
     = Ok {| _tags := [0; 1; 0; 1];
             _index := firstn 4 [0; 0; 1; 1];
             _contents := example_contents |}.
Proof.
  assert (Hc : constructed example_union).
  { exists [0; 1; 0; 1], [0; 0; 1; 1], example_contents. reflexivity. }
  split; [repeat split; try reflexivity; exact Hc|].
  split.
  - destruct (proj1 (@C2_compact_form_round_trip content content_branch)
               [0; 1; 0; 1] example_contents example_union eq_refl)
      as (_ & Hpersist & Hreplay).
    split; [exact (Hpersist eq_refl) | exact Hreplay].
  - exact (proj2 (@C2_compact_form_round_trip content content_branch)
             example_union Hc eq_refl).
Defined.

(** ** Positional reads *)

Section ReadFacts.

Context {B : Type} {branch : BranchArray B}.

(** A tag that a homogeneous selection holds is a tag of the array. *)
Lemma homogeneous_In (tags : list Z) (ps : selection nat) (t : Z) :
  match ps with
  | scalar_sel p => (p < length tags)%nat
  | array_sel ps' => Forall (fun p => (p < length tags)%nat) ps'
  end ->
  homogeneous t (take tags ps) -> In t tags.
Proof.
  destruct ps as [p|[|p ps']]; simpl.
  - intros Hp <-. now apply nth_In.
  - intros _ [H _]. congruence.
  - intros Hp [_ Hall]. apply Forall_inv in Hp. apply Forall_inv in Hall.
    rewrite <- Hall. now apply nth_In.
Qed.

Lemma forallb_homogeneous (ts : list Z) (t : Z) :
  Forall (fun x => x = t) ts -> ts <> [] ->
  hd 0 ts = t /\ forallb (fun x => x =? hd 0 ts) ts = true.
Proof.
  intros Hall Hne. destruct ts as [|x ts]; [congruence|].
  split; [exact (Forall_inv Hall)|].
  apply forallb_forall. intros y Hy. apply Z.eqb_eq.
  rewrite Forall_forall in Hall.
  rewrite (Hall y Hy). simpl. symmetry. apply Hall. now left.
Qed.

(** With tags of one dimension and a head that is an integer, a slice, an
    integer array of one dimension or a mask: on a valid array, a selection
    that is not empty and of one tag [t] is answered by branch [t] alone.
    The read returns [contents[t]] indexed by the index entries at the
    selected positions, followed by the tail of the selector, with no union
    around it.  An empty selection is delegated to [contents[0]] in the same
    way, indexed by the empty array.  A selector that is not a tuple reads
    as the one-element tuple. *)
Theorem narrowing_one_dimension (u : UnionArray B) (head : selector)
  (tail : list tail_selector) (ps : selection nat) :
  _valid u = Ok tt ->
  positions (length (_tags u)) head = Ok ps ->
  (forall t : Z,
      homogeneous t (take (_tags u) ps) ->
      exists c : B,
        tuple_getitem (_contents u) t = Ok c
        /\ __getitem__ u (where_tuple head tail)
           = (r <- getitem c
                     (take (firstn (length (_tags u)) (_index u)) ps) tail ;;
              Ok (ret_branch r)))
  /\ (take (_tags u) ps = array_sel [] ->
      take (firstn (length (_tags u)) (_index u)) ps = array_sel []
      /\ __getitem__ u (where_tuple head tail)
         = (c <- tuple_getitem (_contents u) 0 ;;
            r <- getitem c (array_sel []) tail ;;
            Ok (ret_branch r)))
  /\ __getitem__ u (where_single head) = __getitem__ u (where_tuple head []).
Proof.
  intros Hv Hps.
  pose proof (positions_lt _ _ _ Hps) as Hlt.
  assert (Htags : ndarray_getitem (_tags u) head = Ok (take (_tags u) ps))
    by now apply ndarray_getitem_positions.
  assert (Hidx : ndarray_getitem (firstn (length (_tags u)) (_index u)) head
                 = Ok (take (firstn (length (_tags u)) (_index u)) ps)).
  { apply ndarray_getitem_positions. now rewrite (valid_index_covers u Hv). }
  split; [|split; [|reflexivity]].
  - intros t Hhom.
    destruct (valid_branch u t Hv (homogeneous_In _ _ _ Hlt Hhom)) as [c Hc].
    exists c. split; [exact Hc|].
    unfold __getitem__, getitem_positional.
    rewrite Hv, Htags, Hidx. cbn [bind].
    destruct ps as [p|ps']; simpl in Hhom |- *.
    + subst t. rewrite Hc. reflexivity.
    + destruct Hhom as [Hne Hall].
      destruct (forallb_homogeneous _ _ Hall Hne) as [Hhd Hfb].
      rewrite Hfb, Hhd, Hc.
      destruct (map (fun p => nth p (_tags u) 0) ps'); [congruence|].
      reflexivity.
  - intros Hempty.
    destruct ps as [p|ps']; simpl in Hempty; [discriminate|].
    inversion Hempty as [Hmap]. apply map_eq_nil in Hmap. subst ps'.
    split; [reflexivity|].
    unfold __getitem__, getitem_positional.
    rewrite Hv, Htags, Hidx. reflexivity.
Qed.

(** Validation looks at the index entries the tags cover, and at no others. *)
Lemma valid_agree (u1 u2 : UnionArray B) :
  agree u1 u2 -> _valid u1 = _valid u2.
Proof.
  intros (Ht & Hc & Hi). rewrite !valid_unfold.
  rewrite Hi, Ht, Hc.
  match goal with
  | |- bind ?c _ = _ => destruct c as [[]|e]; cbn [bind]; [|reflexivity]
  end.
  apply for_each_ext. intros t. unfold valid_tag. now rewrite Ht, Hc.
Qed.

Lemma getitem_positional_agree (u1 u2 : UnionArray B) (head : selector)
  (tail : list tail_selector) :
  agree u1 u2 ->
  getitem_positional u1 head tail = getitem_positional u2 head tail.
Proof.
  intros (Ht & Hc & Hi). unfold getitem_positional, copy.
  rewrite Hi, Ht, Hc. reflexivity.
Qed.

Lemma same_read_refl (r : result read) : same_read r r.
Proof.
  destruct r as [[a|x|a]|e]; simpl; unfold agree; auto.
Qed.

(** C10: two arrays with the same tags, the same contents and the same
    index entries at the positions the tags cover, whatever the index holds
    beyond, are accepted or rejected alike by validation, with the same
    error, and every positional read returns the same on both.  The empty
    tuple, which returns the array itself, and field-name reads give
    results that agree in the same sense. *)
Theorem C10_index_beyond_tags_is_ignored (u1 u2 : UnionArray B) :
  agree u1 u2 ->
  _valid u1 = _valid u2
  /\ (forall (head : selector) (tail : list tail_selector),
         __getitem__ u1 (where_tuple head tail)
         = __getitem__ u2 (where_tuple head tail))
  /\ (forall head : selector,
         __getitem__ u1 (where_single head) = __getitem__ u2 (where_single head))
  /\ (forall w : where_, same_read (__getitem__ u1 w) (__getitem__ u2 w)).
Proof.
  intros Hag. pose proof (valid_agree _ _ Hag) as Hv.
  assert (Hpos : forall head tail,
             __getitem__ u1 (where_tuple head tail)
             = __getitem__ u2 (where_tuple head tail)).
  { intros head tail. unfold __getitem__.
    now rewrite Hv, (getitem_positional_agree _ _ head tail Hag). }
  assert (Hsingle : forall head,
             __getitem__ u1 (where_single head)
             = __getitem__ u2 (where_single head)).
  { intros head. unfold __getitem__.
    now rewrite Hv, (getitem_positional_agree _ _ head [] Hag). }
  repeat split; try assumption.
  intros [names| |head|head tail].
  - unfold __getitem__. rewrite Hv.
    destruct Hag as (Ht & Hc & Hi).
    destruct (_valid u2) as [[]|e]; cbn [bind]; [|reflexivity].
    rewrite Ht, Hc.
    destruct (map_result _ _) as [cs|e]; cbn [bind]; [|reflexivity].
    destruct (length cs =? 0)%nat.
    + destruct (tuple_getitem (_contents u2) 0) as [c|e]; cbn [bind];
        [|reflexivity].
      destruct (getitem_fields c names) as [p|e]; cbn [bind]; [|reflexivity].
      unfold copy. cbn [bind].
      destruct (set_contents [p]) as [c'|e]; cbn [bind]; [|reflexivity].
      simpl. unfold agree. simpl. auto.
    + unfold copy. cbn [bind].
      destruct (set_contents cs) as [c'|e]; cbn [bind]; [|reflexivity].
      simpl. unfold agree. simpl. auto.
  - unfold __getitem__. rewrite Hv.
    destruct (_valid u2) as [[]|e]; cbn [bind]; [exact Hag | reflexivity].
  - rewrite Hsingle. apply same_read_refl.
  - rewrite Hpos. apply same_read_refl.
Qed.

End ReadFacts.

(** On the worked example: the slice [0::2] selects the positions 0 and 2,
    both of tag 0, and the read is [contents[0]] at the index entries 0 and 1;
    the slice [4:] selects nothing and the read is the empty array of
    [contents[0]]. *)
Lemma narrowing_one_dimension_witness :
  (_valid example_union = Ok tt
   /\ positions 4 (sel_slice (Some 0) None (Some 2))
      = Ok (array_sel [0%nat; 2%nat])
   /\ homogeneous 0 (take [0; 1; 0; 1] (array_sel [0%nat; 2%nat]))
   /\ positions 4 (sel_slice (Some 4) None None) = Ok (array_sel []))
  /\ (exists c : content,
         tuple_getitem example_contents 0 = Ok c
         /\ __getitem__ example_union
              (where_tuple (sel_slice (Some 0) None (Some 2)) [])
            = (r <- getitem c (array_sel [0; 1]) [] ;; Ok (ret_branch r)))
  /\ __getitem__ example_union
       (where_tuple (sel_slice (Some 0) None (Some 2)) [])
     = Ok (ret_branch (array (ndarray int64 [int_ 10; int_ 20])))
  /\ __getitem__ example_union (where_tuple (sel_slice (Some 4) None None) [])
     = (c <- tuple_getitem example_contents 0 ;;
        r <- getitem c (array_sel []) [] ;;
        Ok (ret_branch r))
  /\ __getitem__ example_union (where_tuple (sel_slice (Some 4) None None) [])
     = Ok (ret_branch (array (ndarray int64 []))).
Proof.
  split; [repeat split; try reflexivity; try discriminate;
          repeat constructor|].
  split.
  - apply (proj1 (@narrowing_one_dimension content content_branch
                    example_union (sel_slice (Some 0) None (Some 2)) []
                    (array_sel [0%nat; 2%nat]) eq_refl eq_refl) 0).
    split; [discriminate | repeat constructor].
  - split; [reflexivity|]. split; [|reflexivity].
    exact (proj2 (proj1 (proj2 (@narrowing_one_dimension content content_branch
                    example_union (sel_slice (Some 4) None None) []
                    (array_sel []) eq_refl eq_refl)) eq_refl)).
Defined.

(** ** Reading with tags of two dimensions *)

Lemma all_eq_first_constant (ts : planar.array2 Z) (t : Z) :
  Forall (fun r => r = repeat t (planar.ncols ts)) (planar.rows ts) ->
  planar.all_eq_first ts = true.
Proof.
  intros H. unfold planar.all_eq_first.
  assert (Heq : forall a, numpy.array_equal a a = true).
  { induction a as [|x a IH]; [reflexivity|].
    simpl. rewrite Z.eqb_refl, IH. reflexivity. }
  destruct (planar.rows ts) as [|r0 rs]; [reflexivity|].
  apply forallb_forall. intros r Hr.
  rewrite Forall_forall in H.
  rewrite (H r Hr). cbn [hd]. rewrite (H r0 (or_introl eq_refl)).
  apply Heq.
Qed.

(** C4 (the code departs from it): a positional selection that is not empty
    and of one tag is not always answered by the branch of that tag.  The
    array with the tags [[0, 0], [0, 0]], the index [[0, 1], [2, 3]] and one
    branch of four elements is accepted by the constructor and is valid; the
    slice [0:2] selects both rows, every selected tag is 0, and the read
    raises [TypeError] where the claim has [contents[0]] at the selected
    index entries.  The same happens for every valid array and every
    selector that leaves the selected tags two-dimensional, not empty and
    all equal: the code takes [tags[0]], which is then a row and no tag, to
    index the tuple of the branches. *)
Theorem C4_homogeneous_selection_raises :
  (forall getitem2 : content -> planar.array2 Z -> result value,
      planar.__init__ (planar._tags example_planar)
        (planar._index example_planar) (planar._contents example_planar)
      = Ok example_planar
      /\ planar._valid example_planar = Ok tt
      /\ planar.array_getitem (planar._tags example_planar)
           (sel_slice (Some 0) (Some 2) None)
         = Ok (planar.rows_sel (planar._tags example_planar))
      /\ planar.__getitem__ getitem2 example_planar
           (sel_slice (Some 0) (Some 2) None)
         = Raise (TypeError
             "only integer scalar arrays can be converted to a scalar index"))
  /\ forall (B : Type) (branch : BranchArray B)
       (getitem2 : B -> planar.array2 Z -> result item)
       (u : planar.UnionArray B) (head : selector)
       (ts ixs : planar.array2 Z) (t : Z),
       planar._valid u = Ok tt ->
       planar.array_getitem (planar._tags u) head = Ok (planar.rows_sel ts) ->
       planar.array_getitem
         (planar.first_rows (length (planar.rows (planar._tags u)))
            (planar._index u)) head
       = Ok (planar.rows_sel ixs) ->
       planar.rows ts <> [] ->
       Forall (fun r => r = repeat t (planar.ncols ts)) (planar.rows ts) ->
       planar.__getitem__ getitem2 u head
       = Raise (TypeError
           "only integer scalar arrays can be converted to a scalar index").
Proof.
  split.
  - intros getitem2. repeat split; reflexivity.
  - intros B branch getitem2 u head ts ixs t Hv Ht Hi Hne Hall.
    unfold planar.__getitem__. rewrite Hv, Ht, Hi. cbn [bind].
    destruct (planar.rows ts) as [|r rs] eqn:Er; [congruence|].
    cbn [length Nat.eqb].
    rewrite (all_eq_first_constant ts t) by (rewrite Er; exact Hall).
    reflexivity.
Qed.

(** C10 on the worked example and its padded copy. *)
Lemma C10_index_beyond_tags_is_ignored_witness :
  agree example_union example_union_padded
  /\ (_valid example_union = _valid example_union_padded
      /\ (forall (head : selector) (tail : list selector),
             __getitem__ example_union (where_tuple head tail)
             = __getitem__ example_union_padded (where_tuple head tail))
      /\ (forall head : selector,
             __getitem__ example_union (where_single head)
             = __getitem__ example_union_padded (where_single head))
      /\ (forall w : where_,
             same_read (__getitem__ example_union w)
               (__getitem__ example_union_padded w))).
Proof.
  assert (H : agree example_union example_union_padded)
    by (repeat split; reflexivity).
  split; [exact H|].
  exact (@C10_index_beyond_tags_is_ignored content content_branch
           example_union example_union_padded H).
Defined.

(** ** Reading a field *)

(** C1 (the code departs from it): a field-name read can return a
    structurally invalid array without raising.  With tags [1, 1] over two
    tables, the read keeps the tags and collects one projected branch only,
    so the largest tag, 1, is not below the number of branches, 1, and the
    result fails its own validation. *)
Theorem C1_field_read_returns_invalid_array :
  exists u u' : UnionArray content,
    __init__ [1; 1] [0; 1] example_tables = Ok u
    /\ _valid u = Ok tt
    /\ __getitem__ u (where_fields (field "x")) = Ok (ret_union u')
    /\ _tags u' = [1; 1]
    /\ _contents u' = [ndarray int64 [int_ 3; int_ 4]]
    /\ numpy.max (_tags u') = Ok (Z.of_nat (length (_contents u')))
    /\ _valid u' = Raise (ValueError
         "maximum tag is {0} but there are only {1} contents arrays").
Proof.
  do 2 eexists. split; [reflexivity|].
  split; [reflexivity|]. split; [reflexivity|].
  repeat split.
Qed.

Lemma map_result_length {A C : Type} (g : A -> result C) (xs : list A)
  (ys : list C) :
  map_result g xs = Ok ys -> length ys = length xs.
Proof.
  intros H. apply map_result_ok in H. symmetry. exact (Forall2_length H).
Qed.


Section UnionReadFacts.

Context {B : Type} {branch : BranchArray B}.

(** A field-name read keeps tags and index as they are and collects one
    projected branch for every distinct tag. *)
Lemma field_read_keeps_tags (u : UnionArray B) (names : stringslice)
  (r : read) :
  __getitem__ u (where_fields names) = Ok r ->
  exists u',
    r = ret_union u'
    /\ _tags u' = _tags u
    /\ _index u' = _index u
    /\ length (_contents u')
       = Nat.max 1 (length (numpy.unique (_tags u))).
Proof.
  unfold __getitem__. intros H.
  destruct (_valid u) as [[]|e]; cbn [bind] in H; [|discriminate].
  destruct (map_result _ _) as [cs|e] eqn:Ecs; cbn [bind] in H; [|discriminate].
  apply map_result_length in Ecs.
  destruct (length cs =? 0)%nat eqn:E0.
  - apply Nat.eqb_eq in E0.
    destruct (tuple_getitem (_contents u) 0) as [c|e]; cbn [bind] in H;
      [|discriminate].
    destruct (getitem_fields c names) as [p|e]; cbn [bind] in H; [|discriminate].
    unfold copy in H. cbn [bind] in H.
    destruct (set_contents [p]) as [c'|e] eqn:Ec; cbn [bind] in H; [|discriminate].
    apply set_contents_ok in Ec. destruct Ec as [-> _].
    inversion H. eexists. split; [reflexivity|]. simpl.
    repeat split. rewrite <- Ecs, E0. reflexivity.
  - apply Nat.eqb_neq in E0.
    unfold copy in H. cbn [bind] in H.
    destruct (set_contents cs) as [c'|e] eqn:Ec; cbn [bind] in H; [|discriminate].
    apply set_contents_ok in Ec. destruct Ec as [-> _].
    inversion H. eexists. split; [reflexivity|]. simpl.
    repeat split. rewrite <- Ecs.
    destruct (length cs); [congruence | reflexivity].
Qed.

(** So the result is invalid as soon as some tag is not below the number of
    distinct tags. *)
Lemma field_read_invalid (u : UnionArray B) (names : stringslice)
  (u' : UnionArray B) (t : Z) :
  __getitem__ u (where_fields names) = Ok (ret_union u') ->
  In t (_tags u) ->
  Z.of_nat (length (numpy.unique (_tags u))) <= t ->
  _valid u' = Raise (ValueError
    "maximum tag is {0} but there are only {1} contents arrays").
Proof.
  intros H Hin Ht.
  destruct (field_read_keeps_tags u names _ H) as (u'' & Hr & Htags & _ & Hlen).
  inversion Hr; subst u''. clear Hr.
  rewrite valid_unfold, Htags.
  destruct (_tags u) as [|x tags] eqn:Etags; [contradiction|].
  cbn [length Nat.ltb Nat.leb].
  destruct (max_nonempty (x :: tags) ltac:(discriminate)) as [m Hm].
  rewrite Hm. cbn [bind].
  destruct (max_ok _ _ Hm) as [_ Hle]. rewrite Forall_forall in Hle.
  specialize (Hle t Hin).
  assert (Hu : (0 < length (numpy.unique (x :: tags)))%nat).
  { assert (Hx : In x (numpy.unique (x :: tags)))
      by (apply unique_In; now left).
    destruct (numpy.unique (x :: tags)); [contradiction | simpl; lia]. }
  replace (Z.of_nat (length (_contents u')) <=? m) with true
    by (symmetry; apply Z.leb_le; lia).
  reflexivity.
Qed.

(** A positional read that returns a union returns a valid one. *)
Lemma positional_read_valid (u u' : UnionArray B) (head : selector)
  (tail : list tail_selector) :
  constructed u ->
  __getitem__ u (where_tuple head tail) = Ok (ret_union u') ->
  constructed u' /\ _valid u' = Ok tt.
Proof.
  intros (t0 & i0 & c0 & Hinit) H.
  destruct (init_ok _ _ _ _ _ Hinit) as ((_ & Hstored) & Hnonneg & Hcne).
  unfold __getitem__ in H.
  destruct (_valid u) as [[]|e] eqn:Hv; cbn [bind] in H; [|discriminate].
  unfold getitem_positional, ndarray_getitem in H.
  pose proof (valid_index_covers u Hv) as Hcov. rewrite Hcov in H.
  destruct (positions (length (_tags u)) head) as [ps|e] eqn:Eps;
    cbn [bind] in H; [|discriminate].
  pose proof (positions_lt _ _ _ Eps) as Hlt.
  destruct ps as [p|ps]; cbn [take] in H.
  { destruct (tuple_getitem _ _); cbn [bind] in H; [|discriminate].
    destruct (getitem _ _ _); cbn [bind] in H; discriminate. }
  set (ts := map (fun p => nth p (_tags u) 0) ps) in *.
  set (ixs := map (fun p => nth p (firstn (length (_tags u)) (_index u)) 0) ps) in *.
  destruct (length ts =? 0)%nat eqn:E0.
  { destruct (tuple_getitem _ _); cbn [bind] in H; [|discriminate].
    destruct (getitem _ _ _); cbn [bind] in H; discriminate. }
  apply Nat.eqb_neq in E0.
  destruct (forallb _ ts).
  { destruct (tuple_getitem _ _); cbn [bind] in H; [|discriminate].
    destruct (getitem _ _ _); cbn [bind] in H; discriminate. }
  rewrite Forall_forall in Hlt, Hstored, Hnonneg.
  assert (Hts : stored_tags ts).
  { split; [intros E; rewrite E in E0; now apply E0|].
    apply Forall_forall. intros x Hx. apply in_map_iff in Hx.
    destruct Hx as (p & <- & Hp). apply Hstored, nth_In, Hlt, Hp. }
  assert (Hixs : Forall (fun x => 0 <= x) ixs).
  { apply Forall_forall. intros x Hx. apply in_map_iff in Hx.
    destruct Hx as (p & <- & Hp). rewrite nth_firstn_lt by (apply Hlt, Hp).
    destruct (valid_position u p Hv (Hlt p Hp)) as (Hp' & _).
    apply Hnonneg, nth_In, Hp'. }
  unfold copy in H.
  rewrite (set_tags_fixpoint _ Hts) in H. cbn [bind] in H.
  rewrite (proj2 (set_index_ok _ _) (conj eq_refl Hixs)) in H. cbn [bind] in H.
  inversion H as [Hu']. clear H.
  assert (Hlen : length ixs = length ts)
    by (unfold ixs, ts; now rewrite !length_map).
  split.
  - exists ts, ixs, (_contents u). unfold __init__.
    rewrite (set_tags_fixpoint _ Hts). cbn [bind].
    rewrite (proj2 (set_index_ok _ _) (conj eq_refl Hixs)). cbn [bind].
    rewrite (proj2 (set_contents_ok _ _ _) (conj eq_refl Hcne)). reflexivity.
  - rewrite valid_unfold. cbn [_tags _index _contents].
    assert (Hpos : (0 <? length ts)%nat = true) by (apply Nat.ltb_lt; lia).
    rewrite Hpos.
    destruct (max_nonempty ts (proj1 Hts)) as [m Hm]. rewrite Hm. cbn [bind].
    destruct (max_ok _ _ Hm) as [Hmin _].
    assert (Hmlt : m < Z.of_nat (length (_contents u))).
    { apply in_map_iff in Hmin. destruct Hmin as (p & <- & Hp).
      apply (valid_tags_below u _ Hv), nth_In, Hlt, Hp. }
    replace (Z.of_nat (length (_contents u)) <=? m) with false
      by (symmetry; apply Z.leb_gt; exact Hmlt).
    cbn [bind]. apply for_each_ok. intros t Ht.
    apply (proj1 (unique_In _ _)) in Ht.
    unfold valid_tag. cbn [_tags _contents].
    rewrite <- Hlen, firstn_all.
    unfold numpy.getitem_mask. rewrite eq_scalar_length, Hlen, Nat.eqb_refl.
    cbn [bind].
    set (sel := numpy.compress (numpy.eq_scalar ts t) ixs).
    assert (Hsel : sel <> []).
    { destruct (In_nth _ _ 0 Ht) as (q & Hq & Hnq).
      pose proof (compress_nth_In (numpy.eq_scalar ts t) ixs q 0
                    ltac:(now rewrite eq_scalar_length)
                    ltac:(rewrite eq_scalar_nth by exact Hq;
                          now apply Z.eqb_eq)) as Hin.
      fold sel in Hin. intros E. rewrite E in Hin. contradiction. }
    destruct (max_nonempty sel Hsel) as [mi Hmi]. rewrite Hmi. cbn [bind].
    destruct (max_ok _ _ Hmi) as [Hmiin _].
    destruct (compress_In_nth (numpy.eq_scalar ts t) ixs mi 0
                ltac:(now rewrite eq_scalar_length) Hmiin)
      as (q & Hq & Hb & Hnq).
    rewrite Hlen in Hq. rewrite eq_scalar_nth in Hb by exact Hq.
    apply Z.eqb_eq in Hb.
    assert (Hp : exists p, In p ps /\ nth p (_tags u) 0 = t
                           /\ nth p (_index u) 0 = mi).
    { exists (nth q ps 0%nat).
      assert (Hqps : (q < length ps)%nat)
        by (unfold ts in Hq; now rewrite length_map in Hq).
      assert (Hpin : In (nth q ps 0%nat) ps) by now apply nth_In.
      split; [exact Hpin|]. split.
      - rewrite <- Hb. unfold ts. symmetry.
        exact (nth_map_lt (fun p => nth p (_tags u) 0) ps q 0 0%nat Hqps).
      - rewrite <- Hnq. unfold ixs.
        rewrite (nth_map_lt
                   (fun p => nth p (firstn (length (_tags u)) (_index u)) 0)
                   ps q 0 0%nat Hqps).
        symmetry. apply nth_firstn_lt. now apply Hlt. }
    destruct Hp as (p & Hpin & Hpt & Hpi).
    destruct (valid_position u p Hv (Hlt p Hpin)) as (_ & c & Hc & Hclt).
    rewrite Hpt in Hc. rewrite Hc. cbn [bind].
    replace (Z.of_nat (len c) <=? mi) with false
      by (symmetry; apply Z.leb_gt; lia).
    reflexivity.
Qed.

End UnionReadFacts.

(** ** Writing a field *)

Section WritingFacts.

Context {B : Type} {branch : BranchArray B} {indexed : Indexed B}.

(** A value whose length is not the length of the tags is refused before
    any branch is touched. *)
Lemma setitem_shape_mismatch (u : UnionArray B) (key : write_key) (what : B) :
  len what <> length (_tags u) ->
  __setitem__ u key what
  = (_contents u,
     Some (ValueError
       "array to assign does not have the same starting shape as tags")).
Proof.
  intros H. unfold __setitem__. simpl.
  destruct (len what =? length (_tags u))%nat eqn:E.
  - apply Nat.eqb_eq in E. contradiction.
  - reflexivity.
Qed.

(** In the scenario of the spec both branches are handed the very same
    value, whatever [invert], [IndexedArray] and the branches do: the
    argument of [invert] is [0, 1] for either tag, and the right-hand side
    is not restricted to the positions of the tag. *)
Lemma setitem_scenario_same_value (b0 b1 what : B) (name : string) :
  len what = 4%nat ->
  __setitem__ {| _tags := [0; 1; 0; 1]; _index := [0; 0; 1; 1];
                 _contents := [b0; b1] |} (key_field name) what
  = match invert [0; 1] with
    | Raise e => ([b0; b1], Some e)
    | Ok inverseindex =>
        match setitem_field b0 name (IndexedArray inverseindex what) with
        | Raise e => ([b0; b1], Some e)
        | Ok b0' =>
            match setitem_field b1 name (IndexedArray inverseindex what) with
            | Raise e => ([b0'; b1], Some e)
            | Ok b1' => ([b0'; b1'], None)
            end
        end
    end.
Proof.
  intros H. unfold __setitem__. simpl. rewrite H. simpl.
  unfold setitem_tag. simpl.
  destruct (invert [0; 1]) as [inv|e]; simpl; [|reflexivity].
  destruct (setitem_field b0 name (IndexedArray inv what)) as [b0'|e]; simpl;
    [|reflexivity].
  destruct (setitem_field b1 name (IndexedArray inv what)) as [b1'|e]; simpl;
    reflexivity.
Qed.

End WritingFacts.

(** C8 (the code departs from it): in the scenario, tags [0, 1, 0, 1] with
    the sequential index and a value of length 4, branch 0 does not receive
    the values at the logical positions 0 and 2, nor branch 1 those at 1 and
    3.  Each branch is given the whole value behind the inverse index
    [0, 1], which reads the values at positions 0 and 1: both columns hold
    100 and 101. *)
Theorem C8_field_write_scenario :
  exists u : UnionArray content,
    __init__ [0; 1; 0; 1] [0; 0; 1; 1] example_tables = Ok u
    /\ __setitem__ u (key_field "x") example_what
       = ([Table 2 [("x", indexed_array [0; 1] example_what)];
           Table 2 [("x", indexed_array [0; 1] example_what)]], None)
    /\ content_list (indexed_array [0; 1] example_what)
       = Ok [element (int_ 100); element (int_ 101)]
    /\ content_list example_what
       = Ok [element (int_ 100); element (int_ 101);
             element (int_ 102); element (int_ 103)].
Proof.
  eexists. split; [reflexivity|]. repeat split.
Qed.

(** ** Elements of a union of NumPy arrays *)

Lemma flat_union_position (u : UnionArray content) (i : nat) :
  flat_union u -> (i < length (_tags u))%nat ->
  (i < length (_index u))%nat
  /\ 0 <= nth i (_tags u) 0
  /\ 0 <= nth i (_index u) 0
  /\ exists dtype data,
       tuple_getitem (_contents u) (nth i (_tags u) 0) = Ok (ndarray dtype data)
       /\ nth (Z.to_nat (nth i (_tags u) 0)) (_contents u) (ndarray int64 [])
          = ndarray dtype data
       /\ nth i (_index u) 0 < Z.of_nat (length data).
Proof.
  intros ((t0 & i0 & c0 & Hinit) & Hv & Hflat) Hi.
  destruct (init_ok _ _ _ _ _ Hinit) as ((_ & Htags) & Hidx & _).
  destruct (valid_position u i Hv Hi) as (Hi' & c & Hc & Hlt).
  rewrite Forall_forall in Htags, Hidx, Hflat.
  assert (H0 : 0 <= nth i (_tags u) 0).
  { specialize (Htags _ (nth_In _ 0 Hi)). lia. }
  assert (H1 : 0 <= nth i (_index u) 0) by exact (Hidx _ (nth_In _ 0 Hi')).
  repeat split; try assumption.
  destruct (tuple_getitem_nonneg _ _ _ (ndarray int64 []) H0 Hc) as [Hp Hn].
  assert (Hnd : is_ndarray c).
  { apply Hflat. rewrite <- Hn. now apply nth_In. }
  destruct c as [dtype data| |]; try contradiction.
  exists dtype, data. repeat split; assumption.
Qed.

(** Iteration reads [element_at]. *)
Lemma iter_item_element (u : UnionArray content) (i : nat) :
  flat_union u -> (i < length (_tags u))%nat ->
  iter_item u i = Ok (element (element_at u i)).
Proof.
  intros Hu Hi.
  destruct (flat_union_position u i Hu Hi)
    as (Hi' & H0 & H1 & dtype & data & Hc & Hn & Hlt).
  unfold iter_item, ndarray_getitem. simpl positions.
  rewrite !wrap_index_nonneg by lia. cbn [bind take].
  rewrite Nat2Z.id, Hc. cbn [bind].
  simpl getitem. rewrite wrap_index_nonneg by lia. cbn [bind].
  unfold element_at. rewrite Hn. simpl branch_data.
  rewrite (nth_error_nth' data (int_ 0)) by lia. reflexivity.
Qed.

Lemma elements_length (u : UnionArray content) :
  length (elements u) = length (_tags u).
Proof. unfold elements. now rewrite length_map, length_seq. Qed.

Lemma elements_nth (u : UnionArray content) (i : nat) :
  (i < length (_tags u))%nat -> nth i (elements u) (int_ 0) = element_at u i.
Proof.
  intros H. unfold elements.
  rewrite (nth_indep _ (int_ 0) (element_at u 0)) by (now rewrite length_map, length_seq).
  rewrite map_nth, seq_nth by exact H. reflexivity.
Qed.

(** Reading through a mask whose places all carry the tag [t], and that is
    set somewhere, gives the elements of these places, as one NumPy array. *)
Lemma getitem_mask_group (u : UnionArray content) (mask : list bool) (t : Z) :
  flat_union u ->
  length mask = length (_tags u) ->
  (exists i, nth i mask false = true) ->
  (forall i, nth i mask false = true -> nth i (_tags u) 0 = t) ->
  exists dtype,
    __getitem__ u (where_single (sel_mask mask))
    = Ok (ret_branch (array (ndarray dtype (numpy.compress mask (elements u))))).
Proof.
  intros Hu Hm (i0 & Hi0) Htag. pose proof Hu as (_ & Hv & _).
  assert (Hi0lt : (i0 < length (_tags u))%nat).
  { rewrite <- Hm. destruct (Nat.lt_ge_cases i0 (length mask)) as [H|H]; [exact H|].
    rewrite nth_overflow in Hi0 by exact H. discriminate. }
  destruct (flat_union_position u i0 Hu Hi0lt)
    as (_ & H0 & _ & dtype & data & Hc & Hn & _).
  rewrite (Htag i0 Hi0) in Hc, Hn, H0.
  exists dtype.
  pose proof (valid_index_covers u Hv) as Hcov.
  unfold __getitem__, getitem_positional. rewrite Hv. cbn [bind].
  rewrite (ndarray_getitem_mask (_tags u) mask Hm).
  rewrite (ndarray_getitem_mask _ mask) by (now rewrite Hcov). cbn [bind].
  set (ts := numpy.compress mask (_tags u)).
  assert (Hall : Forall (fun x => x = t) ts).
  { apply Forall_forall. intros x Hx.
    destruct (compress_In_nth mask (_tags u) x 0 Hm Hx) as (i & _ & Hb & <-).
    exact (Htag i Hb). }
  assert (Hne : ts <> []).
  { intros E. pose proof (compress_nth_In mask (_tags u) i0 0 Hm Hi0) as Hin.
    fold ts in Hin. rewrite E in Hin. contradiction. }
  destruct (forallb_homogeneous ts t Hall Hne) as [Hhd Hfb].
  destruct ts as [|x ts'] eqn:Ets; [congruence|].
  cbn [length Nat.eqb]. rewrite Hfb, Hhd, Hc. cbn [bind].
  simpl getitem.
  set (ps := numpy.compress mask (seq 0 (length (_tags u)))).
  assert (Hixs : numpy.compress mask (firstn (length (_tags u)) (_index u))
                 = map (fun p => nth p (_index u) 0) ps).
  { unfold ps. rewrite <- (take_compress mask (firstn (length (_tags u)) (_index u)) 0 [])
      by (rewrite ?Hcov; auto).
    rewrite Hcov. simpl. apply map_ext_in. intros p Hp.
    apply compress_seq_lt in Hp. apply nth_firstn_lt. lia. }
  assert (Hps : forall p, In p ps ->
            (p < length (_tags u))%nat /\ nth p mask false = true).
  { intros p Hp. unfold ps in Hp.
    destruct (compress_In_nth mask (seq 0 (length (_tags u))) p 0%nat
                ltac:(now rewrite length_seq) Hp) as (i & Hi & Hb & Hnth).
    rewrite length_seq in Hi. rewrite seq_nth in Hnth by exact Hi.
    simpl in Hnth. subst p. split; assumption. }
  assert (Hwrap : map_result (wrap_index (length data))
                    (map (fun p => nth p (_index u) 0) ps)
                  = Ok (map (fun p => Z.to_nat (nth p (_index u) 0)) ps)).
  { clear Hixs. induction ps as [|p ps' IH]; [reflexivity|].
    simpl. destruct (Hps p (or_introl eq_refl)) as [Hp Hb].
    destruct (flat_union_position u p Hu Hp)
      as (_ & _ & H1 & dtype' & data' & _ & Hn' & Hlt').
    rewrite (Htag p Hb), Hn in Hn'. inversion Hn'; subst dtype' data'.
    rewrite wrap_index_nonneg by lia. cbn [bind].
    rewrite IH by (intros q Hq; apply Hps; now right). reflexivity. }
  rewrite Hixs, Hwrap. cbn [bind]. do 4 f_equal.
  unfold elements. rewrite compress_map. fold ps.
  rewrite map_map. apply map_ext_in. intros p Hp.
  destruct (Hps p Hp) as [Hplt Hb].
  unfold element_at. rewrite (Htag p Hb), Hn. reflexivity.
Qed.

(** ** Dispatch *)

(** C3 (the code departs from it): the result of an elementwise binary
    operation is not at every position the operation applied to the two
    elements there.  [wide_A] and [wide_B] have 17 tags each and all the
    17 * 17 = 289 combinations occur; the output tags are stored in
    [TAGTYPE], so group 256 is written as tag 0, and position 256 of the sum
    reads 0 + 0 in place of 256 + 256000. *)
Theorem C3_dispatch_wraps_output_tags :
  exists u : UnionArray content,
    __array_ufunc__ (binary_ufunc scalar_add) "__call__"
      [op_union wide_A; op_union wide_B] false = Ok (dispatch_one u)
    /\ _valid wide_A = Ok tt
    /\ _valid wide_B = Ok tt
    /\ length (numpy.unique_by combo_compare
                 (map (fun i => [nth i (_tags wide_A) 0; nth i (_tags wide_B) 0])
                    (seq 0 289))) = 289%nat
    /\ iter_item wide_A 256 = Ok (element (int_ 256))
    /\ iter_item wide_B 256 = Ok (element (int_ 256000))
    /\ iter_item u 255 = Ok (element (int_ 255255))
    /\ iter_item u 256 = Ok (element (int_ 0))
    /\ nth 256 (_tags u) 0 = 0.
Proof.
  eexists. split; [vm_compute; reflexivity|].
  repeat split; vm_compute; reflexivity.
Qed.

(** ** Distinct values in ascending order *)

Section UniqueFacts.

Variable A : Type.
Variable cmp : A -> A -> comparison.
Hypothesis cmp_eq : forall x y, cmp x y = Eq <-> x = y.
Hypothesis cmp_gt : forall x y, cmp x y = Gt -> cmp y x = Lt.
Hypothesis cmp_trans : forall x y z, cmp x y = Lt -> cmp y z = Lt -> cmp x z = Lt.

Lemma insert_by_In (x y : A) (l : list A) :
  In x (numpy.insert cmp y l) <-> x = y \/ In x l.
Proof.
  induction l as [|z l IH]; simpl.
  - intuition.
  - destruct (cmp y z) eqn:E; simpl.
    + apply cmp_eq in E. subst. intuition.
    + intuition.
    + rewrite IH. intuition.
Qed.

Lemma unique_by_In (x : A) (a : list A) :
  In x (numpy.unique_by cmp a) <-> In x a.
Proof.
  unfold numpy.unique_by.
  induction a as [|y a IH]; simpl; [reflexivity|].
  rewrite insert_by_In, IH. intuition.
Qed.

Lemma insert_by_sorted (y : A) (l : list A) :
  StronglySorted (fun a b => cmp a b = Lt) l ->
  StronglySorted (fun a b => cmp a b = Lt) (numpy.insert cmp y l).
Proof.
  induction l as [|z l IH]; simpl; intros Hs.
  - constructor; constructor.
  - inversion Hs as [|? ? Hs' Hall]; subst.
    destruct (cmp y z) eqn:E.
    + exact Hs.
    + constructor; [exact Hs|]. constructor; [exact E|].
      rewrite Forall_forall in Hall |- *. intros w Hw.
      exact (cmp_trans _ _ _ E (Hall w Hw)).
    + constructor; [exact (IH Hs')|].
      apply Forall_forall. intros w Hw. apply insert_by_In in Hw.
      destruct Hw as [->|Hw]; [exact (cmp_gt _ _ E)|].
      rewrite Forall_forall in Hall. exact (Hall w Hw).
Qed.

Lemma unique_by_sorted (a : list A) :
  StronglySorted (fun x y => cmp x y = Lt) (numpy.unique_by cmp a).
Proof.
  unfold numpy.unique_by. induction a as [|y a IH]; simpl.
  - constructor.
  - now apply insert_by_sorted.
Qed.

Lemma sorted_NoDup (l : list A) :
  StronglySorted (fun x y => cmp x y = Lt) l -> NoDup l.
Proof.
  induction 1 as [|x l Hs IH Hall]; constructor; [|exact IH].
  intros Hin. rewrite Forall_forall in Hall. specialize (Hall x Hin).
  assert (E : cmp x x = Eq) by now apply cmp_eq. congruence.
Qed.

Lemma unique_by_NoDup (a : list A) : NoDup (numpy.unique_by cmp a).
Proof. apply sorted_NoDup, unique_by_sorted. Qed.

End UniqueFacts.

Lemma combo_compare_eq (a b : list Z) : combo_compare a b = Eq <-> a = b.
Proof.
  revert b. induction a as [|x a IH]; intros [|y b]; simpl;
    try (split; [discriminate | congruence]); [tauto|].
  destruct (Z.compare_spec x y) as [->|H|H].
  - rewrite IH. split; [congruence | intros E; now inversion E].
  - split; [discriminate | intros E; inversion E; lia].
  - split; [discriminate | intros E; inversion E; lia].
Qed.

Lemma combo_compare_gt (a b : list Z) :
  combo_compare a b = Gt -> combo_compare b a = Lt.
Proof.
  revert b. induction a as [|x a IH]; intros [|y b]; simpl;
    try discriminate; try reflexivity.
  destruct (Z.compare_spec x y) as [->|H|H].
  - rewrite Z.compare_refl. apply IH.
  - discriminate.
  - intros _. now rewrite (proj2 (Z.compare_lt_iff y x) H).
Qed.

Lemma combo_compare_trans (a b c : list Z) :
  combo_compare a b = Lt -> combo_compare b c = Lt -> combo_compare a c = Lt.
Proof.
  revert b c. induction a as [|x a IH]; intros [|y b] [|z c]; simpl;
    try discriminate; try reflexivity.
  destruct (Z.compare_spec x y) as [->|H|H]; try discriminate.
  - destruct (Z.compare_spec y z) as [->|H'|H']; try discriminate.
    + apply IH.
    + reflexivity.
  - intros _.
    destruct (Z.compare_spec y z) as [->|H'|H']; try discriminate.
    + intros _. rewrite (proj2 (Z.compare_lt_iff x z)); [reflexivity|lia].
    + intros _. rewrite (proj2 (Z.compare_lt_iff x z)); [reflexivity|lia].
Qed.

Lemma combo_eqb_eq (a b : list Z) : combo_eqb a b = true <-> a = b.
Proof.
  unfold combo_eqb. rewrite <- combo_compare_eq.
  destruct (combo_compare a b); split; congruence.
Qed.

Lemma groups_In (g : list Z) (combos : list (list Z)) :
  In g (numpy.unique_by combo_compare combos) <-> In g combos.
Proof. apply unique_by_In. exact combo_compare_eq. Qed.

Lemma groups_NoDup (combos : list (list Z)) :
  NoDup (numpy.unique_by combo_compare combos).
Proof.
  apply unique_by_NoDup.
  - exact combo_compare_eq.
  - exact combo_compare_gt.
  - exact combo_compare_trans.
Qed.

(** The combinations of two operands are pairs of a tag of the first and a
    tag of the second: there are at most as many groups as such pairs. *)
Lemma groups_bound (tagsA tagsB : list Z) (n : nat) (combos : list (list Z)) :
  length tagsA = n -> length tagsB = n ->
  stack_view [tagsA; tagsB] n = Ok combos ->
  (length (numpy.unique_by combo_compare combos)
   <= length (numpy.unique tagsA) * length (numpy.unique tagsB))%nat.
Proof.
  intros HA HB Hc.
  unfold stack_view in Hc. destruct (all_same_dtype _); [|discriminate].
  inversion Hc as [Hcombos]. clear Hc. subst combos.
  rewrite <- length_prod, <- (length_map (fun p : Z * Z => [fst p; snd p])).
  apply NoDup_incl_length; [apply groups_NoDup|].
  intros g Hg. apply (proj1 (groups_In _ _)) in Hg.
  apply in_map_iff in Hg. destruct Hg as (i & <- & Hi).
  apply in_seq in Hi. simpl.
  apply in_map_iff. exists (nth i tagsA 0, nth i tagsB 0). split; [reflexivity|].
  apply in_prod; apply unique_In; apply nth_In; lia.
Qed.

Lemma combos_of_length (tagsA tagsB : list Z) :
  length (combos_of tagsA tagsB) = length tagsA.
Proof. unfold combos_of. now rewrite length_map, length_seq. Qed.

Lemma combos_of_nth (tagsA tagsB : list Z) (i : nat) :
  (i < length tagsA)%nat ->
  nth i (combos_of tagsA tagsB) [] = [nth i tagsA 0; nth i tagsB 0].
Proof.
  intros H. unfold combos_of.
  pose proof (map_nth (fun i => [nth i tagsA 0; nth i tagsB 0])
                (seq 0 (length tagsA)) 0%nat i) as Hm.
  cbv beta in Hm.
  rewrite (nth_indep _ [] [nth 0 tagsA 0; nth 0 tagsB 0])
    by (now rewrite length_map, length_seq).
  rewrite Hm, seq_nth by exact H. reflexivity.
Qed.

Lemma group_mask_length (combos : list (list Z)) (g : list Z) :
  length (group_mask combos g) = length combos.
Proof. unfold group_mask. apply length_map. Qed.

Lemma group_mask_nth (combos : list (list Z)) (g : list Z) (i : nat) :
  nth i (group_mask combos g) false = true <->
  (i < length combos)%nat /\ nth i combos [] = g.
Proof.
  unfold group_mask. split.
  - intros H.
    destruct (Nat.lt_ge_cases i (length combos)) as [Hi|Hi].
    + split; [exact Hi|].
      rewrite (nth_indep _ false (combo_eqb [] g)) in H
        by (now rewrite length_map).
      pose proof (map_nth (fun c => combo_eqb c g) combos [] i) as Hm.
      cbv beta in Hm. rewrite Hm in H.
      now apply combo_eqb_eq.
    + rewrite nth_overflow in H by (now rewrite length_map). discriminate.
  - intros [Hi Hg].
    rewrite (nth_indep _ false (combo_eqb [] g)) by (now rewrite length_map).
    pose proof (map_nth (fun c => combo_eqb c g) combos [] i) as Hm.
    cbv beta in Hm. rewrite Hm. now apply combo_eqb_eq.
Qed.

Lemma group_mask_disjoint (combos : list (list Z)) (g g' : list Z) :
  g <> g' -> disjoint (group_mask combos g) (group_mask combos g').
Proof.
  intros Hne i H H'. apply group_mask_nth in H, H'.
  destruct H as [_ H]. destruct H' as [_ H']. congruence.
Qed.

Lemma group_mask_somewhere (combos : list (list Z)) (g : list Z) :
  In g combos -> exists i, nth i (group_mask combos g) false = true.
Proof.
  intros H. destruct (In_nth _ _ [] H) as (i & Hi & Hn).
  exists i. apply group_mask_nth. split; assumption.
Qed.

Lemma cast_TAGTYPE_small (k : nat) :
  (k < 256)%nat -> numpy.cast TAGTYPE (Z.of_nat k) = Z.of_nat k.
Proof.
  intros H. unfold numpy.cast, TAGTYPE. simpl numpy.signed. cbv iota.
  apply Z.mod_small. change (2 ^ numpy.bits uint8) with 256. lia.
Qed.

Section DispatchFacts.

Variable f : scalar -> scalar -> scalar.
Variables A B : UnionArray content.
Hypothesis flatA : flat_union A.
Hypothesis flatB : flat_union B.
Hypothesis same_length : length (_tags A) = length (_tags B).

Local Abbreviation combos := (combos_of (_tags A) (_tags B)).
Local Abbreviation inputs := [op_union A; op_union B].

Lemma group_tags (g : list Z) (i : nat) :
  nth i (group_mask combos g) false = true ->
  nth i (_tags A) 0 = nth 0 g 0 /\ nth i (_tags B) 0 = nth 1 g 0.
Proof.
  intros H. apply group_mask_nth in H. destruct H as [Hi Hg].
  rewrite combos_of_length in Hi.
  rewrite combos_of_nth in Hg by exact Hi. subst g. split; reflexivity.
Qed.

(** One turn of the loop. *)
Lemma dispatch_group_step (done : list (list Z)) (g : list Z)
  (st : dispatch_state) :
  dispatch_invariant f A B combos done st ->
  In g combos -> ~ In g done -> (length done < 256)%nat ->
  exists st',
    dispatch_group (binary_ufunc f) "__call__" inputs combos st (length done, g)
    = Ok st'
    /\ dispatch_invariant f A B combos (done ++ [g]) st'.
Proof.
  intros (Hout & Hlt & Hli & (bs & Hcont & Hbs) & Hsel) Hg Hnew Hsmall.
  set (mask := group_mask combos g).
  assert (Hml : length mask = length combos) by apply group_mask_length.
  assert (Hcl : length combos = length (_tags A))
    by apply combos_of_length.
  destruct (getitem_mask_group A mask (nth 0 g 0) flatA) as [dA HA].
  { now rewrite Hml. }
  { now apply group_mask_somewhere. }
  { intros i Hi. exact (proj1 (group_tags g i Hi)). }
  destruct (getitem_mask_group B mask (nth 1 g 0) flatB) as [dB HB].
  { now rewrite Hml, Hcl. }
  { now apply group_mask_somewhere. }
  { intros i Hi. exact (proj2 (group_tags g i Hi)). }
  unfold dispatch_group.
  change (map (fun c => combo_eqb c g) combos) with mask.
  unfold numpy.setitem_mask_scalar, numpy.setitem_mask.
  rewrite Hml, Hlt, Hli, Nat.eqb_refl, arange_length, Nat.eqb_refl.
  cbn [negb bind]. cbn [map_result].
  rewrite HA, HB. cbn [bind].
  unfold binary_ufunc.
  rewrite !compress_length
    by (rewrite elements_length; rewrite Hml, Hcl; auto).
  rewrite Nat.eqb_refl. cbn [bind].
  change (String.eqb "__call__" "at") with false. cbv iota.
  cbn [as_array content_branch].
  eexists. split; [reflexivity|].
  rewrite cast_TAGTYPE_small by exact Hsmall.
  unfold dispatch_invariant. cbn [out outtags outindex contents].
  split; [exact Hout|].
  split; [now rewrite fill_mask_length|].
  split; [now rewrite place_length|].
  split.
  - exists (bs ++ [ndarray dA (group_result f A B combos g)]). split.
    + rewrite Hcont. destruct done as [|g0 done']; simpl.
      * inversion Hbs. reflexivity.
      * reflexivity.
    + apply Forall2_app; [exact Hbs|]. constructor; [|constructor].
      exists dA. reflexivity.
  - intros k g' Hk.
    destruct (Nat.lt_ge_cases k (length done)) as [Hlt'|Hge].
    + rewrite nth_error_app1 in Hk by exact Hlt'.
      assert (Hne : g <> g').
      { intros ->. apply Hnew. eapply nth_error_In; eassumption. }
      rewrite compress_fill_other by (now apply group_mask_disjoint).
      rewrite compress_place_disjoint by (now apply group_mask_disjoint).
      exact (Hsel k g' Hk).
    + rewrite nth_error_app2 in Hk by exact Hge.
      destruct (k - length done)%nat as [|j] eqn:Ej; simpl in Hk;
        [|destruct j; discriminate].
      inversion Hk; subst g'. replace k with (length done) by lia.
      fold mask. split.
      * apply compress_fill_same. now rewrite Hml, Hlt.
      * apply compress_place_same; [now rewrite Hml, Hli | apply arange_length].
Qed.

(** The whole loop, from any point on. *)
Lemma dispatch_loop (todo done : list (list Z)) (st : dispatch_state) :
  dispatch_invariant f A B combos done st ->
  NoDup (done ++ todo) ->
  (forall g, In g todo -> In g combos) ->
  (length (done ++ todo) <= 256)%nat ->
  exists st',
    fold_result (dispatch_group (binary_ufunc f) "__call__" inputs combos)
      (combine (seq (length done) (length todo)) todo) st = Ok st'
    /\ dispatch_invariant f A B combos (done ++ todo) st'.
Proof.
  revert done st. induction todo as [|g todo IH]; intros done st Hinv Hnd Hin Hlen.
  - exists st. rewrite app_nil_r. split; [reflexivity | exact Hinv].
  - cbn [length seq combine fold_result].
    rewrite length_app in Hlen. cbn [length] in Hlen.
    destruct (dispatch_group_step done g st Hinv) as (st1 & Hstep & Hinv1).
    { apply Hin. now left. }
    { apply NoDup_remove_2 in Hnd. intros H. apply Hnd.
      apply in_or_app. now left. }
    { lia. }
    rewrite Hstep. cbn [bind].
    destruct (IH (done ++ [g]) st1 Hinv1) as (st' & Hfold & Hinv').
    { now rewrite <- app_assoc. }
    { intros g' Hg'. apply Hin. now right. }
    { rewrite !length_app. cbn [length]. lia. }
    exists st'. rewrite length_app in Hfold. cbn [length] in Hfold.
    replace (length done + 1)%nat with (S (length done)) in Hfold by lia.
    rewrite <- app_assoc in Hinv'. split; assumption.
Qed.

End DispatchFacts.

Lemma scalar_type_eqb_refl (t : scalar_type) : scalar_type_eqb t t = true.
Proof. destruct t; reflexivity. Qed.

Lemma flat_union_nonempty (u : UnionArray content) :
  flat_union u -> (0 < length (_tags u))%nat.
Proof.
  intros ((t0 & i0 & c0 & Hinit) & _ & _).
  destruct (init_ok _ _ _ _ _ Hinit) as ((Hne & _) & _ & _).
  destruct (_tags u); [congruence | simpl; lia].
Qed.

Section DispatchCorrect.

Variable f : scalar -> scalar -> scalar.
Variables A B : UnionArray content.
Hypothesis flatA : flat_union A.
Hypothesis flatB : flat_union B.
Hypothesis same_length : length (_tags A) = length (_tags B).

Local Abbreviation combos := (combos_of (_tags A) (_tags B)).
Local Abbreviation groups := (numpy.unique_by combo_compare combos).

(** Every position lies in the group of its combination. *)
Lemma position_group (i : nat) :
  (i < length (_tags A))%nat ->
  exists k g,
    nth_error groups k = Some g
    /\ (k < length groups)%nat
    /\ nth i (group_mask combos g) false = true.
Proof.
  intros Hi. set (g := nth i combos []).
  assert (Hin : In g groups).
  { apply groups_In. apply nth_In. now rewrite combos_of_length. }
  destruct (In_nth_error _ _ Hin) as [k Hk].
  exists k, g. split; [exact Hk|]. split.
  - apply nth_error_Some. congruence.
  - apply group_mask_nth. split; [now rewrite combos_of_length | reflexivity].
Qed.

(** What the loop leaves at one position. *)
Lemma dispatch_position (st : dispatch_state) (i : nat) :
  dispatch_invariant f A B combos groups st ->
  (i < length (_tags A))%nat ->
  exists k bs dtype res r,
    (k < length groups)%nat
    /\ contents st = [(None, bs)]
    /\ nth i (outtags st) 0 = Z.of_nat k
    /\ nth k bs (ndarray int64 []) = ndarray dtype res
    /\ (k < length bs)%nat
    /\ nth i (outindex st) 0 = Z.of_nat r
    /\ (r < length res)%nat
    /\ nth r res (int_ 0) = f (element_at A i) (element_at B i).
Proof.
  intros (_ & Hlt & Hli & (bs & Hcont & Hbs) & Hsel) Hi.
  destruct (position_group i Hi) as (k & g & Hk & Hklt & Hm).
  destruct (Hsel k g Hk) as [Htags Hidx].
  set (mask := group_mask combos g) in *.
  assert (Hml : length mask = length (_tags A)).
  { unfold mask. now rewrite group_mask_length, combos_of_length. }
  rewrite combos_of_length in Hlt, Hli.
  assert (Htag : nth i (outtags st) 0 = Z.of_nat k).
  { pose proof (compress_nth_In mask (outtags st) i 0
                  ltac:(now rewrite Hml, Hlt) Hm) as Hin.
    rewrite Htags in Hin. now apply repeat_spec in Hin. }
  destruct (rank_nth mask (outindex st) (elements A) 0 (int_ 0))
    with (i := i) as (HrA1 & HrA2 & HrA3);
    [now rewrite Hml, Hli | now rewrite elements_length, Hml
    | exact Hidx | exact Hm |].
  destruct (rank_nth mask (outindex st) (elements B) 0 (int_ 0))
    with (i := i) as (_ & _ & HrB3);
    [now rewrite Hml, Hli | now rewrite elements_length, Hml, same_length
    | exact Hidx | exact Hm |].
  rewrite Nat.sub_0_r in HrA3, HrB3.
  rewrite elements_nth in HrA3 by exact Hi.
  rewrite elements_nth in HrB3 by (rewrite <- same_length; exact Hi).
  assert (Hbl : length bs = length groups)
    by (symmetry; exact (Forall2_length Hbs)).
  assert (Hb : exists dtype,
             nth k bs (ndarray int64 [])
             = ndarray dtype (group_result f A B combos g)).
  { clear - Hbs Hk. revert k Hk.
    induction Hbs as [|g0 b0 gs bs' H0 _ IH]; intros k Hk.
    - destruct k; discriminate.
    - destruct k as [|k]; simpl in *.
      + inversion Hk; subst g0. exact H0.
      + exact (IH k Hk). }
  destruct Hb as [dtype Hb].
  assert (Hcnt : length (numpy.compress mask (elements A))
                 = numpy.count_nonzero mask)
    by (apply compress_length; now rewrite elements_length, Hml).
  assert (Hcnt' : length (numpy.compress mask (elements B))
                  = numpy.count_nonzero mask)
    by (apply compress_length; now rewrite elements_length, Hml, same_length).
  exists k, bs, dtype, (group_result f A B combos g),
    (Z.to_nat (nth i (outindex st) 0)).
  repeat split.
  - exact Hklt.
  - rewrite Hcont. destruct groups; [simpl in Hklt; lia | reflexivity].
  - exact Htag.
  - exact Hb.
  - lia.
  - lia.
  - unfold group_result. fold mask.
    rewrite zip_with_length by congruence. lia.
  - unfold group_result. fold mask.
    rewrite zip_with_nth by (try congruence; lia).
    now rewrite HrA3, HrB3.
Qed.

(** Dispatch of a binary elementwise operation over two unions of NumPy
    branches: when the tags of both operands are stored in one type and at
    most 256 tag combinations occur, the result is a union of the same
    length whose element at every position is the operation applied to the
    elements of the two operands at that position. *)
Theorem dispatch_binary_correct :
  stored_dtype (_tags A) = stored_dtype (_tags B) ->
  (length groups <= 256)%nat ->
  exists u : UnionArray content,
    __array_ufunc__ (binary_ufunc f) "__call__" [op_union A; op_union B] false
    = Ok (dispatch_one u)
    /\ length (_tags u) = length (_tags A)
    /\ forall i, (i < length (_tags A))%nat ->
         iter_item A i = Ok (element (element_at A i))
         /\ iter_item B i = Ok (element (element_at B i))
         /\ iter_item u i
            = Ok (element (f (element_at A i) (element_at B i))).
Proof.
  intros Hdtype Hsmall.
  pose proof flatA as (_ & HvA & _). pose proof flatB as (_ & HvB & _).
  pose proof (flat_union_nonempty A flatA) as Hpos.
  destruct (dispatch_loop f A B flatA flatB same_length groups []
              {| outtags := repeat 0 (length (_tags A));
                 outindex := repeat 0 (length (_tags A));
                 out := None; contents := [] |})
    as (st & Hfold & Hinv).
  { unfold dispatch_invariant. cbn [out outtags outindex contents].
    rewrite !repeat_length, combos_of_length.
    repeat split; try reflexivity.
    - exists []. split; [reflexivity | constructor].
    - destruct k; discriminate.
    - destruct k; discriminate. }
  { apply groups_NoDup. }
  { intros g Hg. now apply groups_In. }
  { exact Hsmall. }
  cbn [app length] in Hfold, Hinv.
  assert (Hst : stored_tags (outtags st)
                /\ Forall (fun x => 0 <= x) (outindex st)
                /\ length (outtags st) = length (_tags A)
                /\ length (outindex st) = length (_tags A)).
  { pose proof Hinv as (_ & Hlt & Hli & _). rewrite combos_of_length in Hlt, Hli.
    repeat split; try assumption.
    - intros E. rewrite E in Hlt. simpl in Hlt. lia.
    - apply Forall_forall. intros x Hx.
      destruct (In_nth _ _ 0 Hx) as (i & Hi & <-). rewrite Hlt in Hi.
      destruct (dispatch_position st i Hinv Hi)
        as (k & _ & _ & _ & _ & Hk & _ & Ht & _).
      rewrite Ht. change (2 ^ 64) with 18446744073709551616. lia.
    - apply Forall_forall. intros x Hx.
      destruct (In_nth _ _ 0 Hx) as (i & Hi & <-). rewrite Hli in Hi.
      destruct (dispatch_position st i Hinv Hi)
        as (_ & _ & _ & _ & r & _ & _ & _ & _ & _ & Hr & _).
      rewrite Hr. lia. }
  destruct Hst as (Hstored & Hnonneg & Hlt & Hli).
  destruct (dispatch_position st 0 Hinv Hpos)
    as (k0 & bs & _ & _ & _ & _ & Hcont & _ & _ & Hk0 & _).
  assert (Hinit : __init__ (outtags st) (outindex st) bs
                  = Ok {| _tags := outtags st; _index := outindex st;
                          _contents := bs |}).
  { unfold __init__. rewrite (set_tags_fixpoint _ Hstored). cbn [bind].
    rewrite (proj2 (set_index_ok _ _) (conj eq_refl Hnonneg)). cbn [bind].
    rewrite (proj2 (set_contents_ok _ bs bs)); [reflexivity|].
    split; [reflexivity|]. intros E. rewrite E in Hk0. simpl in Hk0. lia. }
  eexists. split; [|split].
  - unfold __array_ufunc__. cbn [negb].
    change (String.eqb "__call__" "__call__") with true. cbn [negb].
    unfold union_tags. cbn [fold_result]. rewrite HvA, HvB. cbn [bind app].
    unfold numpy.shape. cbn [existsb numpy.shape_eqb].
    rewrite same_length, Nat.eqb_refl. cbn [andb negb orb].
    unfold stack_view, all_same_dtype. cbn [map forallb].
    rewrite Hdtype, scalar_type_eqb_refl. cbn [andb bind].
    change (map (fun i => map (fun t => nth i t 0) [_tags A; _tags B])
              (seq 0 (length (_tags B))))
      with (map (fun i => [nth i (_tags A) 0; nth i (_tags B) 0])
              (seq 0 (length (_tags B)))).
    rewrite <- same_length. fold combos.
    rewrite Hfold. cbn [bind].
    destruct Hinv as (Hout & _). rewrite Hout, Hcont.
    cbn [lookup key_eqb]. rewrite Hinit. reflexivity.
  - exact Hlt.
  - intros i Hi.
    split; [exact (iter_item_element A i flatA Hi)|].
    split; [apply iter_item_element;
            [exact flatB | rewrite <- same_length; exact Hi]|].
    destruct (dispatch_position st i Hinv Hi)
      as (k & bs' & dtype & res & r & Hk & Hcont' & Ht & Hb & Hkb & Hr & Hrl & Hres).
    rewrite Hcont in Hcont'. inversion Hcont'; subst bs'.
    unfold iter_item, ndarray_getitem. cbn [_tags _index _contents positions].
    rewrite !wrap_index_nonneg by lia. cbn [bind take].
    rewrite Nat2Z.id, Ht.
    rewrite (tuple_getitem_nth bs k (ndarray int64 []) Hkb), Hb. cbn [bind].
    rewrite Hr. simpl getitem.
    rewrite wrap_index_nonneg by lia. cbn [bind]. rewrite Nat2Z.id.
    rewrite (nth_error_nth' res (int_ 0) Hrl), Hres. reflexivity.
Qed.

End DispatchCorrect.

(** ** Further properties, on the worked example *)

(** Whatever is assigned, the tags that end up stored are unsigned: at least
    one, each between 0 and 2^64 - 1. *)
Theorem stored_tags_are_unsigned (value tags : list Z) :
  set_tags value = Ok tags ->
  tags <> [] /\ Forall (fun x => 0 <= x < 2 ^ 64) tags.
Proof. exact (set_tags_stored value tags). Qed.

Lemma stored_tags_are_unsigned_witness :
  set_tags [-1; 0] = Ok [255; 0]
  /\ ([255; 0] <> [] /\ Forall (fun x => 0 <= x < 2 ^ 64) [255; 0]).
Proof.
  split; [reflexivity|].
  exact (stored_tags_are_unsigned [-1; 0] [255; 0] eq_refl).
Defined.

Lemma setitem_shape_mismatch_witness :
  len (ndarray int64 [int_ 1; int_ 2]) <> length (_tags example_union)
  /\ __setitem__ example_union (key_field "x") (ndarray int64 [int_ 1; int_ 2])
     = (_contents example_union,
        Some (ValueError
          "array to assign does not have the same starting shape as tags")).
Proof.
  assert (H : len (ndarray int64 [int_ 1; int_ 2])
              <> length (_tags example_union))
    by (simpl; discriminate).
  split; [exact H|].
  exact (@setitem_shape_mismatch content content_branch content_indexed
           example_union (key_field "x") (ndarray int64 [int_ 1; int_ 2]) H).
Defined.

Lemma positional_read_valid_witness :
  (constructed example_union
   /\ __getitem__ example_union
        (where_tuple (sel_slice None None (Some (-1))) [])
      = Ok (ret_union {| _tags := [1; 0; 1; 0];
                         _index := [1; 1; 0; 0];
                         _contents := example_contents |}))
  /\ (constructed {| _tags := [1; 0; 1; 0];
                     _index := [1; 1; 0; 0];
                     _contents := example_contents |}
      /\ _valid {| _tags := [1; 0; 1; 0];
                   _index := [1; 1; 0; 0];
                   _contents := example_contents |} = Ok tt).
Proof.
  assert (Hc : constructed example_union).
  { exists [0; 1; 0; 1], [0; 0; 1; 1], example_contents. reflexivity. }
  split; [split; [exact Hc | reflexivity]|].
  exact (@positional_read_valid content content_branch example_union _
           (sel_slice None None (Some (-1))) [] Hc eq_refl).
Defined.

Lemma groups_bound_witness :
  (length [0; 1; 0; 1] = 4%nat /\ length [0; 0; 1; 1] = 4%nat
   /\ stack_view [[0; 1; 0; 1]; [0; 0; 1; 1]] 4
      = Ok [[0; 0]; [1; 0]; [0; 1]; [1; 1]])
  /\ (length (numpy.unique_by combo_compare
                 [[0; 0]; [1; 0]; [0; 1]; [1; 1]]%Z)
      <= length (numpy.unique [0; 1; 0; 1]%Z)
         * length (numpy.unique [0; 0; 1; 1]%Z))%nat.
Proof.
  split; [repeat split|].
  exact (groups_bound [0; 1; 0; 1] [0; 0; 1; 1] 4
           [[0; 0]; [1; 0]; [0; 1]; [1; 1]] eq_refl eq_refl eq_refl).
Defined.

Lemma example_union_flat : flat_union example_union.
Proof.
  split; [|split; [reflexivity | repeat constructor]].
  exists [0; 1; 0; 1], [0; 0; 1; 1], example_contents. reflexivity.
Defined.

Lemma example_other_flat : flat_union example_other.
Proof.
  split; [|split; [reflexivity | repeat constructor]].
  exists [0; 0; 1; 1], [0; 1; 0; 1],
    [ndarray int64 [int_ 1; int_ 2]; ndarray int64 [int_ 3; int_ 4]].
  reflexivity.
Defined.

(** The sum of the two example arrays, position by position. *)
Lemma dispatch_binary_correct_witness :
  (flat_union example_union /\ flat_union example_other
   /\ length (_tags example_union) = length (_tags example_other)
   /\ stored_dtype (_tags example_union) = stored_dtype (_tags example_other)
   /\ (length (numpy.unique_by combo_compare
                 (combos_of (_tags example_union) (_tags example_other)))
       <= 256)%nat)
  /\ exists u : UnionArray content,
       __array_ufunc__ (binary_ufunc scalar_add) "__call__"
         [op_union example_union; op_union example_other] false
       = Ok (dispatch_one u)
       /\ length (_tags u) = length (_tags example_union)
       /\ forall i, (i < length (_tags example_union))%nat ->
            iter_item example_union i
            = Ok (element (element_at example_union i))
            /\ iter_item example_other i
               = Ok (element (element_at example_other i))
            /\ iter_item u i
               = Ok (element (scalar_add (element_at example_union i)
                                         (element_at example_other i))).
Proof.
  assert (Hsmall : (length (numpy.unique_by combo_compare
                      (combos_of (_tags example_union) (_tags example_other)))
                    <= 256)%nat) by (vm_compute; lia).
  split.
  - split; [exact example_union_flat|]. split; [exact example_other_flat|].
    split; [reflexivity|]. split; [reflexivity | exact Hsmall].
  - exact (dispatch_binary_correct scalar_add example_union example_other
             example_union_flat example_other_flat eq_refl eq_refl Hsmall).
Defined.

(** ** The setters and the constructor, completely *)

Lemma tags_ladder_fails (m : Z) :
  2 ^ 64 <= m ->
  tags_ladder m = Raise (ValueError "maximum tag must be at most {0}").
Proof.
  intros Hm. unfold tags_ladder.
  change (numpy.iinfo_max TAGTYPE) with 255.
  change (numpy.iinfo_max uint8) with 255.
  change (numpy.iinfo_max uint16) with 65535.
  change (numpy.iinfo_max uint32) with 4294967295.
  change (numpy.iinfo_max uint64) with 18446744073709551615.
  change (2 ^ 64) with 18446744073709551616 in Hm.
  repeat match goal with
         | |- (if ?c then _ else _) = _ =>
             let E := fresh "E" in
             destruct c eqn:E; [apply Z.leb_le in E; lia|]
         end.
  reflexivity.
Qed.

(** The tags setter succeeds exactly on a non-empty array whose largest
    entry is below [2 ^ 64]; an empty array fails in NumPy's maximum, a larger
    entry with the error of the ladder.  Its three other errors -- empty
    tags, a type that is no integer type, a negative entry -- are never
    raised. *)
Theorem set_tags_outcomes (value : list Z) :
  match set_tags value with
  | Ok tags =>
      exists m t, numpy.max value = Ok m /\ m < 2 ^ 64
                  /\ tags_ladder m = Ok t /\ tags = numpy.astype t value
  | Raise e =>
      (value = []
       /\ e = ValueError
                "zero-size array to reduction operation maximum which has no identity")
      \/ (exists m, numpy.max value = Ok m /\ 2 ^ 64 <= m
                    /\ e = ValueError "maximum tag must be at most {0}")
  end.
Proof.
  unfold set_tags.
  destruct value as [|x value]; [left; split; reflexivity|].
  destruct (numpy.max (x :: value)) as [m|e] eqn:Em; [|discriminate Em].
  cbn [bind].
  destruct (Z_lt_le_dec m (2 ^ 64)) as [Hlt|Hge].
  - destruct (tags_ladder_total m Hlt) as [t Et]. rewrite Et. cbn [bind].
    destruct (tags_ladder_unsigned _ _ Et) as [Hs Hi].
    rewrite Hi, (any_lt_astype_unsigned _ _ Hs).
    unfold check_prop_valid, numpy.astype. simpl.
    exists m, t. repeat split; assumption.
  - rewrite (tags_ladder_fails m Hge). cbn [bind].
    right. exists m. repeat split; assumption.
Qed.

(** The constructor succeeds exactly when the tags setter accepts the tags,
    the index has no negative entry and there is at least one branch; the
    index and the branches are stored as given.  The tags are looked at
    first, then the index, then the branches. *)
Theorem init_outcomes {B : Type} (tags index : list Z) (contents : list B) :
  match __init__ tags index contents with
  | Ok u =>
      set_tags tags = Ok (_tags u)
      /\ _index u = index /\ Forall (fun x => 0 <= x) index
      /\ _contents u = contents /\ contents <> []
  | Raise e =>
      set_tags tags = Raise e
      \/ (exists tags', set_tags tags = Ok tags')
         /\ ((exists x, In x index /\ x < 0
              /\ e = ValueError "index must be a non-negative array")
             \/ (Forall (fun x => 0 <= x) index /\ contents = []
                 /\ e = ValueError "contents must be non-empty"))
  end.
Proof.
  unfold __init__.
  destruct (set_tags tags) as [tags'|e]; cbn [bind]; [|left; reflexivity].
  unfold set_index, set_contents, check_prop_valid.
  destruct (numpy.any_lt index 0) eqn:Ei; cbn [bind].
  - right. split; [exists tags'; reflexivity|]. left.
    unfold numpy.any_lt in Ei. apply existsb_exists in Ei.
    destruct Ei as [x [Hx Hlt]]. exists x.
    split; [assumption|]. split; [apply Z.ltb_lt; assumption | reflexivity].
  - apply (proj1 (any_lt_false _ _)) in Ei.
    destruct contents as [|c contents]; cbn.
    + right. split; [exists tags'; reflexivity|]. right.
      repeat split; assumption.
    + repeat split; try assumption. discriminate.
Qed.

(** ** The sequential factory, completely *)

Section FactoryFacts.

Context {B : Type} {branch : BranchArray B}.

(** The factory looks at its tags through the setter only. *)
Lemma fromtags_stored (tags tags' : list Z) (contents : list B) :
  set_tags tags = Ok tags' ->
  fromtags tags contents = fromtags tags' contents.
Proof.
  intros H. unfold fromtags.
  rewrite H, (set_tags_fixpoint _ (set_tags_stored _ _ H)). reflexivity.
Qed.

Lemma fromtags_args (tags : list Z) (contents : list B) (u : UnionArray B) :
  fromtags tags contents = Ok u ->
  set_tags tags = Ok (_tags u) /\ _contents u = contents /\ contents <> []
  /\ forall x, In x (_tags u) -> x < Z.of_nat (length contents).
Proof.
  unfold fromtags. intros H.
  destruct (set_tags tags) as [t|e] eqn:Et; cbn [bind] in H; [|discriminate].
  destruct (set_contents contents) as [c|e] eqn:Ec; cbn [bind] in H;
    [|discriminate].
  apply set_contents_ok in Ec. destruct Ec as [-> Hc].
  destruct (set_tags_stored _ _ Et) as [Hne _].
  destruct t as [|x t]; [congruence|].
  change (0 <? length (x :: t))%nat with true in H. cbv iota in H.
  destruct (numpy.max (x :: t)) as [m|e] eqn:Em; cbn [bind] in H;
    [|discriminate].
  destruct (Z.of_nat (length contents) <=? m) eqn:Ek; cbn [bind] in H;
    [discriminate|].
  apply Z.leb_gt in Ek.
  destruct (fold_result _ _ _) as [index|e]; cbn [bind] in H; [|discriminate].
  destruct (set_index index) as [index'|e]; cbn [bind] in H; [|discriminate].
  inversion H; subst u; cbn [_tags _contents].
  repeat split; try assumption.
  intros y Hy. destruct (max_ok _ _ Em) as [_ Hall].
  rewrite Forall_forall in Hall. specialize (Hall y Hy). lia.
Qed.

Lemma fromtags_too_few (tags tags' : list Z) (contents : list B) (x : Z) :
  set_tags tags = Ok tags' ->
  contents <> [] ->
  In x tags' ->
  Z.of_nat (length contents) <= x ->
  fromtags tags contents
  = Raise (ValueError
             "maximum tag is {0} but there are only {1} contents arrays").
Proof.
  intros Et Hc Hx Hk. unfold fromtags. rewrite Et. cbn [bind].
  rewrite (proj2 (set_contents_ok B contents contents) (conj eq_refl Hc)).
  cbn [bind].
  destruct tags' as [|y tags']; [destruct Hx|].
  change (0 <? length (y :: tags'))%nat with true. cbv iota.
  destruct (numpy.max (y :: tags')) as [m|e] eqn:Em; [|discriminate Em].
  cbn [bind]. destruct (max_ok _ _ Em) as [_ Hall].
  rewrite Forall_forall in Hall. specialize (Hall x Hx).
  replace (Z.of_nat (length contents) <=? m) with true
    by (symmetry; apply Z.leb_le; lia).
  reflexivity.
Qed.

End FactoryFacts.

(** Behind a mask whose selected entries count [k, k + 1, ...], the entry at
    a set place is [k] plus the number of set places before it. *)
Lemma rank_count (mask : list bool) :
  forall (idx : list Z) (k i : nat),
    length idx = length mask ->
    numpy.compress mask idx
    = map Z.of_nat (seq k (numpy.count_nonzero mask)) ->
    nth i mask false = true ->
    nth i idx 0 = Z.of_nat (k + numpy.count_nonzero (firstn i mask)).
Proof.
  induction mask as [|b mask IH]; intros idx k i Hlen Hc Hi.
  - destruct i; discriminate Hi.
  - destruct idx as [|x idx]; [discriminate Hlen|].
    injection Hlen as Hlen.
    rewrite count_nonzero_cons in Hc.
    destruct i as [|i].
    + simpl in Hi. subst b. simpl in Hc. injection Hc as Hx _.
      simpl. rewrite Hx. f_equal.
      change (numpy.count_nonzero []) with 0%nat. lia.
    + cbn [nth firstn] in *. rewrite count_nonzero_cons.
      destruct b; simpl in Hc.
      * injection Hc as _ Hc.
        rewrite (IH idx (S k) i Hlen Hc Hi). f_equal. lia.
      * rewrite (IH idx k i Hlen Hc Hi). f_equal.
Qed.

Lemma count_nonzero_eq_scalar (tags : list Z) (t : Z) :
  numpy.count_nonzero (numpy.eq_scalar tags t) = count_occ Z.eq_dec tags t.
Proof.
  induction tags as [|x tags IH]; [reflexivity|].
  unfold numpy.eq_scalar in *. cbn [map]. rewrite count_nonzero_cons, IH.
  cbn [count_occ]. destruct (Z.eq_dec x t) as [E|E].
  - rewrite (proj2 (Z.eqb_eq _ _) E). reflexivity.
  - rewrite (proj2 (Z.eqb_neq _ _) E). reflexivity.
Qed.

Lemma firstn_eq_scalar (tags : list Z) (t : Z) (i : nat) :
  firstn i (numpy.eq_scalar tags t) = numpy.eq_scalar (firstn i tags) t.
Proof. unfold numpy.eq_scalar. apply firstn_map. Qed.

Lemma max_arange (n : nat) :
  numpy.max (numpy.arange (S n)) = Ok (Z.of_nat n).
Proof.
  destruct (max_nonempty (numpy.arange (S n))) as [m Hm];
    [unfold numpy.arange; simpl; discriminate|].
  rewrite Hm. f_equal.
  destruct (max_ok _ _ Hm) as [Hin Hall].
  unfold numpy.arange in Hin, Hall.
  apply in_map_iff in Hin. destruct Hin as [p [<- Hp]].
  apply in_seq in Hp.
  rewrite Forall_forall in Hall.
  specialize (Hall (Z.of_nat n)).
  assert (In (Z.of_nat n) (map Z.of_nat (seq 0 (S n)))) as Hn.
  { apply in_map. apply in_seq. lia. }
  specialize (Hall Hn). lia.
Qed.

Section FactoryTheorems.

Context {B : Type} {branch : BranchArray B}.

(** For tags the setter accepts and at least one branch, the factory fails
    exactly when a stored tag names no branch.  Otherwise it returns the
    stored tags and the branches with an index as long as the tags whose entry
    at position [i] is the number of earlier positions with the same tag. *)
Theorem fromtags_outcomes (tags tags' : list Z) (contents : list B) :
  set_tags tags = Ok tags' ->
  contents <> [] ->
  match fromtags tags contents with
  | Ok u =>
      _tags u = tags' /\ _contents u = contents
      /\ length (_index u) = length tags'
      /\ (forall x, In x tags' -> x < Z.of_nat (length contents))
      /\ forall i, (i < length tags')%nat ->
           nth i (_index u) 0
           = Z.of_nat (count_occ Z.eq_dec (firstn i tags') (nth i tags' 0))
  | Raise e =>
      e = ValueError "maximum tag is {0} but there are only {1} contents arrays"
      /\ exists x, In x tags' /\ Z.of_nat (length contents) <= x
  end.
Proof.
  intros Et Hc.
  destruct (forallb (fun x => x <? Z.of_nat (length contents)) tags') eqn:Eall.
  - assert (Hbelow : forall x, In x tags' -> x < Z.of_nat (length contents)).
    { intros x Hx. rewrite forallb_forall in Eall.
      apply Z.ltb_lt. apply Eall. exact Hx. }
    rewrite (fromtags_stored _ _ contents Et).
    destruct (fromtags_ok tags' contents (set_tags_stored _ _ Et) Hbelow)
      as (index & Hf & Hlen & Hsel).
    rewrite Hf. cbn [_tags _index _contents].
    repeat split; try assumption.
    intros i Hi.
    assert (Hin : In (nth i tags' 0) tags') by (apply nth_In; exact Hi).
    rewrite <- count_nonzero_eq_scalar, <- firstn_eq_scalar.
    apply (rank_count _ index 0 i).
    + rewrite eq_scalar_length. exact Hlen.
    + apply Hsel. exact Hin.
    + rewrite eq_scalar_nth by exact Hi. apply Z.eqb_refl.
  - assert (exists x, In x tags' /\ Z.of_nat (length contents) <= x)
      as [x [Hx Hk]].
    { clear Et. induction tags' as [|y tags' IH]; [discriminate Eall|].
      simpl in Eall. apply andb_false_iff in Eall.
      destruct Eall as [E|E].
      - exists y. split; [left; reflexivity | apply Z.ltb_ge; exact E].
      - destruct (IH E) as [x [Hx Hk]]. exists x.
        split; [right; exact Hx | exact Hk]. }
    rewrite (fromtags_too_few tags tags' contents x Et Hc Hx Hk).
    split; [reflexivity|]. exists x. split; assumption.
Qed.

(** What the factory built is valid exactly when every branch in use is at
    least as long as the number of places with its tag: the factory itself
    never looks at the lengths of the branches. *)
Theorem fromtags_valid_iff (tags : list Z) (contents : list B)
  (u : UnionArray B) :
  fromtags tags contents = Ok u ->
  (_valid u = Ok tt
   <-> forall t, In t (_tags u) ->
         exists c, tuple_getitem (_contents u) t = Ok c
                   /\ (count_occ Z.eq_dec (_tags u) t <= len c)%nat).
Proof.
  intros Hf.
  destruct (fromtags_inv _ _ _ Hf) as (Hst & Hlen & Hsel).
  destruct (fromtags_args _ _ _ Hf) as (_ & Hcs & Hc & Hbelow).
  destruct Hst as [Hne Hrange]. rewrite Forall_forall in Hrange.
  assert (Hbranch : forall t, In t (_tags u) ->
            valid_tag u (firstn (length (_tags u)) (_index u)) t = Ok tt
            <-> exists c, tuple_getitem (_contents u) t = Ok c
                  /\ (count_occ Z.eq_dec (_tags u) t <= len c)%nat).
  { intros t Ht. unfold valid_tag.
    rewrite <- Hlen, firstn_all.
    unfold numpy.getitem_mask. rewrite eq_scalar_length, Hlen, Nat.eqb_refl.
    cbn [bind]. rewrite (Hsel t Ht).
    rewrite <- count_nonzero_eq_scalar.
    assert (Hpos : (0 < numpy.count_nonzero (numpy.eq_scalar (_tags u) t))%nat).
    { rewrite count_nonzero_eq_scalar. apply count_occ_In. exact Ht. }
    destruct (numpy.count_nonzero (numpy.eq_scalar (_tags u) t)) as [|n];
      [lia|].
    rewrite max_arange. cbn [bind].
    specialize (Hrange t Ht). specialize (Hbelow t Ht). rewrite <- Hcs in Hbelow.
    assert (Hnth : exists c, nth_error (_contents u) (Z.to_nat t) = Some c).
    { destruct (nth_error (_contents u) (Z.to_nat t)) as [c|] eqn:E;
        [exists c; reflexivity|].
      apply nth_error_None in E. lia. }
    destruct Hnth as [c Hnth].
    unfold tuple_getitem.
    rewrite (wrap_index_nonneg (length (_contents u)) t) by lia.
    cbn [bind]. rewrite Hnth. cbn [bind].
    destruct (Z.of_nat (len c) <=? Z.of_nat n) eqn:El.
    - apply Z.leb_le in El. split; [intros H; discriminate H|].
      intros [c' [Hc' Hle]]. inversion Hc'; subst c'. lia.
    - apply Z.leb_gt in El. split; [|reflexivity].
      intros _. exists c. split; [reflexivity | lia]. }
  unfold _valid, check_whole_valid. unfold numpy.shape. cbn [length tl].
  change (1 <? 1)%nat with false. cbv iota.
  change (numpy.shape_eqb [] []) with true. cbn [negb].
  destruct (_tags u) as [|x tags'] eqn:Etags; [congruence|].
  rewrite <- Etags in *.
  replace (0 <? length (_tags u))%nat with true
    by (rewrite Etags; reflexivity).
  destruct (max_nonempty (_tags u) Hne) as [m Hm]. rewrite Hm. cbn [bind].
  destruct (max_ok _ _ Hm) as [Hin _].
  replace (Z.of_nat (length (_contents u)) <=? m) with false
    by (symmetry; apply Z.leb_gt; rewrite Hcs; auto).
  cbn [bind]. rewrite for_each_ok.
  split.
  - intros H t Ht. apply Hbranch; [exact Ht|].
    apply H. apply unique_In. exact Ht.
  - intros H t Ht. apply (proj1 (unique_In _ _)) in Ht.
    apply Hbranch; auto.
Qed.

End FactoryTheorems.

(** The factory on the worked example: tags [[0, 1, 0, 1]] over two branches
    of two elements. *)
Lemma fromtags_outcomes_witness :
  match fromtags [0; 1; 0; 1] example_contents with
  | Ok u =>
      _tags u = [0; 1; 0; 1] /\ _contents u = example_contents
      /\ length (_index u) = length [0; 1; 0; 1]
      /\ (forall x, In x [0; 1; 0; 1] -> x < Z.of_nat (length example_contents))
      /\ forall i, (i < length [0; 1; 0; 1])%nat ->
           nth i (_index u) 0
           = Z.of_nat (count_occ Z.eq_dec (firstn i [0; 1; 0; 1])
                         (nth i [0; 1; 0; 1] 0))
  | Raise e =>
      e = ValueError "maximum tag is {0} but there are only {1} contents arrays"
      /\ exists x, In x [0; 1; 0; 1] /\ Z.of_nat (length example_contents) <= x
  end.
Proof.
  apply (fromtags_outcomes [0; 1; 0; 1] [0; 1; 0; 1] example_contents).
  - reflexivity.
  - discriminate.
Defined.

Lemma fromtags_valid_iff_witness :
  _valid example_union = Ok tt
  <-> forall t, In t (_tags example_union) ->
        exists c, tuple_getitem (_contents example_union) t = Ok c
                  /\ (count_occ Z.eq_dec (_tags example_union) t <= len c)%nat.
Proof.
  apply (fromtags_valid_iff [0; 1; 0; 1] example_contents example_union).
  reflexivity.
Defined.

(** ** Persistence, both forms *)

Section PersistFacts.

Context {B : Type} {branch : BranchArray B}.

(** The constructor gives back an array that came out of it. *)
Lemma init_constructed (u : UnionArray B) :
  constructed u -> __init__ (_tags u) (_index u) (_contents u) = Ok u.
Proof.
  intros (tags0 & index0 & contents0 & Hinit).
  destruct (init_ok _ _ _ _ _ Hinit) as (Hst & Hix & Hc).
  unfold __init__. rewrite (set_tags_fixpoint _ Hst). cbn [bind].
  rewrite (proj2 (set_index_ok (_index u) (_index u)) (conj eq_refl Hix)).
  cbn [bind].
  rewrite (proj2 (set_contents_ok B (_contents u) (_contents u))
             (conj eq_refl Hc)).
  cbn [bind]. destruct u; reflexivity.
Qed.

Lemma issequential_loop_total (u : UnionArray B) (todo : list Z) :
  length (_index u) = length (_tags u) ->
  exists b, issequential_loop u todo = Ok b.
Proof.
  intros Hlen. induction todo as [|t todo IH]; [exists true; reflexivity|].
  cbn [issequential_loop]. unfold numpy.getitem_mask.
  rewrite eq_scalar_length, Hlen, Nat.eqb_refl. cbn [bind].
  destruct (negb _); [exists false; reflexivity | exact IH].
Qed.

Lemma issequential_loop_longer (u : UnionArray B) (t : Z) (todo : list Z) :
  length (_index u) <> length (_tags u) ->
  issequential_loop u (t :: todo)
  = Raise (IndexError
             "boolean index did not match indexed array along dimension 0").
Proof.
  intros Hlen. cbn [issequential_loop]. unfold numpy.getitem_mask.
  rewrite eq_scalar_length.
  destruct (length (_tags u) =? length (_index u))%nat eqn:E;
    [apply Nat.eqb_eq in E; congruence | reflexivity].
Qed.

Lemma unique_nonempty (a : list Z) : a <> [] -> numpy.unique a <> [].
Proof.
  destruct a as [|x a]; [congruence|]. intros _ E.
  assert (In x (numpy.unique (x :: a))) as H
    by (apply unique_In; left; reflexivity).
  rewrite E in H. destruct H.
Qed.

(** The sequentiality test holds only when the index is as long as the
    tags, and then the factory derives exactly this index. *)
Lemma sequential_fromtags (u : UnionArray B) :
  constructed u ->
  issequential u = Ok true ->
  fromtags (_tags u) (_contents u) = Ok u.
Proof.
  intros (tags0 & index0 & contents0 & Hinit) Hseq.
  destruct (init_ok _ _ _ _ _ Hinit) as (Hst & _ & _).
  unfold issequential in Hseq.
  destruct (_valid u) as [[]|e] eqn:Hv; cbn [bind] in Hseq; [|discriminate].
  pose proof (issequential_loop_true _ _ Hseq) as Hsel.
  assert (Hlen : length (_index u) = length (_tags u)).
  { destruct (Nat.eq_dec (length (_index u)) (length (_tags u))) as [E|E];
      [exact E|].
    destruct (numpy.unique (_tags u)) as [|t todo] eqn:Eu.
    - destruct Hst as [Hne _]. destruct (unique_nonempty _ Hne Eu).
    - rewrite (issequential_loop_longer u t todo E) in Hseq. discriminate. }
  destruct (fromtags_ok (_tags u) (_contents u) Hst
              (fun t => valid_tags_below u t Hv))
    as (index & Hok & Hlen' & Hsel').
  rewrite Hok.
  assert (Hindex : index = _index u).
  { apply (compress_ext (_tags u)); [exact Hlen' | exact Hlen |].
    intros t Ht. rewrite (Hsel' t Ht).
    assert (Hu : In t (numpy.unique (_tags u))) by now apply unique_In.
    specialize (Hsel t Hu). unfold numpy.getitem_mask in Hsel.
    rewrite eq_scalar_length, Hlen, Nat.eqb_refl in Hsel.
    now inversion Hsel. }
  rewrite Hindex. destruct u; reflexivity.
Qed.

(** Whatever description the encoder returns for a constructed array, in
    the compact form or in the general one, replaying it gives that array
    back, buffer for buffer; and the encoder does return one when the array
    is valid and its index is exactly as long as its tags. *)
Theorem persist_replay (u : UnionArray B) :
  constructed u ->
  (forall p, __awkward_persist__ u = Ok p -> replay p = Ok u)
  /\ (_valid u = Ok tt ->
      length (_index u) = length (_tags u) ->
      exists p, __awkward_persist__ u = Ok p).
Proof.
  intros Hc. split.
  - intros p Hp. unfold __awkward_persist__ in Hp.
    destruct (_valid u) as [[]|e]; cbn [bind] in Hp; [|discriminate].
    destruct (issequential u) as [[|]|e] eqn:Hseq; cbn [bind] in Hp;
      [| |discriminate]; inversion Hp; subst p; cbn [replay].
    + exact (sequential_fromtags u Hc Hseq).
    + exact (init_constructed u Hc).
  - intros Hv Hlen. unfold __awkward_persist__, issequential.
    rewrite Hv. cbn [bind].
    destruct (issequential_loop_total u (numpy.unique (_tags u)) Hlen)
      as [b Hb].
    rewrite Hb. cbn [bind]. destruct b; eexists; reflexivity.
Qed.

(** On a valid array whose index is longer than its tags, the sequentiality
    test, and with it the encoder, raises NumPy's [IndexError]: the test
    reads the whole index through a mask of the length of the tags. *)
Theorem persist_longer_index (u : UnionArray B) :
  _valid u = Ok tt ->
  _tags u <> [] ->
  (length (_tags u) < length (_index u))%nat ->
  issequential u
  = Raise (IndexError
             "boolean index did not match indexed array along dimension 0")
  /\ __awkward_persist__ u
     = Raise (IndexError
                "boolean index did not match indexed array along dimension 0").
Proof.
  intros Hv Hne Hlen.
  assert (Hs : issequential u
               = Raise (IndexError
                   "boolean index did not match indexed array along dimension 0")).
  { unfold issequential. rewrite Hv. cbn [bind].
    destruct (numpy.unique (_tags u)) as [|t todo] eqn:Eu.
    - destruct (unique_nonempty _ Hne Eu).
    - apply issequential_loop_longer. lia. }
  split; [exact Hs|].
  unfold __awkward_persist__. rewrite Hv, Hs. reflexivity.
Qed.

End PersistFacts.

(** A general-form round trip: the worked example with the entries of one
    branch swapped is not sequential. *)
Lemma persist_replay_witness :
  (forall p,
      __awkward_persist__
        {| _tags := [0; 1; 0; 1]; _index := [1; 0; 0; 1];
           _contents := example_contents |} = Ok p ->
      replay p
      = Ok {| _tags := [0; 1; 0; 1]; _index := [1; 0; 0; 1];
              _contents := example_contents |})
  /\ (_valid {| _tags := [0; 1; 0; 1]; _index := [1; 0; 0; 1];
                _contents := example_contents |} = Ok tt ->
      length [1; 0; 0; 1] = length [0; 1; 0; 1] ->
      exists p,
        __awkward_persist__
          {| _tags := [0; 1; 0; 1]; _index := [1; 0; 0; 1];
             _contents := example_contents |} = Ok p).
Proof.
  apply (persist_replay
           {| _tags := [0; 1; 0; 1]; _index := [1; 0; 0; 1];
              _contents := example_contents |}).
  exists [0; 1; 0; 1], [1; 0; 0; 1], example_contents. reflexivity.
Defined.

Lemma persist_longer_index_witness :
  issequential example_union_padded
  = Raise (IndexError
             "boolean index did not match indexed array along dimension 0")
  /\ __awkward_persist__ example_union_padded
     = Raise (IndexError
                "boolean index did not match indexed array along dimension 0").
Proof.
  apply (persist_longer_index example_union_padded).
  - reflexivity.
  - discriminate.
  - simpl. lia.
Defined.

(** ** Reading by position *)

Section PositionalFacts.

Context {B : Type} {branch : BranchArray B}.

Lemma wrap_index_cases (n : nat) (i : Z) :
  - Z.of_nat n <= i < Z.of_nat n ->
  wrap_index n i = Ok (Z.to_nat (i mod Z.of_nat n))
  /\ (Z.to_nat (i mod Z.of_nat n) < n)%nat.
Proof.
  intros Hi. unfold wrap_index.
  replace ((i <? - Z.of_nat n) || (Z.of_nat n <=? i)) with false
    by (symmetry; apply orb_false_iff; split;
        [apply Z.ltb_ge | apply Z.leb_gt]; lia).
  assert (Hn : 0 < Z.of_nat n) by lia.
  destruct (i <? 0) eqn:E.
  - apply Z.ltb_lt in E.
    replace (i mod Z.of_nat n) with (i + Z.of_nat n)
      by (apply Z.mod_unique with (q := -1); lia).
    split; [reflexivity | lia].
  - apply Z.ltb_ge in E. rewrite Z.mod_small by lia.
    split; [reflexivity | lia].
Qed.

Lemma wrap_index_outside (n : nat) (i : Z) :
  i < - Z.of_nat n \/ Z.of_nat n <= i ->
  wrap_index n i = Raise (IndexError "index out of range").
Proof.
  intros Hi. unfold wrap_index.
  replace ((i <? - Z.of_nat n) || (Z.of_nat n <=? i)) with true;
    [reflexivity|].
  symmetry. apply orb_true_iff.
  destruct Hi; [left; apply Z.ltb_lt | right; apply Z.leb_le]; lia.
Qed.

(** Reading position [i], counted from either end, is one step of the
    iteration. *)
Lemma getitem_sel_int (u : UnionArray B) (i : Z) :
  _valid u = Ok tt ->
  - Z.of_nat (length (_tags u)) <= i < Z.of_nat (length (_tags u)) ->
  __getitem__ u (where_single (sel_int i))
  = (r <- iter_item u (Z.to_nat (i mod Z.of_nat (length (_tags u)))) ;;
     Ok (ret_branch r)).
Proof.
  intros Hv Hi.
  destruct (wrap_index_cases _ i Hi) as [Hw Hp].
  set (p := Z.to_nat (i mod Z.of_nat (length (_tags u)))) in *.
  pose proof (valid_index_covers u Hv) as Hcov.
  assert (Hpi : (p < length (_index u))%nat).
  { rewrite length_firstn in Hcov. lia. }
  unfold __getitem__. rewrite Hv. cbn [bind].
  unfold getitem_positional, iter_item, ndarray_getitem.
  rewrite Hcov. cbn [positions]. rewrite Hw.
  rewrite !(wrap_index_nonneg _ (Z.of_nat p)) by lia.
  cbn [bind take]. rewrite Nat2Z.id.
  rewrite nth_firstn_lt by exact Hp.
  destruct (tuple_getitem (_contents u) (nth p (_tags u) 0)) as [c|e];
    reflexivity.
Qed.

(** An integer outside [-len(tags) .. len(tags) - 1] raises NumPy's
    [IndexError], whatever the branches hold. *)
Theorem getitem_integer_out_of_range (u : UnionArray B) (i : Z) :
  _valid u = Ok tt ->
  i < - Z.of_nat (__len__ u) \/ Z.of_nat (__len__ u) <= i ->
  __getitem__ u (where_single (sel_int i))
  = Raise (IndexError "index out of range").
Proof.
  intros Hv Hi. unfold __getitem__. rewrite Hv. cbn [bind].
  unfold getitem_positional, ndarray_getitem. cbn [positions].
  unfold __len__ in Hi. rewrite (wrap_index_outside _ i Hi). reflexivity.
Qed.

Lemma map_result_nth_error {A C : Type} (g : A -> result C) (xs : list A)
  (ys : list C) :
  map_result g xs = Ok ys ->
  forall p y, nth_error ys p = Some y ->
    exists x, nth_error xs p = Some x /\ g x = Ok y.
Proof.
  intros H. apply map_result_ok in H.
  induction H as [|x y xs ys Hxy _ IH]; intros p y' Hp.
  - destruct p; discriminate Hp.
  - destruct p as [|p]; simpl in Hp.
    + inversion Hp; subst y'. exists x. split; [reflexivity | exact Hxy].
    + exact (IH p y' Hp).
Qed.

(** Iterating and indexing agree: the iteration yields [len(self)] items,
    and item number [p] is what reading position [p], or position
    [p - len(self)] counted from the end, returns. *)
Theorem iter_getitem (u : UnionArray B) (items : list item) :
  __iter__ u = Ok items ->
  length items = __len__ u
  /\ forall p r, nth_error items p = Some r ->
       __getitem__ u (where_single (sel_int (Z.of_nat p))) = Ok (ret_branch r)
       /\ __getitem__ u (where_single (sel_int (Z.of_nat p - Z.of_nat (__len__ u))))
          = Ok (ret_branch r).
Proof.
  unfold __iter__, allow_iter, __len__. cbn [bind]. intros H.
  destruct (_valid u) as [[]|e] eqn:Hv; cbn [bind] in H; [|discriminate].
  pose proof (map_result_length _ _ _ H) as Hlen. rewrite length_seq in Hlen.
  split; [exact Hlen|].
  intros p r Hp.
  destruct (map_result_nth_error _ _ _ H p r Hp) as (x & Hx & Hr).
  assert (Hplt : (p < length (_tags u))%nat).
  { rewrite <- Hlen. apply nth_error_Some. congruence. }
  rewrite nth_error_nth' with (d := 0%nat) in Hx
    by (rewrite length_seq; exact Hplt).
  rewrite seq_nth in Hx by exact Hplt. inversion Hx; subst x. clear Hx.
  cbn [Nat.add] in Hr.
  split.
  - rewrite (getitem_sel_int u (Z.of_nat p) Hv) by lia.
    rewrite Z.mod_small by lia. rewrite Nat2Z.id, Hr. reflexivity.
  - rewrite (getitem_sel_int u _ Hv) by lia.
    replace ((Z.of_nat p - Z.of_nat (length (_tags u)))
               mod Z.of_nat (length (_tags u))) with (Z.of_nat p)
      by (apply Z.mod_unique with (q := -1); lia).
    rewrite Nat2Z.id, Hr. reflexivity.
Qed.

(** The shape of a positional read that returns a union: the selector picks
    positions, the new tags and index are the old ones at these positions,
    and the branches are the old branches. *)
Lemma positional_read_union (u u' : UnionArray B) (head : selector)
  (tail : list tail_selector) :
  constructed u ->
  __getitem__ u (where_tuple head tail) = Ok (ret_union u') ->
  _valid u = Ok tt
  /\ exists ps,
       positions (length (_tags u)) head = Ok (array_sel ps)
       /\ Forall (fun p => (p < length (_tags u))%nat) ps
       /\ u' = {| _tags := map (fun p => nth p (_tags u) 0) ps;
                  _index := map (fun p => nth p (_index u) 0) ps;
                  _contents := _contents u |}.
Proof.
  intros (t0 & i0 & c0 & Hinit) H.
  destruct (init_ok _ _ _ _ _ Hinit) as ((_ & Hstored) & Hnonneg & Hcne).
  unfold __getitem__ in H.
  destruct (_valid u) as [[]|e] eqn:Hv; cbn [bind] in H; [|discriminate].
  split; [reflexivity|].
  unfold getitem_positional, ndarray_getitem in H.
  pose proof (valid_index_covers u Hv) as Hcov. rewrite Hcov in H.
  destruct (positions (length (_tags u)) head) as [ps|e] eqn:Eps;
    cbn [bind] in H; [|discriminate].
  pose proof (positions_lt _ _ _ Eps) as Hlt.
  destruct ps as [p|ps]; cbn [take] in H.
  { destruct (tuple_getitem _ _); cbn [bind] in H; [|discriminate].
    destruct (getitem _ _ _); cbn [bind] in H; discriminate. }
  exists ps. split; [reflexivity|]. split; [exact Hlt|].
  set (ts := map (fun p => nth p (_tags u) 0) ps) in *.
  assert (Eix : map (fun p => nth p (firstn (length (_tags u)) (_index u)) 0) ps
                = map (fun p => nth p (_index u) 0) ps).
  { apply map_ext_in. intros p Hp. apply nth_firstn_lt.
    rewrite Forall_forall in Hlt. apply Hlt, Hp. }
  rewrite Eix in H.
  set (ixs := map (fun p => nth p (_index u) 0) ps) in *.
  destruct (length ts =? 0)%nat eqn:E0.
  { destruct (tuple_getitem _ _); cbn [bind] in H; [|discriminate].
    destruct (getitem _ _ _); cbn [bind] in H; discriminate. }
  apply Nat.eqb_neq in E0.
  destruct (forallb _ ts).
  { destruct (tuple_getitem _ _); cbn [bind] in H; [|discriminate].
    destruct (getitem _ _ _); cbn [bind] in H; discriminate. }
  rewrite Forall_forall in Hlt, Hstored, Hnonneg.
  assert (Hts : stored_tags ts).
  { split; [intros E; rewrite E in E0; now apply E0|].
    apply Forall_forall. intros x Hx. apply in_map_iff in Hx.
    destruct Hx as (p & <- & Hp). apply Hstored, nth_In, Hlt, Hp. }
  assert (Hixs : Forall (fun x => 0 <= x) ixs).
  { apply Forall_forall. intros x Hx. apply in_map_iff in Hx.
    destruct Hx as (p & <- & Hp).
    destruct (valid_position u p Hv (Hlt p Hp)) as (Hp' & _).
    apply Hnonneg, nth_In, Hp'. }
  unfold copy in H.
  rewrite (set_tags_fixpoint _ Hts) in H. cbn [bind] in H.
  rewrite (proj2 (set_index_ok _ _) (conj eq_refl Hixs)) in H. cbn [bind] in H.
  inversion H. reflexivity.
Qed.

(** Reading several positions and then iterating is iterating and then
    picking: item [q] of the union a positional read returns is the item of
    the original array at the [q]-th selected position.  The branches are
    handed on whole, and the trailing selectors have no part in the result. *)
Theorem positional_read_items (u u' : UnionArray B) (head : selector)
  (tail : list tail_selector) :
  constructed u ->
  __getitem__ u (where_tuple head tail) = Ok (ret_union u') ->
  _contents u' = _contents u
  /\ exists ps,
       positions (__len__ u) head = Ok (array_sel ps)
       /\ __len__ u' = length ps
       /\ forall q, (q < length ps)%nat ->
            iter_item u' q = iter_item u (nth q ps 0%nat).
Proof.
  intros Hc H.
  destruct (positional_read_union u u' head tail Hc H)
    as (Hv & ps & Hps & Hlt & ->).
  split; [reflexivity|]. exists ps. split; [exact Hps|].
  unfold __len__. cbn [_tags]. split; [apply length_map|].
  intros q Hq.
  rewrite Forall_forall in Hlt.
  assert (Hp : (nth q ps 0%nat < length (_tags u))%nat)
    by (apply Hlt, nth_In, Hq).
  destruct (valid_position u _ Hv Hp) as (Hpi & _).
  unfold iter_item, ndarray_getitem. cbn [_tags _index _contents positions].
  rewrite !length_map.
  rewrite !(wrap_index_nonneg _ (Z.of_nat q)) by lia.
  rewrite !(wrap_index_nonneg _ (Z.of_nat (nth q ps 0%nat))) by lia.
  cbn [bind take]. rewrite !Nat2Z.id.
  rewrite (nth_map_lt (fun p => nth p (_tags u) 0) ps q 0 0%nat Hq).
  rewrite (nth_map_lt (fun p => nth p (_index u) 0) ps q 0 0%nat Hq).
  reflexivity.
Qed.

End PositionalFacts.

Lemma getitem_integer_out_of_range_witness :
  __getitem__ example_union (where_single (sel_int 4))
  = Raise (IndexError "index out of range").
Proof.
  apply (getitem_integer_out_of_range example_union 4).
  - reflexivity.
  - right. simpl. lia.
Defined.

Lemma iter_getitem_witness :
  length [element (int_ 10); element (float_ 1.5);
          element (int_ 20); element (float_ 2.5)]
  = __len__ example_union
  /\ forall p r,
       nth_error [element (int_ 10); element (float_ 1.5);
                  element (int_ 20); element (float_ 2.5)] p = Some r ->
       __getitem__ example_union (where_single (sel_int (Z.of_nat p)))
       = Ok (ret_branch r)
       /\ __getitem__ example_union
            (where_single (sel_int (Z.of_nat p - Z.of_nat (__len__ example_union))))
          = Ok (ret_branch r).
Proof.
  exact (iter_getitem example_union
           [element (int_ 10); element (float_ 1.5);
            element (int_ 20); element (float_ 2.5)] eq_refl).
Defined.

Lemma positional_read_items_witness :
  _contents {| _tags := [1; 0]; _index := [0; 1];
               _contents := example_contents |}
  = _contents example_union
  /\ exists ps,
       positions (__len__ example_union)
         (sel_slice (Some 1) (Some 3) None) = Ok (array_sel ps)
       /\ __len__ {| _tags := [1; 0]; _index := [0; 1];
                     _contents := example_contents |} = length ps
       /\ forall q, (q < length ps)%nat ->
            iter_item {| _tags := [1; 0]; _index := [0; 1];
                         _contents := example_contents |} q
            = iter_item example_union (nth q ps 0%nat).
Proof.
  apply (positional_read_items example_union _
           (sel_slice (Some 1) (Some 3) None) []).
  - exists [0; 1; 0; 1], [0; 0; 1; 1], example_contents. reflexivity.
  - reflexivity.
Defined.

(** ** More of the promotion *)

Lemma forallb_same_members {A : Type} (f : A -> bool) (l l' : list A) :
  (forall x, In x l <-> In x l') -> forallb f l = forallb f l'.
Proof.
  intros H.
  destruct (forallb f l) eqn:E, (forallb f l') eqn:E'; try reflexivity.
  - rewrite forallb_forall in E.
    assert (forallb f l' = true) as E''
      by (apply forallb_forall; intros x Hx; apply E, H, Hx).
    congruence.
  - rewrite forallb_forall in E'.
    assert (forallb f l = true) as E''
      by (apply forallb_forall; intros x Hx; apply E', H, Hx).
    congruence.
Qed.

Lemma forallb_false_witness {A : Type} (f : A -> bool) (l : list A) :
  forallb f l = false -> exists x, In x l /\ f x = false.
Proof.
  induction l as [|y l IH]; [discriminate|].
  simpl. intros H. apply andb_false_iff in H. destruct H as [H|H].
  - exists y. split; [left; reflexivity | exact H].
  - destruct (IH H) as [x [Hx Hf]]. exists x. split; [right|]; assumption.
Qed.

Section PromotionMore.

Context {B : Type} {branch : BranchArray B}.

Variables h128 h256 : bool.

(** The promoted type depends on the set of the branch types only: neither
    the order of the branches nor a type that occurs twice changes it. *)
Theorem uniondtype_set (xs ys : list B) :
  (forall t, In t (map dtype_type xs) <-> In t (map dtype_type ys)) ->
  uniondtype h128 h256 xs = uniondtype h128 h256 ys.
Proof.
  intros H. unfold uniondtype. rewrite !all_issubclass_types.
  repeat match goal with
         | |- context [forallb ?f (map dtype_type xs)] =>
             rewrite (forallb_same_members f (map dtype_type xs)
                        (map dtype_type ys) H)
         end.
  reflexivity.
Qed.

Lemma all_issubclass_same (arrays : list B) (t : scalar_type)
  (classes : list pyclass) :
  arrays <> [] ->
  (forall x, In x arrays -> dtype_type x = t) ->
  all_issubclass arrays classes = issubclass t classes.
Proof.
  intros Hne Hall. unfold all_issubclass.
  destruct arrays as [|x arrays]; [congruence|].
  destruct (issubclass t classes) eqn:E.
  - apply forallb_forall. intros y Hy. rewrite (Hall y Hy). exact E.
  - simpl. rewrite (Hall x (or_introl eq_refl)), E. reflexivity.
Qed.

(** Branches of one and the same class.  A class that a rung of the
    promotion names -- the boolean class, the sized integer classes,
    [float16], [float32], [float64], [complex64], [complex128] -- and the
    object class promote to themselves, and so do [float128] and
    [complex256] where the platform has them.  The two C-named integer
    classes [longlong] and [ulonglong], which no rung names, and the time
    difference class, which NumPy derives from its signed integers, promote
    to [float64]; a string, bytes, record or date class to the object
    class. *)
Theorem uniondtype_homogeneous (arrays : list B) (t : scalar_type) :
  arrays <> [] ->
  (forall x, In x arrays -> dtype_type x = t) ->
  uniondtype h128 h256 arrays
  = match t with
    | bool_ => bool_
    | int8 => int8
    | uint8 => uint8
    | int16 => int16
    | uint16 => uint16
    | int32 => int32
    | uint32 => uint32
    | int64 => int64
    | uint64 => uint64
    | longlong => float64
    | ulonglong => float64
    | float16 => float16
    | float32 => float32
    | float64 => float64
    | float128 => if h128 then float128 else float64
    | complex64 => complex64
    | complex128 => complex128
    | complex256 => if h256 then complex256 else complex128
    | timedelta64 => float64
    | datetime64 => object_
    | object_ => object_
    | str_ => object_
    | bytes_ => object_
    | void => object_
    end.
Proof.
  intros Hne Hall. unfold uniondtype.
  rewrite !(all_issubclass_same arrays t) by assumption.
  destruct t, h128, h256; reflexivity.
Qed.

(** Branches of integer types only.  The promoted type is again an integer
    type, and then it holds every value of every branch type -- or it is
    [float64], and then the 64-bit unsigned type occurs together with a
    signed type. *)
Theorem uniondtype_integers (arrays : list B) :
  arrays <> [] ->
  (forall x, In x arrays ->
     In (dtype_type x)
        [int8; uint8; int16; uint16; int32; uint32; int64; uint64]) ->
  (In (uniondtype h128 h256 arrays)
      [int8; uint8; int16; uint16; int32; uint32; int64; uint64]
   /\ forall x, In x arrays ->
        iinfo_min (uniondtype h128 h256 arrays) <= iinfo_min (dtype_type x)
        /\ numpy.iinfo_max (dtype_type x)
           <= numpy.iinfo_max (uniondtype h128 h256 arrays))
  \/ (uniondtype h128 h256 arrays = float64
      /\ (exists x, In x arrays /\ dtype_type x = uint64)
      /\ exists y, In y arrays /\ numpy.signed (dtype_type y) = true).
Proof.
  intros Hne Hint.
  assert (Hfirst : exists x, In x arrays)
    by (destruct arrays as [|x arrays]; [congruence | exists x; now left]).
  destruct Hfirst as [x0 Hx0].
  assert (Hnot : forall classes,
            issubclass (dtype_type x0) classes = false ->
            all_issubclass arrays classes = false)
    by (intros classes; apply all_issubclass_false; exact Hx0).
  assert (Hrange : forall classes r,
            all_issubclass arrays classes = true ->
            (forall t,
               In t [int8; uint8; int16; uint16; int32; uint32; int64; uint64] ->
               issubclass t classes = true ->
               iinfo_min r <= iinfo_min t
               /\ numpy.iinfo_max t <= numpy.iinfo_max r) ->
            forall x, In x arrays ->
              iinfo_min r <= iinfo_min (dtype_type x)
              /\ numpy.iinfo_max (dtype_type x) <= numpy.iinfo_max r).
  { intros classes r E Hcl x Hx. unfold all_issubclass in E.
    rewrite forallb_forall in E. apply Hcl; [apply Hint, Hx | apply E, Hx]. }
  assert (Hcheck : forall classes r,
            (forall t,
               In t [int8; uint8; int16; uint16; int32; uint32; int64; uint64] ->
               issubclass t classes = true ->
               iinfo_min r <= iinfo_min t
               /\ numpy.iinfo_max t <= numpy.iinfo_max r)
            <-> forallb (fun t =>
                  implb (issubclass t classes)
                    ((iinfo_min r <=? iinfo_min t)
                     && (numpy.iinfo_max t <=? numpy.iinfo_max r)))
                  [int8; uint8; int16; uint16; int32; uint32; int64; uint64]
                = true).
  { intros classes r. rewrite forallb_forall. split.
    - intros H t Ht. destruct (issubclass t classes) eqn:E; [|reflexivity].
      destruct (H t Ht E) as [H1 H2]. simpl.
      apply andb_true_iff. split; apply Z.leb_le; assumption.
    - intros H t Ht E. specialize (H t Ht). rewrite E in H. simpl in H.
      apply andb_true_iff in H. destruct H as [H1 H2].
      split; apply Z.leb_le; assumption. }
  pose proof (Hint x0 Hx0) as Ht0.
  assert (Hall : all_issubclass arrays [integer; floating] = true).
  { unfold all_issubclass. apply forallb_forall. intros x Hx.
    specialize (Hint x Hx). simpl in Hint.
    decompose [or] Hint; try contradiction;
      match goal with H : _ = dtype_type x |- _ => rewrite <- H end;
      reflexivity. }
  unfold uniondtype. rewrite Hall.
  destruct (all_issubclass arrays [concrete bool_; python_bool]) eqn:E0.
  { rewrite Hnot in E0; [discriminate|].
    simpl in Ht0. decompose [or] Ht0; try contradiction;
      match goal with H : _ = dtype_type x0 |- _ => rewrite <- H end;
      reflexivity. }
  repeat match goal with
         | |- context [if all_issubclass arrays ?cs then ?r else _] =>
             let E := fresh "E" in
             destruct (all_issubclass arrays cs) eqn:E;
             [ first
                 [ left; split;
                   [ simpl; tauto
                   | apply (Hrange cs r E); apply Hcheck; vm_compute;
                     reflexivity ]
                 | exfalso; rewrite Hnot in E; [discriminate|];
                   simpl in Ht0; decompose [or] Ht0; try contradiction;
                   match goal with
                   | H : _ = dtype_type x0 |- _ => rewrite <- H
                   end; reflexivity
                 | idtac ]
             | ]
         | |- context [if ?h && all_issubclass arrays ?cs then _ else _] =>
             rewrite (Hnot cs), andb_false_r
               by (simpl in Ht0; decompose [or] Ht0; try contradiction;
                   match goal with
                   | H : _ = dtype_type x0 |- _ => rewrite <- H
                   end; reflexivity)
         end.
  right. split; [reflexivity|]. split.
  - unfold all_issubclass in E6.
    destruct (forallb_false_witness _ _ E6) as [x [Hx Hf]].
    exists x. split; [exact Hx|].
    specialize (Hint x Hx). simpl in Hint.
    decompose [or] Hint; try contradiction;
      match goal with
      | H : _ = dtype_type x |- _ => rewrite <- H in Hf |- *
      end; try discriminate Hf; reflexivity.
  - unfold all_issubclass in E7.
    destruct (forallb_false_witness _ _ E7) as [y [Hy Hf]].
    exists y. split; [exact Hy|].
    specialize (Hint y Hy). simpl in Hint.
    decompose [or] Hint; try contradiction;
      match goal with
      | H : _ = dtype_type y |- _ => rewrite <- H in Hf |- *
      end; try discriminate Hf; reflexivity.
Qed.

End PromotionMore.

(** Two tables of types: the same set promotes alike. *)
Lemma uniondtype_set_witness :
  uniondtype true true
    [ndarray int8 []; ndarray uint16 []; ndarray int8 [int_ 1]]
  = uniondtype true true [ndarray uint16 []; ndarray int8 []].
Proof.
  apply (uniondtype_set true true).
  intros t. simpl. tauto.
Defined.

(** Two branches of the class [longlong]. *)
Lemma uniondtype_homogeneous_witness :
  uniondtype true true
    [ndarray longlong [int_ 1]; ndarray longlong []]
  = float64.
Proof.
  apply (uniondtype_homogeneous true true
           [ndarray longlong [int_ 1]; ndarray longlong []] longlong).
  - discriminate.
  - intros x [<- | [<- | []]]; reflexivity.
Defined.

Lemma uniondtype_integers_witness :
  (In (uniondtype true true [ndarray uint64 []; ndarray int8 []])
      [int8; uint8; int16; uint16; int32; uint32; int64; uint64]
   /\ forall x, In x [ndarray uint64 []; ndarray int8 []] ->
        iinfo_min (uniondtype true true [ndarray uint64 []; ndarray int8 []])
        <= iinfo_min (dtype_type x)
        /\ numpy.iinfo_max (dtype_type x)
           <= numpy.iinfo_max
                (uniondtype true true [ndarray uint64 []; ndarray int8 []]))
  \/ (uniondtype true true [ndarray uint64 []; ndarray int8 []] = float64
      /\ (exists x, In x [ndarray uint64 []; ndarray int8 []]
                    /\ dtype_type x = uint64)
      /\ exists y, In y [ndarray uint64 []; ndarray int8 []]
                   /\ numpy.signed (dtype_type y) = true).
Proof.
  apply (uniondtype_integers true true [ndarray uint64 []; ndarray int8 []]).
  - discriminate.
  - intros x [<- | [<- | []]]; simpl; tauto.
Defined.

(** ** Copies with other branches *)

Lemma tuple_getitem_Forall2 {A : Type} (R : A -> A -> Prop) (l l' : list A)
  (t : Z) :
  Forall2 R l l' ->
  (exists c c', tuple_getitem l t = Ok c /\ tuple_getitem l' t = Ok c' /\ R c c')
  \/ (exists e, tuple_getitem l t = Raise e /\ tuple_getitem l' t = Raise e).
Proof.
  intros H. pose proof (Forall2_length H) as Hlen.
  unfold tuple_getitem. rewrite <- Hlen.
  destruct (wrap_index (length l) t) as [p|e]; cbn [bind];
    [|right; exists e; split; reflexivity].
  clear Hlen. revert p.
  induction H as [|x y l l' Hxy _ IH]; intros p.
  - right. destruct p; eexists; split; reflexivity.
  - destruct p as [|p]; simpl.
    + left. exists x, y. repeat split. exact Hxy.
    + apply IH.
Qed.

Section CopyFacts.

Context {B : Type} {branch : BranchArray B}.

(** Validity looks at the branches through their number and their lengths
    only. *)
Lemma valid_same_lengths (u u' : UnionArray B) :
  _tags u' = _tags u ->
  _index u' = _index u ->
  Forall2 (fun c c' => len c' = len c) (_contents u) (_contents u') ->
  _valid u' = _valid u.
Proof.
  intros Ht Hi Hc. unfold _valid. rewrite Ht, Hi, <- (Forall2_length Hc).
  destruct check_whole_valid; [|reflexivity].
  destruct (_ <? _)%nat; [reflexivity|].
  destruct (negb _); [reflexivity|].
  rewrite (for_each_ext
             (valid_tag u' (firstn (length (_tags u)) (_index u)))
             (valid_tag u (firstn (length (_tags u)) (_index u))));
    [reflexivity|].
  intros t. unfold valid_tag. rewrite Ht.
  destruct (numpy.getitem_mask _ _) as [sel|e]; cbn [bind]; [|reflexivity].
  destruct (numpy.max sel) as [m|e]; cbn [bind]; [|reflexivity].
  destruct (tuple_getitem_Forall2 _ _ _ t Hc)
    as [(c & c' & -> & -> & Hlen) | (e & -> & ->)]; cbn [bind];
    [rewrite Hlen|]; reflexivity.
Qed.

Lemma map_result_Forall2 {A C : Type} (g : A -> result C) (xs : list A)
  (ys : list C) :
  Forall2 (fun x y => g x = Ok y) xs ys -> map_result g xs = Ok ys.
Proof.
  induction 1 as [|x y xs ys Hxy _ IH]; [reflexivity|].
  cbn [map_result]. rewrite Hxy. cbn [bind]. rewrite IH. reflexivity.
Qed.

(** The body that [empty_like], [zeros_like], [ones_like], [astype] and
    [fillna] share.  When the operation succeeds on every branch, the copy
    has the tags and the index of the original and the new branches; when
    the operation moreover keeps the length of every branch, the copy is as
    valid as the original. *)
Theorem copy_with_contents_valid (g : B -> result B) (u : UnionArray B)
  (cs : list B) :
  _contents u <> [] ->
  Forall2 (fun c c' => g c = Ok c' /\ len c' = len c) (_contents u) cs ->
  copy_with_contents g u
  = Ok {| _tags := _tags u; _index := _index u; _contents := cs |}
  /\ _valid {| _tags := _tags u; _index := _index u; _contents := cs |}
     = _valid u.
Proof.
  intros Hne H. split.
  - unfold copy_with_contents.
    rewrite (map_result_Forall2 g (_contents u) cs)
      by (eapply Forall2_impl; [|exact H]; intros a b [Hab _]; exact Hab).
    cbn [bind]. unfold copy. cbn [bind].
    assert (Hcs : cs <> []).
    { intros ->. inversion H. congruence. }
    rewrite (proj2 (set_contents_ok B cs cs) (conj eq_refl Hcs)).
    reflexivity.
  - apply valid_same_lengths; cbn [_tags _index _contents]; try reflexivity.
    eapply Forall2_impl; [|exact H]. intros a b [_ Hab]. exact Hab.
Qed.

(** After [astype] to a type that promotes to itself, the type of the union
    is that type. *)
Theorem astype_dtype (h128 h256 : bool) (branch_astype : B -> result B)
  (t : scalar_type) (u u' : UnionArray B) :
  (forall c c', branch_astype c = Ok c' -> dtype_type c' = t) ->
  In t [bool_; int8; uint8; int16; uint16; int32; uint32; int64; uint64;
        float16; float32; float64; complex64; complex128; object_] ->
  astype branch_astype u = Ok u' ->
  dtype h128 h256 u' = t.
Proof.
  intros Hg Ht H. unfold astype, copy_with_contents in H.
  destruct (map_result branch_astype (_contents u)) as [cs|e] eqn:Ecs;
    cbn [bind] in H; [|discriminate].
  unfold copy in H. cbn [bind] in H.
  destruct (set_contents cs) as [cs'|e] eqn:Es; cbn [bind] in H;
    [|discriminate].
  apply set_contents_ok in Es. destruct Es as [-> Hne].
  inversion H; subst u'. unfold dtype. cbn [_contents].
  assert (Hall : forall x, In x cs -> dtype_type x = t).
  { intros x Hx. apply map_result_ok in Ecs.
    clear H Hne. induction Ecs as [|a b xs ys Hab _ IH]; [destruct Hx|].
    destruct Hx as [<- | Hx]; [exact (Hg _ _ Hab) | exact (IH Hx)]. }
  unfold uniondtype.
  rewrite !(all_issubclass_same cs t) by assumption.
  simpl in Ht.
  decompose [or] Ht; try contradiction; subst t; destruct h128, h256;
    reflexivity.
Qed.

End CopyFacts.

(** ** Reading a field when every branch is in use *)

Section FieldReadFacts.

Context {B : Type} {branch : BranchArray B}.

Lemma map_result_each_branch (g : B -> result B) (suffix : list B) :
  forall prefix : list B,
    map_result (fun tag => content <- tuple_getitem (prefix ++ suffix) tag ;;
                           g content)
      (map Z.of_nat (seq (length prefix) (length suffix)))
    = map_result g suffix.
Proof.
  induction suffix as [|c suffix IH]; intros prefix; [reflexivity|].
  cbn [length seq map map_result].
  unfold tuple_getitem at 1.
  rewrite wrap_index_nonneg by (rewrite length_app; simpl; lia).
  cbn [bind]. rewrite Nat2Z.id, nth_error_app2 by lia.
  rewrite Nat.sub_diag. cbn [nth_error bind].
  destruct (g c) as [c'|e]; cbn [bind]; [|reflexivity].
  specialize (IH (prefix ++ [c])).
  rewrite <- app_assoc, length_app in IH. cbn [app length] in IH.
  rewrite Nat.add_1_r in IH. rewrite IH. reflexivity.
Qed.

(** When the distinct tags are [0, 1, ..., len(contents) - 1], so that
    every branch is in use, a field-name read of a valid array returns the
    union of the projections of all the branches, in their order, under the
    same tags and index; it is valid when the projections are as long as the
    branches they come from. *)
Theorem field_read_all_branches (u : UnionArray B) (names : stringslice)
  (cs : list B) :
  _valid u = Ok tt ->
  _contents u <> [] ->
  numpy.unique (_tags u) = numpy.arange (length (_contents u)) ->
  Forall2 (fun c c' => getitem_fields c names = Ok c' /\ len c' = len c)
    (_contents u) cs ->
  __getitem__ u (where_fields names)
  = Ok (ret_union {| _tags := _tags u; _index := _index u; _contents := cs |})
  /\ _valid {| _tags := _tags u; _index := _index u; _contents := cs |}
     = Ok tt.
Proof.
  intros Hv Hne Hu H.
  assert (Hcs : cs <> []).
  { intros ->. inversion H. congruence. }
  split.
  - unfold __getitem__. rewrite Hv, Hu. cbn [bind].
    unfold numpy.arange.
    rewrite (map_result_each_branch (fun c => getitem_fields c names)
               (_contents u) []).
    rewrite (map_result_Forall2 _ (_contents u) cs)
      by (eapply Forall2_impl; [|exact H]; intros a b [Hab _]; exact Hab).
    cbn [bind].
    destruct cs as [|c cs]; [congruence|].
    cbn [length Nat.eqb]. unfold copy. cbn [bind].
    rewrite (proj2 (set_contents_ok B (c :: cs) (c :: cs))
               (conj eq_refl Hcs)).
    reflexivity.
  - rewrite <- Hv. apply valid_same_lengths; cbn [_tags _index _contents];
      try reflexivity.
    eapply Forall2_impl; [|exact H]. intros a b [_ Hab]. exact Hab.
Qed.

End FieldReadFacts.

(** ** What a write or a delete leaves alone *)

Section SharedFacts.

Context {B : Type} {branch : BranchArray B} {indexed : Indexed B}.

Lemma store_other (h : shared.heap B) (r r' : nat) (x : B) :
  r' <> r -> shared.store h r x r' = h r'.
Proof.
  intros H. unfold shared.store.
  destruct (r' =? r)%nat eqn:E; [apply Nat.eqb_eq in E; contradiction|].
  reflexivity.
Qed.

Lemma store_same (h : shared.heap B) (r : nat) (x : B) :
  shared.store h r x r = x.
Proof. unfold shared.store. rewrite Nat.eqb_refl. reflexivity. Qed.

(** A loop whose turns leave the object [r] alone leaves it alone. *)
Lemma mutate_each_keeps (body : (shared.heap B) -> Z -> result (shared.heap B))
  (r : nat) (todo : list Z) :
  (forall h t h', In t todo -> body h t = Ok h' -> h' r = h r) ->
  forall h, fst (shared.mutate_each body todo h) r = h r.
Proof.
  induction todo as [|t todo IH]; intros Hbody h; [reflexivity|].
  cbn [shared.mutate_each].
  destruct (body h t) as [h'|e] eqn:E; [|reflexivity].
  rewrite IH by (intros h0 t0 h0' Hin; apply Hbody; right; exact Hin).
  apply (Hbody h t h' (or_introl eq_refl) E).
Qed.

Lemma setitem_tag_keeps (self : UnionArray nat) (name : string) (what : B)
  (h h' : shared.heap B) (t : Z) (r : nat) :
  tuple_getitem (_contents self) t <> Ok r ->
  shared.setitem_tag self name what h t = Ok h' ->
  h' r = h r.
Proof.
  intros Hr H. unfold shared.setitem_tag in H.
  destruct (numpy.getitem_mask _ _); cbn [bind] in H; [|discriminate].
  destruct (invert _); cbn [bind] in H; [|discriminate].
  destruct (tuple_getitem (_contents self) t) as [r0|e]; cbn [bind] in H;
    [|discriminate].
  destruct (setitem_field _ _ _); cbn [bind] in H; [|discriminate].
  inversion H. apply store_other. congruence.
Qed.

Lemma delitem_tag_keeps (self : UnionArray nat) (name : string)
  (h h' : shared.heap B) (t : Z) (r : nat) :
  tuple_getitem (_contents self) t <> Ok r ->
  shared.delitem_tag self name h t = Ok h' ->
  h' r = h r.
Proof.
  intros Hr H. unfold shared.delitem_tag in H.
  destruct (tuple_getitem (_contents self) t) as [r0|e]; cbn [bind] in H;
    [|discriminate].
  destruct (delitem_field _ _); cbn [bind] in H; [|discriminate].
  inversion H. apply store_other. congruence.
Qed.

(** With one object per position, mutating an object is replacing the
    value at its position. *)
Lemma view_store (h : shared.heap B) (refs : list nat) (p r : nat) (x : B) :
  NoDup refs ->
  nth_error refs p = Some r ->
  shared.view (shared.store h r x) refs
  = replace_nth (shared.view h refs) p x.
Proof.
  intros Hnd. revert p. induction Hnd as [|a refs Ha Hnd IH]; intros p Hp.
  - destruct p; discriminate Hp.
  - destruct p as [|p]; simpl in Hp.
    + inversion Hp; subst a. simpl. rewrite store_same. f_equal.
      apply map_ext_in. intros r' Hr'. apply store_other. congruence.
    + simpl. rewrite (IH p Hp). f_equal. apply store_other.
      intros ->. apply Ha. eapply nth_error_In. exact Hp.
Qed.

Lemma tuple_getitem_view (h : shared.heap B) (refs : list nat) (t : Z) :
  tuple_getitem (shared.view h refs) t
  = (r <- tuple_getitem refs t ;; Ok (h r)).
Proof.
  unfold tuple_getitem, shared.view. rewrite length_map.
  destruct (wrap_index (length refs) t) as [p|e]; cbn [bind]; [|reflexivity].
  rewrite nth_error_map.
  destruct (nth_error refs p); reflexivity.
Qed.

Lemma tuple_getitem_position {A : Type} (l : list A) (t : Z) (x : A) :
  tuple_getitem l t = Ok x ->
  exists p, wrap_index (length l) t = Ok p /\ nth_error l p = Some x.
Proof.
  unfold tuple_getitem. intros H.
  destruct (wrap_index (length l) t) as [p|e]; cbn [bind] in H;
    [|discriminate].
  exists p. split; [reflexivity|].
  destruct (nth_error l p); inversion H; reflexivity.
Qed.

Lemma setitem_tag_values (self : UnionArray nat) (name : string) (what : B)
  (h : shared.heap B) (t : Z) :
  NoDup (_contents self) ->
  setitem_tag (shared.values self h) name what
    (shared.view h (_contents self)) t
  = (h' <- shared.setitem_tag self name what h t ;;
     Ok (shared.view h' (_contents self))).
Proof.
  intros Hnd. unfold setitem_tag, shared.setitem_tag. cbn [shared.values _tags _index].
  destruct (numpy.getitem_mask _ _) as [sel|e]; cbn [bind]; [|reflexivity].
  destruct (invert sel) as [inv|e]; cbn [bind]; [|reflexivity].
  rewrite tuple_getitem_view.
  destruct (tuple_getitem (_contents self) t) as [r|e] eqn:Er; cbn [bind];
    [|reflexivity].
  destruct (setitem_field (h r) name (IndexedArray inv what)) as [c'|e];
    cbn [bind]; [|reflexivity].
  destruct (tuple_getitem_position _ _ _ Er) as (p & Hp & Hnth).
  unfold shared.view at 1. rewrite length_map, Hp. cbn [bind].
  rewrite (view_store h _ p r c' Hnd Hnth). reflexivity.
Qed.

Lemma delitem_tag_values (self : UnionArray nat) (name : string)
  (h : shared.heap B) (t : Z) :
  NoDup (_contents self) ->
  delitem_tag name (shared.view h (_contents self)) t
  = (h' <- shared.delitem_tag self name h t ;;
     Ok (shared.view h' (_contents self))).
Proof.
  intros Hnd. unfold delitem_tag, shared.delitem_tag.
  rewrite tuple_getitem_view.
  destruct (tuple_getitem (_contents self) t) as [r|e] eqn:Er; cbn [bind];
    [|reflexivity].
  destruct (delitem_field (h r) name) as [c'|e]; cbn [bind]; [|reflexivity].
  destruct (tuple_getitem_position _ _ _ Er) as (p & Hp & Hnth).
  unfold shared.view at 1. rewrite length_map, Hp. cbn [bind].
  rewrite (view_store h _ p r c' Hnd Hnth). reflexivity.
Qed.

Lemma mutate_each_values (refs : list nat)
  (body : list B -> Z -> result (list B))
  (body' : (shared.heap B) -> Z -> result (shared.heap B)) (todo : list Z) :
  (forall h t,
      body (shared.view h refs) t
      = (h' <- body' h t ;; Ok (shared.view h' refs))) ->
  forall h,
    mutate_each body todo (shared.view h refs)
    = (shared.view (fst (shared.mutate_each body' todo h)) refs,
       snd (shared.mutate_each body' todo h)).
Proof.
  intros Hbody. induction todo as [|t todo IH]; intros h; [reflexivity|].
  cbn [mutate_each shared.mutate_each]. rewrite Hbody.
  destruct (body' h t) as [h'|e]; cbn [bind]; [apply IH | reflexivity].
Qed.

(** Writing or deleting a field, whether it completes or stops with an
    exception half way, leaves every branch object that no tag names as it
    was, also when an object sits at several positions of [contents]; the
    tuple itself is never assigned to.  When no object sits at two
    positions, what the holder of the tuple sees afterwards, and the
    exception if there is one, are those of [__setitem__] and [__delitem__]
    on the values. *)
Theorem field_write_frame (self : UnionArray nat) (h : shared.heap B)
  (key : write_key) (what : B) :
  (forall r,
      (forall t, In t (_tags self) ->
         tuple_getitem (_contents self) t <> Ok r) ->
      fst (shared.__setitem__ self h key what) r = h r
      /\ fst (shared.__delitem__ self h key) r = h r)
  /\ (NoDup (_contents self) ->
      __setitem__ (shared.values self h) key what
      = (shared.view (fst (shared.__setitem__ self h key what))
           (_contents self),
         snd (shared.__setitem__ self h key what))
      /\ __delitem__ (shared.values self h) key
         = (shared.view (fst (shared.__delitem__ self h key))
              (_contents self),
            snd (shared.__delitem__ self h key))).
Proof.
  split.
  - intros r Hr.
    assert (Hr' : forall t, In t (numpy.unique (_tags self)) ->
                    tuple_getitem (_contents self) t <> Ok r).
    { intros t Ht. apply Hr. apply unique_In. exact Ht. }
    split.
    + unfold shared.__setitem__.
      destruct (negb _); [reflexivity|].
      destruct key as [name|]; [|reflexivity].
      apply mutate_each_keeps. intros h0 t h0' Ht.
      apply setitem_tag_keeps. apply Hr'. exact Ht.
    + unfold shared.__delitem__.
      destruct key as [name|]; [|reflexivity].
      apply mutate_each_keeps. intros h0 t h0' Ht.
      apply delitem_tag_keeps. apply Hr'. exact Ht.
  - intros Hnd. split.
    + unfold __setitem__, shared.__setitem__. cbn [shared.values _tags _contents].
      destruct (negb _); [reflexivity|].
      destruct key as [name|]; [|reflexivity].
      apply mutate_each_values. intros h0 t.
      exact (setitem_tag_values self name what h0 t Hnd).
    + unfold __delitem__, shared.__delitem__. cbn [shared.values _tags _contents].
      destruct key as [name|]; [|reflexivity].
      apply mutate_each_values. intros h0 t.
      exact (delitem_tag_values self name h0 t Hnd).
Qed.

End SharedFacts.

(** ** Gathering the branches into one array *)

Lemma eq_scalar_true (tags : list Z) (t : Z) (i : nat) :
  nth i (numpy.eq_scalar tags t) false = true ->
  (i < length tags)%nat /\ nth i tags 0 = t.
Proof.
  intros H.
  destruct (Nat.lt_ge_cases i (length tags)) as [Hi|Hi].
  - split; [exact Hi|]. rewrite eq_scalar_nth in H by exact Hi.
    apply Z.eqb_eq. exact H.
  - rewrite nth_overflow in H by (rewrite eq_scalar_length; exact Hi).
    discriminate.
Qed.

Lemma eq_scalar_disjoint (tags : list Z) (t t' : Z) :
  t <> t' -> disjoint (numpy.eq_scalar tags t) (numpy.eq_scalar tags t').
Proof.
  intros Hne i H1 H2.
  apply eq_scalar_true in H1, H2. destruct H1 as [_ H1], H2 as [_ H2].
  congruence.
Qed.

(** Two arrays that agree at the set places agree behind the mask. *)
Lemma compress_agree {A : Type} (d : A) (mask : list bool) :
  forall a b : list A,
    length a = length mask -> length b = length mask ->
    (forall i, nth i mask false = true -> nth i a d = nth i b d) ->
    numpy.compress mask a = numpy.compress mask b.
Proof.
  induction mask as [|m mask IH]; intros a b Ha Hb H; [reflexivity|].
  destruct a as [|x a]; [discriminate Ha|].
  destruct b as [|y b]; [discriminate Hb|].
  injection Ha as Ha. injection Hb as Hb.
  assert (Hrest : numpy.compress mask a = numpy.compress mask b).
  { apply IH; [exact Ha | exact Hb |]. intros i Hi. exact (H (S i) Hi). }
  simpl. rewrite Hrest. destruct m; [|reflexivity].
  f_equal. exact (H 0%nat eq_refl).
Qed.

Lemma compress_ext_any {A : Type} (tags : list Z) :
  forall a b : list A,
    length a = length tags -> length b = length tags ->
    (forall t, In t tags ->
       numpy.compress (numpy.eq_scalar tags t) a
       = numpy.compress (numpy.eq_scalar tags t) b) ->
    a = b.
Proof.
  induction tags as [|x tags IH]; intros [|y a] [|z b] Ha Hb H;
    simpl in *; try discriminate; [reflexivity|].
  assert (Hx := H x (or_introl eq_refl)). simpl in Hx.
  rewrite Z.eqb_refl in Hx. inversion Hx; subst. f_equal.
  apply IH; [lia | lia |].
  intros t Ht. specialize (H t (or_intror Ht)). simpl in H.
  destruct (x =? t); [now inversion H | exact H].
Qed.

(** Writing, for every tag below [K] in turn, the entries of [target]
    behind the mask of the tag builds [target]. *)
Lemma scatter_all {A : Type} (tags : list Z) (target : list A) (K : nat) :
  length target = length tags ->
  (forall t, In t tags -> 0 <= t < Z.of_nat K) ->
  forall o, length o = length tags ->
    fold_left (fun o k =>
                 numpy.place (numpy.eq_scalar tags (Z.of_nat k)) o
                   (numpy.compress (numpy.eq_scalar tags (Z.of_nat k)) target))
      (seq 0 K) o
    = target.
Proof.
  intros Htarget Hrange o Ho.
  set (step := fun o k =>
                 numpy.place (numpy.eq_scalar tags (Z.of_nat k)) o
                   (numpy.compress (numpy.eq_scalar tags (Z.of_nat k)) target)).
  assert (Hinv : forall k,
            length (fold_left step (seq 0 k) o) = length tags
            /\ forall t, (t < k)%nat ->
                 numpy.compress (numpy.eq_scalar tags (Z.of_nat t))
                   (fold_left step (seq 0 k) o)
                 = numpy.compress (numpy.eq_scalar tags (Z.of_nat t)) target).
  { induction k as [|k [IHlen IHsel]]; [split; [exact Ho | lia]|].
    rewrite seq_S, fold_left_app. cbn [fold_left Nat.add]. unfold step at 1 3.
    split; [rewrite place_length; exact IHlen|].
    intros t Ht. destruct (Nat.eq_dec t k) as [->|Hne].
    - apply compress_place_same.
      + rewrite eq_scalar_length. symmetry. exact IHlen.
      + apply compress_length. rewrite eq_scalar_length. symmetry.
        exact Htarget.
    - rewrite compress_place_disjoint
        by (apply eq_scalar_disjoint; lia).
      apply IHsel. lia. }
  destruct (Hinv K) as [Hlen Hsel].
  apply (compress_ext_any tags); [exact Hlen | exact Htarget |].
  intros t Ht. specialize (Hrange t Ht).
  rewrite <- (Z2Nat.id t) by lia. apply Hsel. lia.
Qed.

Lemma wrap_index_all (n : nat) (sel : list Z) :
  Forall (fun x => 0 <= x < Z.of_nat n) sel ->
  map_result (wrap_index n) sel = Ok (map Z.to_nat sel).
Proof.
  induction 1 as [|x sel Hx _ IH]; [reflexivity|].
  cbn [map_result map]. rewrite wrap_index_nonneg by exact Hx.
  cbn [bind]. rewrite IH. reflexivity.
Qed.

(** Behind the mask of a tag, fancy indexing of the branch with the
    selected index entries picks the entry of every place. *)
Lemma gather_mask {A : Type} (d : A) (tags index : list Z) (t : Z)
  (data : list A) :
  length index = length tags ->
  (forall i, (i < length tags)%nat -> nth i tags 0 = t ->
     0 <= nth i index 0 < Z.of_nat (length data)) ->
  map_result (wrap_index (length data))
    (numpy.compress (numpy.eq_scalar tags t) index)
  = Ok (map Z.to_nat (numpy.compress (numpy.eq_scalar tags t) index))
  /\ map (fun p => nth p data d)
       (map Z.to_nat (numpy.compress (numpy.eq_scalar tags t) index))
     = numpy.compress (numpy.eq_scalar tags t)
         (map (fun ix => nth (Z.to_nat ix) data d) index).
Proof.
  intros Hlen Hrange. split.
  - apply wrap_index_all. apply Forall_forall. intros x Hx.
    destruct (compress_In_nth (numpy.eq_scalar tags t) index x 0
                ltac:(rewrite eq_scalar_length; symmetry; exact Hlen) Hx)
      as (i & Hi & Hb & <-).
    apply eq_scalar_true in Hb. destruct Hb as [Hi' Ht].
    exact (Hrange i Hi' Ht).
  - rewrite map_map, compress_map. reflexivity.
Qed.

(** *** [counts] and [regular] *)

Section GatherFacts.

Context {B : Type} {branch : BranchArray B}.

Variable util : B -> result (list Z).
Variable cast : Z -> Z.

Lemma Forall2_nth_error_right {A C : Type} (R : A -> C -> Prop) (l : list A)
  (l' : list C) (k : nat) (y : C) :
  Forall2 R l l' -> nth_error l' k = Some y ->
  exists x, nth_error l k = Some x /\ R x y.
Proof.
  intros H. revert k. induction H as [|a b l l' Hab _ IH]; intros k Hk.
  - destruct k; discriminate Hk.
  - destruct k as [|k]; simpl in Hk.
    + inversion Hk; subst y. exists a. split; [reflexivity | exact Hab].
    + exact (IH k Hk).
Qed.

Lemma gather_step_ok (u : UnionArray B) (arrays : list (list Z))
  (out : list Z) (k : nat) (a : list Z) :
  constructed u ->
  _valid u = Ok tt ->
  length (_index u) = length (_tags u) ->
  Forall2 (fun c a => length a = len c) (_contents u) arrays ->
  nth_error arrays k = Some a ->
  length out = length (_tags u) ->
  gather_step cast u out (k, a)
  = Ok (numpy.place (numpy.eq_scalar (_tags u) (Z.of_nat k)) out
          (numpy.compress (numpy.eq_scalar (_tags u) (Z.of_nat k))
             (map (gathered arrays cast u) (seq 0 (length (_tags u)))))).
Proof.
  intros (t0 & i0 & c0 & Hinit) Hv Hlen Harr Hk Hout.
  destruct (init_ok _ _ _ _ _ Hinit) as (_ & Hnonneg & _).
  rewrite Forall_forall in Hnonneg.
  destruct (Forall2_nth_error_right _ _ _ k a Harr Hk) as (c & Hc & Hac).
  assert (Hrange : forall i, (i < length (_tags u))%nat ->
            nth i (_tags u) 0 = Z.of_nat k ->
            0 <= nth i (_index u) 0 < Z.of_nat (length a)).
  { intros i Hi Ht.
    destruct (valid_position u i Hv Hi) as (Hi' & c' & Hc' & Hlt).
    rewrite Ht in Hc'.
    assert (Hkl : (k < length (_contents u))%nat)
      by (apply nth_error_Some; congruence).
    rewrite (tuple_getitem_nth _ k c Hkl) in Hc'.
    rewrite (nth_error_nth _ _ c Hc) in Hc'. inversion Hc'; subst c'.
    rewrite Hac.
    split; [apply Hnonneg, nth_In, Hi' | exact Hlt]. }
  destruct (gather_mask 0 (_tags u) (_index u) (Z.of_nat k) a
              Hlen Hrange) as [Hwrap Hpick].
  unfold gather_step, numpy.getitem_mask.
  rewrite eq_scalar_length, Hlen, Nat.eqb_refl. cbn [bind].
  unfold ndarray_getitem. cbn [positions]. rewrite Hwrap. cbn [bind take].
  rewrite Hpick.
  assert (Hsame :
    numpy.compress (numpy.eq_scalar (_tags u) (Z.of_nat k))
      (map cast (map (fun ix => nth (Z.to_nat ix) a 0) (_index u)))
    = numpy.compress (numpy.eq_scalar (_tags u) (Z.of_nat k))
        (map (gathered arrays cast u) (seq 0 (length (_tags u))))).
  { apply (compress_agree 0).
    - rewrite eq_scalar_length, !length_map. exact Hlen.
    - rewrite eq_scalar_length, length_map, length_seq. reflexivity.
    - intros i Hb. apply eq_scalar_true in Hb. destruct Hb as [Hi Ht].
      rewrite map_map.
      rewrite (nth_map_lt _ (_index u) i 0 0) by lia.
      rewrite (nth_map_lt _ (seq 0 (length (_tags u))) i 0 0%nat)
        by (rewrite length_seq; exact Hi).
      rewrite seq_nth by exact Hi. cbn [Nat.add].
      unfold gathered. rewrite Ht, Nat2Z.id.
      rewrite (nth_error_nth _ _ [] Hk). reflexivity. }
  rewrite <- compress_map, Hsame.
  unfold numpy.setitem_mask.
  rewrite eq_scalar_length, Hout, Nat.eqb_refl. cbn [negb].
  rewrite compress_length
    by (rewrite eq_scalar_length, length_map, length_seq; reflexivity).
  rewrite Nat.eqb_refl. reflexivity.
Qed.

Lemma gather_loop (u : UnionArray B) (arrays : list (list Z)) :
  constructed u ->
  _valid u = Ok tt ->
  length (_index u) = length (_tags u) ->
  Forall2 (fun c a => length a = len c) (_contents u) arrays ->
  forall (suffix prefix : list (list Z)) (out : list Z),
    arrays = prefix ++ suffix ->
    length out = length (_tags u) ->
    fold_result (gather_step cast u)
      (combine (seq (length prefix) (length suffix)) suffix) out
    = Ok (fold_left
            (fun o k =>
               numpy.place (numpy.eq_scalar (_tags u) (Z.of_nat k)) o
                 (numpy.compress (numpy.eq_scalar (_tags u) (Z.of_nat k))
                    (map (gathered arrays cast u)
                       (seq 0 (length (_tags u))))))
            (seq (length prefix) (length suffix)) out).
Proof.
  intros Hc Hv Hlen Harr.
  induction suffix as [|a suffix IH]; intros prefix out Hu Hout;
    [reflexivity|].
  cbn [length seq combine fold_result fold_left].
  rewrite (gather_step_ok u arrays out (length prefix) a Hc Hv Hlen Harr)
    by (try exact Hout; rewrite Hu, nth_error_app2, Nat.sub_diag by lia;
        reflexivity).
  cbn [bind].
  specialize (IH (prefix ++ [a])).
  rewrite length_app in IH. cbn [length] in IH. rewrite Nat.add_1_r in IH.
  apply IH.
  - rewrite <- app_assoc. exact Hu.
  - rewrite place_length. exact Hout.
Qed.

(** On a valid array whose index is as long as its tags, and for whose
    branches the helper returns arrays as long as the branches, [counts]
    and [regular] return, at every place, the entry that the index names in
    the array of the branch that the tag names. *)
Theorem counts_gathers (u : UnionArray B) (arrays : list (list Z)) :
  constructed u ->
  _valid u = Ok tt ->
  length (_index u) = length (_tags u) ->
  Forall2 (fun c a => util c = Ok a /\ length a = len c) (_contents u) arrays ->
  counts util cast u = Ok (map (gathered arrays cast u) (seq 0 (__len__ u)))
  /\ regular util cast u
     = Ok (map (gathered arrays cast u) (seq 0 (__len__ u))).
Proof.
  intros Hc Hv Hlen Hutil.
  assert (Harr : Forall2 (fun c a => length a = len c) (_contents u) arrays)
    by (eapply Forall2_impl; [|exact Hutil]; intros c a [_ H]; exact H).
  assert (H : gather_branches util cast u
              = Ok (map (gathered arrays cast u) (seq 0 (__len__ u)))).
  { unfold gather_branches. rewrite Hv. cbn [bind].
    rewrite (map_result_Forall2 util (_contents u) arrays)
      by (eapply Forall2_impl; [|exact Hutil]; intros c a [H _]; exact H).
    cbn [bind].
    pose proof (gather_loop u arrays Hc Hv Hlen Harr arrays []
                  (repeat 0 (__len__ u)) eq_refl
                  ltac:(unfold __len__; apply repeat_length)) as Hloop.
    change (length (@nil (list Z))) with 0%nat in Hloop. rewrite Hloop.
    f_equal. unfold __len__.
    rewrite <- (Forall2_length Harr).
    apply scatter_all.
    - rewrite length_map, length_seq. reflexivity.
    - intros t Ht. destruct Hc as (t0 & i0 & c0 & Hinit).
      destruct (init_ok _ _ _ _ _ Hinit) as ((_ & Hst) & _ & _).
      rewrite Forall_forall in Hst. specialize (Hst t Ht).
      pose proof (valid_tags_below u t Hv Ht). lia.
    - apply repeat_length. }
  split; exact H.
Qed.

(** On a valid array whose index is longer than its tags neither returns.
    The arrays of the branches are built first: when the helper raises for a
    branch, that exception comes out, of the first such branch.  When it
    returns an array for every branch, both raise NumPy's [IndexError],
    although the array is valid: they read the whole index through a mask of
    the length of the tags. *)
Theorem counts_longer_index (u : UnionArray B) :
  _valid u = Ok tt ->
  _contents u <> [] ->
  (length (_tags u) < length (_index u))%nat ->
  (forall e,
      map_result util (_contents u) = Raise e ->
      counts util cast u = Raise e /\ regular util cast u = Raise e)
  /\ (forall arrays,
         map_result util (_contents u) = Ok arrays ->
         counts util cast u
         = Raise (IndexError
                    "boolean index did not match indexed array along dimension 0")
         /\ regular util cast u
            = Raise (IndexError
                       "boolean index did not match indexed array along dimension 0")).
Proof.
  intros Hv Hne Hlen. split.
  - intros e He.
    assert (H : gather_branches util cast u = Raise e)
      by (unfold gather_branches; rewrite Hv, He; reflexivity).
    split; exact H.
  - intros arrays Harr.
    assert (H : gather_branches util cast u
                = Raise (IndexError
                    "boolean index did not match indexed array along dimension 0")).
    { unfold gather_branches. rewrite Hv, Harr. cbn [bind].
      pose proof (map_result_length _ _ _ Harr) as Hl.
      destruct arrays as [|a arrays];
        [destruct (_contents u); [congruence | discriminate Hl]|].
      cbn [length seq combine fold_result].
      unfold gather_step, numpy.getitem_mask. rewrite eq_scalar_length.
      destruct (length (_tags u) =? length (_index u))%nat eqn:E;
        [apply Nat.eqb_eq in E; lia | reflexivity]. }
    split; exact H.
Qed.

End GatherFacts.

(** *** [_prepare] and [_reduce] *)

Section AggregationFacts.

Variable cast : scalar_type -> scalar -> scalar.
Variable branch_prepare : scalar -> scalar_type -> content -> result content.
Variables h128 h256 : bool.
Variable u : UnionArray content.
Hypothesis Hflat : flat_union u.
Variable identity : scalar.
Variable dtype' : scalar_type.

Local Abbreviation target := (map (cast dtype') (elements u)).
Local Abbreviation mask_of k := (numpy.eq_scalar (_tags u) (Z.of_nat k)).
Local Abbreviation started out :=
  (match out with
   | Some o => o
   | None => repeat (cast dtype' identity) (length (_tags u))
   end).

Lemma prepare_step_ok (out : option (list scalar)) (k : nat) (c : content) :
  nth_error (_contents u) k = Some c ->
  length (started out) = length (_tags u) ->
  prepare_step cast branch_prepare u identity dtype'
    (firstn (length (_tags u)) (_index u)) out (k, c)
  = Ok (Some (numpy.place (mask_of k) (started out)
                (numpy.compress (mask_of k) target))).
Proof.
  intros Hk Hout. pose proof Hflat as (_ & Hv & Hnd).
  pose proof (valid_index_covers u Hv) as Hcov.
  rewrite Forall_forall in Hnd.
  assert (Hc : is_ndarray c) by (apply Hnd; eapply nth_error_In; exact Hk).
  destruct c as [dt data| |]; try contradiction.
  assert (Hkl : (k < length (_contents u))%nat)
    by (apply nth_error_Some; congruence).
  assert (Hbranch : forall i, (i < length (_tags u))%nat ->
            nth i (_tags u) 0 = Z.of_nat k ->
            0 <= nth i (_index u) 0 < Z.of_nat (length data)
            /\ element_at u i = nth (Z.to_nat (nth i (_index u) 0)) data (int_ 0)).
  { intros i Hi Ht.
    destruct (flat_union_position u i Hflat Hi)
      as (_ & _ & H1 & dt' & data' & _ & Hn & Hlt).
    unfold element_at. rewrite Ht, Nat2Z.id in *.
    rewrite (nth_error_nth _ _ (ndarray int64 []) Hk) in *.
    inversion Hn; subst dt' data'. cbn [branch_data].
    split; [lia | reflexivity]. }
  destruct (gather_mask (int_ 0) (_tags u)
              (firstn (length (_tags u)) (_index u)) (Z.of_nat k) data Hcov)
    as [Hwrap Hpick].
  { intros i Hi Ht. rewrite nth_firstn_lt by exact Hi.
    exact (proj1 (Hbranch i Hi Ht)). }
  unfold prepare_step, numpy.getitem_mask.
  rewrite eq_scalar_length, Hcov, Nat.eqb_refl. cbn [bind content_getitem].
  rewrite Hwrap. cbn [bind]. rewrite Hpick.
  assert (Hsame :
    map (cast dtype')
      (numpy.compress (mask_of k)
         (map (fun ix => nth (Z.to_nat ix) data (int_ 0))
            (firstn (length (_tags u)) (_index u))))
    = numpy.compress (mask_of k) target).
  { rewrite <- compress_map. apply (compress_agree (cast dtype' (int_ 0))).
    - rewrite eq_scalar_length, !length_map. exact Hcov.
    - rewrite eq_scalar_length, length_map. apply elements_length.
    - intros i Hb. apply eq_scalar_true in Hb. destruct Hb as [Hi Ht].
      rewrite map_map.
      rewrite (nth_map_lt _ (firstn (length (_tags u)) (_index u)) i _ 0)
        by (rewrite Hcov; exact Hi).
      rewrite (nth_map_lt _ (elements u) i _ (int_ 0))
        by (rewrite elements_length; exact Hi).
      rewrite elements_nth by exact Hi.
      rewrite nth_firstn_lt by exact Hi.
      rewrite (proj2 (Hbranch i Hi Ht)). reflexivity. }
  rewrite Hsame.
  unfold numpy.setitem_mask.
  rewrite eq_scalar_length, Hout, Nat.eqb_refl. cbn [negb].
  rewrite compress_length
    by (rewrite eq_scalar_length, length_map; symmetry; apply elements_length).
  rewrite Nat.eqb_refl. reflexivity.
Qed.

Lemma prepare_loop :
  forall (suffix prefix : list content) (out : option (list scalar)),
    _contents u = prefix ++ suffix ->
    length (started out) = length (_tags u) ->
    fold_result
      (prepare_step cast branch_prepare u identity dtype'
         (firstn (length (_tags u)) (_index u)))
      (combine (seq (length prefix) (length suffix)) suffix) out
    = Ok match suffix with
         | [] => out
         | _ :: _ =>
             Some (fold_left
                     (fun o k =>
                        numpy.place (mask_of k) o
                          (numpy.compress (mask_of k) target))
                     (seq (length prefix) (length suffix)) (started out))
         end.
Proof.
  induction suffix as [|c suffix IH]; intros prefix out Hu Hout;
    [reflexivity|].
  cbn [length seq combine fold_result fold_left].
  rewrite (prepare_step_ok out (length prefix) c)
    by (try exact Hout; rewrite Hu, nth_error_app2, Nat.sub_diag by lia;
        reflexivity).
  cbn [bind].
  specialize (IH (prefix ++ [c])).
  rewrite length_app in IH. cbn [length] in IH. rewrite Nat.add_1_r in IH.
  rewrite IH.
  - destruct suffix; reflexivity.
  - rewrite <- app_assoc. exact Hu.
  - rewrite place_length. exact Hout.
Qed.

Lemma prepare_buffer :
  fold_result
    (prepare_step cast branch_prepare u identity dtype'
       (firstn (length (_tags u)) (_index u)))
    (combine (seq 0 (length (_contents u))) (_contents u)) None
  = Ok (Some target).
Proof.
  pose proof Hflat as ((t0 & i0 & c0 & Hinit) & Hv & _).
  destruct (init_ok _ _ _ _ _ Hinit) as ((_ & Hst) & _ & Hne).
  pose proof (prepare_loop (_contents u) [] None eq_refl
                (repeat_length _ _)) as Hloop.
  change (length (@nil content)) with 0%nat in Hloop. rewrite Hloop.
  destruct (_contents u) as [|c cs] eqn:Ec; [congruence|].
  rewrite <- Ec. do 2 f_equal. cbn [length].
  apply scatter_all.
  - rewrite length_map. apply elements_length.
  - intros t Ht. rewrite Forall_forall in Hst. specialize (Hst t Ht).
    pose proof (valid_tags_below u t Hv Ht). lia.
  - apply repeat_length.
Qed.

End AggregationFacts.

Section ReduceFacts.

Variable cast : scalar_type -> scalar -> scalar.
Variable branch_prepare : scalar -> scalar_type -> content -> result content.
Variables h128 h256 : bool.
Variable util_hasjagged : content -> bool.
Variable branch_columns : content -> list string.
Variable branch_reduce : content -> result content.
Variable reduction : Type.
Variable ufunc_reduce : option content -> result reduction.

(** On a valid union of one-dimensional NumPy arrays [_prepare] returns one
    array of the length of the tags that holds, at every place, the element
    of the union at this place, cast to the type of the buffer; no place
    keeps the identity. *)
Theorem prepare_flat (u : UnionArray content) (identity : scalar)
  (identity_type : scalar_type) (dtype_arg : option scalar_type) :
  flat_union u ->
  _prepare cast branch_prepare h128 h256 identity identity_type dtype_arg u
  = Ok (Some (ndarray (prepare_dtype h128 h256 identity_type dtype_arg u)
                (map (cast (prepare_dtype h128 h256 identity_type dtype_arg u))
                   (elements u)))).
Proof.
  intros Hflat. unfold _prepare.
  rewrite (prepare_buffer cast branch_prepare u Hflat). reflexivity.
Qed.

(** So the reduction of such a union is [ufunc.reduce] of its elements in
    their order, provided no NumPy array counts as jagged. *)
Theorem reduce_flat (u : UnionArray content) (identity : scalar)
  (identity_type : scalar_type) (dtype_arg : option scalar_type) :
  flat_union u ->
  (forall c, is_ndarray c -> util_hasjagged c = false) ->
  _reduce cast branch_prepare h128 h256 util_hasjagged branch_columns
    branch_reduce ufunc_reduce identity identity_type dtype_arg u
  = (r <- ufunc_reduce
            (Some (ndarray (prepare_dtype h128 h256 identity_type dtype_arg u)
                     (map (cast (prepare_dtype h128 h256 identity_type
                                   dtype_arg u))
                        (elements u)))) ;;
     Ok (reduced_value r)).
Proof.
  intros Hflat Hjag.
  pose proof Hflat as ((t0 & i0 & c0 & Hinit) & _ & Hnd).
  destruct (init_ok _ _ _ _ _ Hinit) as (_ & _ & Hne).
  unfold _reduce, _prepare.
  rewrite (prepare_buffer cast branch_prepare u Hflat). cbn [bind].
  unfold _hasjagged, columns.
  destruct (_contents u) as [|c cs]; [congruence|].
  inversion Hnd as [|c' cs' Hc Hcs]; subst.
  cbn [forallb columns_loop]. rewrite (Hjag c Hc). cbn [andb].
  destruct c; try contradiction. reflexivity.
Qed.


End ReduceFacts.

(** ** Columns *)

Lemma existsb_filter (p : string -> bool) (x : string) (l : list string) :
  existsb (String.eqb x) (filter p l) = existsb (String.eqb x) l && p x.
Proof.
  induction l as [|y l IH]; [reflexivity|].
  cbn [filter existsb].
  destruct (String.eqb x y) eqn:E.
  - apply String.eqb_eq in E. subst y.
    destruct (p x) eqn:Ep; cbn [existsb orb andb].
    + rewrite String.eqb_refl. reflexivity.
    + rewrite IH. apply andb_false_r.
  - destruct (p y); cbn [existsb orb]; [rewrite E|]; exact IH.
Qed.

Section ColumnsFacts.

Context {B : Type}.

Variable isinstance_ndarray : B -> bool.
Variable branch_columns : B -> list string.

Lemma columns_loop_ndarray (contents : list B) (out : option (list string)) :
  (exists c, In c contents /\ isinstance_ndarray c = true) ->
  columns_loop isinstance_ndarray branch_columns contents out = [].
Proof.
  revert out. induction contents as [|c contents IH]; intros out [x [Hx Hnd]];
    [destruct Hx|].
  cbn [columns_loop].
  destruct (isinstance_ndarray c) eqn:E; [reflexivity|].
  apply IH. exists x. split; [|exact Hnd].
  destruct Hx as [->|Hx]; [congruence | exact Hx].
Qed.

Lemma columns_loop_tables (init : list B) (last : B) :
  forall o : list string,
    (forall c, In c (init ++ [last]) -> isinstance_ndarray c = false) ->
    columns_loop isinstance_ndarray branch_columns (init ++ [last]) (Some o)
    = filter (fun x =>
                existsb (String.eqb x) o
                && forallb (fun c => existsb (String.eqb x) (branch_columns c))
                     init)
        (branch_columns last).
Proof.
  induction init as [|c init IH]; intros o Hnd.
  - cbn [app columns_loop]. rewrite (Hnd last (or_introl eq_refl)).
    apply filter_ext. intros x. cbn [forallb]. rewrite andb_true_r.
    reflexivity.
  - cbn [app columns_loop]. rewrite (Hnd c (or_introl eq_refl)).
    rewrite IH by (intros c' Hc'; apply Hnd; right; exact Hc').
    apply filter_ext. intros x. rewrite existsb_filter. cbn [forallb].
    destruct (existsb (String.eqb x) (branch_columns c)),
             (existsb (String.eqb x) o),
             (forallb _ init); reflexivity.
Qed.

(** The columns of a union.  As soon as one branch is a NumPy array there
    are none.  Otherwise they are the columns of the last branch that every
    other branch has too, in the order, and with the repetitions, of the
    last branch; so a name is a column of the union exactly when it is a
    column of every branch. *)
Theorem columns_common (u : UnionArray B) (init : list B) (last : B) :
  _contents u = init ++ [last] ->
  ((exists c, In c (_contents u) /\ isinstance_ndarray c = true) ->
   columns isinstance_ndarray branch_columns u = [])
  /\ ((forall c, In c (_contents u) -> isinstance_ndarray c = false) ->
      columns isinstance_ndarray branch_columns u
      = filter (fun x =>
                  forallb (fun c => existsb (String.eqb x) (branch_columns c))
                    init)
          (branch_columns last)
      /\ forall x,
           In x (columns isinstance_ndarray branch_columns u)
           <-> forall c, In c (_contents u) -> In x (branch_columns c)).
Proof.
  intros Hu. split; [apply columns_loop_ndarray|].
  intros Hnd.
  assert (Heq : columns isinstance_ndarray branch_columns u
                = filter (fun x =>
                    forallb
                      (fun c => existsb (String.eqb x) (branch_columns c))
                      init)
                    (branch_columns last)).
  { unfold columns. rewrite Hu in *.
    destruct init as [|c init].
    - cbn [app columns_loop]. rewrite (Hnd last (or_introl eq_refl)).
      cbn [columns_loop forallb].
      symmetry. apply forallb_filter_id. apply forallb_forall. reflexivity.
    - cbn [app columns_loop]. rewrite (Hnd c (or_introl eq_refl)).
      rewrite columns_loop_tables
        by (intros c' Hc'; apply Hnd; right; exact Hc').
      apply filter_ext. intros x. cbn [forallb]. reflexivity. }
  split; [exact Heq|].
  intros x. rewrite Heq, filter_In, forallb_forall, Hu.
  assert (Hmem : forall l, existsb (String.eqb x) l = true <-> In x l).
  { intros l. rewrite existsb_exists. split.
    - intros [y [Hy E]]. apply String.eqb_eq in E. subst y. exact Hy.
    - intros Hx. exists x. split; [exact Hx | apply String.eqb_refl]. }
  split.
  - intros [Hlast Hinit] c Hc. apply in_app_or in Hc.
    destruct Hc as [Hc | [<- | []]]; [|exact Hlast].
    apply Hmem, Hinit, Hc.
  - intros H. split.
    + apply H. apply in_or_app. right. left. reflexivity.
    + intros c Hc. apply Hmem, H. apply in_or_app. left. exact Hc.
Qed.

End ColumnsFacts.

(** ** Counting bytes *)

Section NbytesFacts.

Context {B : Type}.

Variable isinstance_ndarray : B -> bool.
Variable nbytes : B -> nat.
Variable branch_getnbytes : B -> list nat -> nat * list nat.





End NbytesFacts.

(** ** What validation accepts *)

Section ValidIff.

Context {B : Type} {branch : BranchArray B}.

Lemma tuple_getitem_below {A : Type} (l : list A) (t : Z) (c : A) :
  tuple_getitem l t = Ok c -> t < Z.of_nat (length l).
Proof.
  unfold tuple_getitem, wrap_index. intros H.
  destruct ((t <? - Z.of_nat (length l)) || (Z.of_nat (length l) <=? t))
    eqn:E; cbn [bind] in H; [discriminate|].
  apply orb_false_iff in E. destruct E as [_ E]. apply Z.leb_gt. exact E.
Qed.

(** Validation accepts an array exactly when the index covers the tags
    and, at every place, the tag names a branch and the index entry is below
    the length of that branch. *)
Theorem valid_iff (u : UnionArray B) :
  _valid u = Ok tt
  <-> (length (_tags u) <= length (_index u))%nat
      /\ forall i, (i < length (_tags u))%nat ->
           exists c, tuple_getitem (_contents u) (nth i (_tags u) 0) = Ok c
                     /\ nth i (_index u) 0 < Z.of_nat (len c).
Proof.
  split.
  - intros Hv. split.
    + pose proof (valid_index_covers u Hv) as Hcov.
      rewrite length_firstn in Hcov. lia.
    + intros i Hi. exact (proj2 (valid_position u i Hv Hi)).
  - intros [Hlen Hpos].
    assert (Hcov : length (firstn (length (_tags u)) (_index u))
                   = length (_tags u))
      by (rewrite length_firstn; lia).
    rewrite valid_unfold.
    assert (Hmax : (if (0 <? length (_tags u))%nat
                    then m <- numpy.max (_tags u) ;;
                         (if Z.of_nat (length (_contents u)) <=? m
                          then Raise (ValueError
                            "maximum tag is {0} but there are only {1} contents arrays")
                          else Ok tt)
                    else Ok tt) = Ok tt).
    { destruct (_tags u) as [|x tags] eqn:Etags; [reflexivity|].
      rewrite <- Etags in *.
      replace (0 <? length (_tags u))%nat with true
        by (rewrite Etags; reflexivity).
      destruct (max_nonempty (_tags u)) as [m Hm]; [congruence|].
      rewrite Hm. cbn [bind]. destruct (max_ok _ _ Hm) as [Hin _].
      destruct (In_nth _ _ 0 Hin) as (i & Hi & Hnth).
      destruct (Hpos i Hi) as (c & Hc & _). rewrite Hnth in Hc.
      apply tuple_getitem_below in Hc.
      replace (Z.of_nat (length (_contents u)) <=? m) with false
        by (symmetry; apply Z.leb_gt; exact Hc).
      reflexivity. }
    rewrite Hmax. cbn [bind]. apply for_each_ok. intros t Ht.
    apply (proj1 (unique_In _ _)) in Ht.
    unfold valid_tag, numpy.getitem_mask.
    rewrite eq_scalar_length, Hcov, Nat.eqb_refl. cbn [bind].
    set (sel := numpy.compress (numpy.eq_scalar (_tags u) t)
                  (firstn (length (_tags u)) (_index u))).
    assert (Hsel : sel <> []).
    { destruct (In_nth _ _ 0 Ht) as (q & Hq & Hnq).
      pose proof (compress_nth_In (numpy.eq_scalar (_tags u) t)
                    (firstn (length (_tags u)) (_index u)) q 0
                    ltac:(now rewrite eq_scalar_length, Hcov)
                    ltac:(rewrite eq_scalar_nth by exact Hq;
                          now apply Z.eqb_eq)) as Hin.
      fold sel in Hin. intros E. rewrite E in Hin. contradiction. }
    destruct (max_nonempty sel Hsel) as [mi Hmi]. rewrite Hmi. cbn [bind].
    destruct (max_ok _ _ Hmi) as [Hmiin _].
    destruct (compress_In_nth (numpy.eq_scalar (_tags u) t)
                (firstn (length (_tags u)) (_index u)) mi 0
                ltac:(now rewrite eq_scalar_length, Hcov) Hmiin)
      as (q & Hq & Hb & Hnq).
    rewrite Hcov in Hq. apply eq_scalar_true in Hb. destruct Hb as [_ Hb].
    rewrite nth_firstn_lt in Hnq by exact Hq.
    destruct (Hpos q Hq) as (c & Hc & Hlt).
    rewrite Hb in Hc. rewrite Hc. cbn [bind].
    replace (Z.of_nat (len c) <=? mi) with false
      by (symmetry; apply Z.leb_gt; lia).
    reflexivity.
Qed.

End ValidIff.

(** ** What the dispatch refuses *)

Section DispatchRefusals.

Context {B : Type} {branch : BranchArray B}.

Variable ufunc : list argument -> result ufunc_result.

Lemma union_tags_loop (inputs : list operand) :
  (forall u, In (op_union u) inputs -> _valid u = Ok tt) ->
  forall tags,
    fold_result
      (fun tags x =>
         match x with
         | op_union u => _valid u ;;; Ok (tags ++ [_tags u])
         | op_other _ => Ok tags
         end)
      inputs tags
    = Ok (tags ++ operand_tags inputs).
Proof.
  induction inputs as [|x inputs IH]; intros Hv tags.
  - cbn. rewrite app_nil_r. reflexivity.
  - cbn [fold_result operand_tags flat_map].
    destruct x as [u|v].
    + rewrite (Hv u (or_introl eq_refl)). cbn [bind].
      rewrite IH by (intros u' Hu'; apply Hv; right; exact Hu').
      rewrite <- app_assoc. reflexivity.
    + cbn [bind]. rewrite IH by (intros u' Hu'; apply Hv; right; exact Hu').
      reflexivity.
Qed.

(** The four ways in which the dispatch declines before it calls the
    operation: an [out] argument, whatever else is given; a method other
    than a plain call, for which the operands are not even validated; no
    union among the operands; and valid unions whose tags differ in length. *)
Theorem dispatch_refusals (method : string) (inputs : list operand) :
  __array_ufunc__ ufunc method inputs true
  = Raise (NotImplementedError "in-place operations not supported")
  /\ (method <> "__call__" ->
      __array_ufunc__ ufunc method inputs false = Ok dispatch_NotImplemented)
  /\ ((forall u, In (op_union u) inputs -> _valid u = Ok tt) ->
      (operand_tags inputs = [] ->
       __array_ufunc__ ufunc "__call__" inputs false = Raise AssertionError)
      /\ forall tags0 others t,
           operand_tags inputs = tags0 :: others ->
           In t others ->
           length t <> length tags0 ->
           __array_ufunc__ ufunc "__call__" inputs false
           = Raise (ValueError
                      "cannot {0} UnionArrays because tag shapes differ")).
Proof.
  split; [reflexivity|]. split.
  - intros Hm. unfold __array_ufunc__.
    replace (String.eqb method "__call__") with false; [reflexivity|].
    symmetry. apply String.eqb_neq. exact Hm.
  - intros Hv.
    assert (Ht : union_tags inputs = Ok (operand_tags inputs)).
    { unfold union_tags. rewrite (union_tags_loop inputs Hv []). reflexivity. }
    split.
    + intros He. unfold __array_ufunc__. cbn [String.eqb Ascii.eqb Bool.eqb negb].
      rewrite Ht, He. reflexivity.
    + intros tags0 others t He Hin Hlen. unfold __array_ufunc__.
      cbn [String.eqb Ascii.eqb Bool.eqb negb]. rewrite Ht, He. cbn [bind].
      replace (existsb _ others) with true; [reflexivity|].
      symmetry. apply existsb_exists. exists t. split; [exact Hin|].
      unfold numpy.shape. cbn [numpy.shape_eqb].
      rewrite andb_true_r. apply negb_true_iff. apply Nat.eqb_neq. exact Hlen.
Qed.

End DispatchRefusals.

(** ** The properties above on the scenarios *)

(** [zeros_like] of the worked example. *)
Lemma copy_with_contents_valid_witness :
  zeros_like isinstance_ndarray example_zeros_like
    (fun _ => Raise (TypeError "not a NumPy array")) example_union
  = Ok {| _tags := [0; 1; 0; 1]; _index := [0; 0; 1; 1];
          _contents := [ndarray int64 [int_ 0; int_ 0];
                        ndarray float64 [float_ 0; float_ 0]] |}
  /\ _valid {| _tags := [0; 1; 0; 1]; _index := [0; 0; 1; 1];
               _contents := [ndarray int64 [int_ 0; int_ 0];
                             ndarray float64 [float_ 0; float_ 0]] |}
     = _valid example_union.
Proof.
  apply (copy_with_contents_valid
           (fun x => if isinstance_ndarray x then example_zeros_like x
                     else Raise (TypeError "not a NumPy array"))
           example_union
           [ndarray int64 [int_ 0; int_ 0];
            ndarray float64 [float_ 0; float_ 0]]).
  - discriminate.
  - repeat constructor.
Defined.

(** The worked example after [astype(numpy.float64)]. *)
Lemma astype_dtype_witness :
  dtype true true
    {| _tags := [0; 1; 0; 1]; _index := [0; 0; 1; 1];
       _contents := [ndarray float64 [float_ (inject_Z 10); float_ (inject_Z 20)];
                     ndarray float64 [float_ 1.5; float_ 2.5]] |}
  = float64.
Proof.
  apply (astype_dtype true true example_astype float64 example_union).
  - intros c c' H. destruct c; try discriminate H. inversion H. reflexivity.
  - simpl. tauto.
  - reflexivity.
Defined.

(** Reading the field ["x"] of the worked example over two tables. *)
Lemma field_read_all_branches_witness :
  __getitem__ example_table_union (where_fields (field "x"))
  = Ok (ret_union {| _tags := [0; 1; 0; 1]; _index := [0; 0; 1; 1];
                     _contents := [ndarray int64 [int_ 1; int_ 2];
                                   ndarray int64 [int_ 3; int_ 4]] |})
  /\ _valid {| _tags := [0; 1; 0; 1]; _index := [0; 0; 1; 1];
               _contents := [ndarray int64 [int_ 1; int_ 2];
                             ndarray int64 [int_ 3; int_ 4]] |}
     = Ok tt.
Proof.
  apply (field_read_all_branches example_table_union (field "x")
           [ndarray int64 [int_ 1; int_ 2]; ndarray int64 [int_ 3; int_ 4]]).
  - reflexivity.
  - discriminate.
  - reflexivity.
  - repeat constructor.
Defined.

(** The object 1, which no tag names, is left alone by a write and by a
    delete; a delete through the tags changes both positions that hold the
    object 0. *)
Lemma field_write_frame_witness :
  (fst (shared.__setitem__ example_shared example_heap (key_field "x")
          (ndarray int64 [int_ 7; int_ 8])) 1%nat
   = example_heap 1%nat
   /\ fst (shared.__delitem__ example_shared example_heap (key_field "x"))
        1%nat
      = example_heap 1%nat)
  /\ shared.view
       (fst (shared.__delitem__ example_shared example_heap (key_field "x")))
       (_contents example_shared)
     = [Table 2 []; Table 2 []; example_table 3 4].
Proof.
  split; [|reflexivity].
  apply (proj1 (field_write_frame example_shared example_heap (key_field "x")
                  (ndarray int64 [int_ 7; int_ 8])) 1%nat).
  intros t [<- | [<- | []]]; discriminate.
Defined.

(** [regular] of the worked example over two integer branches. *)
Lemma counts_gathers_witness :
  regular example_util (fun x => x) example_other
  = Ok (map (gathered [[1; 2]; [3; 4]] (fun x => x) example_other)
          (seq 0 (__len__ example_other))).
Proof.
  apply (proj2 (A := counts example_util (fun x => x) example_other
                     = Ok (map (gathered [[1; 2]; [3; 4]] (fun x => x)
                                  example_other)
                             (seq 0 (__len__ example_other))))).
  apply (counts_gathers example_util (fun x => x) example_other
           [[1; 2]; [3; 4]]).
  - exists [0; 0; 1; 1], [0; 1; 0; 1],
      [ndarray int64 [int_ 1; int_ 2]; ndarray int64 [int_ 3; int_ 4]].
    reflexivity.
  - reflexivity.
  - reflexivity.
  - repeat constructor.
Defined.

(** The same array with a longer index: with a helper that takes NumPy
    arrays [regular] raises [IndexError]; with one that refuses them its
    exception comes first. *)
Lemma counts_longer_index_witness :
  regular example_util (fun x => x) example_other_padded
  = Raise (IndexError
             "boolean index did not match indexed array along dimension 0")
  /\ counts example_refusing_util (fun x => x) example_other_padded
     = Raise (TypeError "not an awkward array").
Proof.
  split.
  - destruct (counts_longer_index example_util (fun x => x)
                example_other_padded) as [_ H];
      [reflexivity | discriminate | simpl; lia |].
    exact (proj2 (H [[1; 2]; [3; 4]] eq_refl)).
  - destruct (counts_longer_index example_refusing_util (fun x => x)
                example_other_padded) as [H _];
      [reflexivity | discriminate | simpl; lia |].
    exact (proj1 (H (TypeError "not an awkward array") eq_refl)).
Defined.

Lemma prepare_flat_witness :
  _prepare (fun _ s => s) (fun _ _ c => Ok c) true true (int_ 0) int64 None
    example_other
  = Ok (Some (ndarray (prepare_dtype true true int64 None example_other)
                (map (fun s => s) (elements example_other)))).
Proof.
  apply (prepare_flat (fun _ s => s) (fun _ _ c => Ok c) true true
           example_other (int_ 0) int64 None).
  exact example_other_flat.
Defined.

Lemma reduce_flat_witness :
  _reduce (fun _ s => s) (fun _ _ c => Ok c) true true (fun _ => false)
    example_columns (fun c => Ok c) example_reduce (int_ 0) int64 None
    example_other
  = (r <- example_reduce
            (Some (ndarray (prepare_dtype true true int64 None example_other)
                     (map (fun s => s) (elements example_other)))) ;;
     Ok (reduced_value r)).
Proof.
  apply (reduce_flat (fun _ s => s) (fun _ _ c => Ok c) true true
           (fun _ => false) example_columns (fun c => Ok c) Z example_reduce
           example_other (int_ 0) int64 None).
  - exact example_other_flat.
  - reflexivity.
Defined.


(** The columns of a union of the two wide tables: ["y"] and ["x"], in the
    order of the second table. *)
Lemma columns_common_witness :
  ((exists c, In c example_wide_tables /\ isinstance_ndarray c = true) ->
   columns isinstance_ndarray example_columns
     {| _tags := [0; 1]; _index := [0; 0]; _contents := example_wide_tables |}
   = [])
  /\ ((forall c, In c example_wide_tables -> isinstance_ndarray c = false) ->
      columns isinstance_ndarray example_columns
        {| _tags := [0; 1]; _index := [0; 0];
           _contents := example_wide_tables |}
      = filter (fun x =>
                  forallb (fun c => existsb (String.eqb x) (example_columns c))
                    [Table 2 [("x", ndarray int64 [int_ 1; int_ 2]);
                              ("y", ndarray int64 [int_ 3; int_ 4])]])
          ["y"; "z"; "x"]
      /\ forall x,
           In x (columns isinstance_ndarray example_columns
                   {| _tags := [0; 1]; _index := [0; 0];
                      _contents := example_wide_tables |})
           <-> forall c, In c example_wide_tables -> In x (example_columns c)).
Proof.
  apply (columns_common isinstance_ndarray example_columns
           {| _tags := [0; 1]; _index := [0; 0];
              _contents := example_wide_tables |}
           [Table 2 [("x", ndarray int64 [int_ 1; int_ 2]);
                     ("y", ndarray int64 [int_ 3; int_ 4])]]
           (Table 2 [("y", ndarray int64 [int_ 5; int_ 6]);
                     ("z", ndarray int64 [int_ 7; int_ 8]);
                     ("x", ndarray int64 [int_ 9; int_ 10])])).
  reflexivity.
Defined.

